(** * Layout search engine: geometry, generator, evaluator, optimizer

    A shallow embedding of [core_data_structures.py], [evaluation_system.py]
    and [monte_carlo_engine.py].

    Numbers.  The Python code computes with [float] (and [int]) values.  They
    are modelled by exact rationals [Q]: rounding, overflow and NaN are outside
    the model.  Division is the one arithmetic operation that can raise
    ([ZeroDivisionError] when the divisor is zero) and is modelled as such;
    a division by a non-zero literal is written with [/].  [x ** 0.5] has no
    rational counterpart and is a parameter [pow_half].

    A sum, a difference, a product or a quotient of the code is the rounded
    one, which can differ from the exact one in the last place:
    [1e16 + 1] is [1e16], and the mean of ten scores [0.3] is
    [0.29999999999999993].  The properties below are therefore stated on the
    values the code itself computes and compares (the sides [right] and
    [bottom] of a rectangle rather than its width and height, the score of a
    room rather than a mean, equality of two results computed in the same
    way rather than a closed value), so that they do not rest on the
    arithmetic being exact.

    Effects.  The module-level random source and the allocation of objects
    (which decides [id(self)]) are threaded explicitly through a state and
    exception monad [M], together with the fields of the optimizer object.

    Objects.  Rooms and layouts are values.  The code shares a [Rectangle]
    between objects (the footprint among all layouts, the bounds of a room
    between a parent and its child after a crossover) but changes one in
    place only in a fresh copy made by [Layout.copy], so sharing is not
    observable.  [room_requirements] is a [dict] from room types to counts
    and is kept as the list of its items, in insertion order; a count is a
    natural number.  The evaluation function given to the optimizer is taken
    to be a function of the layout. *)

From Stdlib Require Import String Ascii.
From Stdlib Require Import List Bool Arith ZArith QArith Qminmax Qabs Lia Lqa.
From Stdlib Require Import Permutation Sorted.
Import ListNotations.

Set Implicit Arguments.

Local Open Scope Q_scope.

(* ===================================================================== *)
(** ** Exceptions and results *)

Inductive exn : Type :=
| ZeroDivisionError
| IndexError
| ValueError.

(** The outcome of a call: a value, a raised exception, or [Timeout] when a
    [while] loop of the model has used up its fuel. *)
Inductive result (A : Type) : Type :=
| Ok (a : A)
| Raise (e : exn)
| Timeout.

Arguments Ok {A} a.
Arguments Raise {A} e.
Arguments Timeout {A}.

Definition rbind {A B} (r : result A) (k : A -> result B) : result B :=
  match r with
  | Ok a => k a
  | Raise e => Raise e
  | Timeout => Timeout
  end.

Declare Scope result_scope.
Delimit Scope result_scope with result.
Notation "'let?' x ':=' r 'in' k" := (rbind r (fun x => k))
  (at level 10, x name, r at level 100, k at level 200) : result_scope.

(** Python's [a / b] on numbers. *)
Definition pydiv (a b : Q) : result Q :=
  if Qeq_bool b 0 then Raise ZeroDivisionError else Ok (a / b).

(** [int(x)]: truncation toward zero. *)
Definition py_int (x : Q) : Z := Z.quot (Qnum x) (Zpos (Qden x)).

(** [range(n)] for an integer [n]: empty when [n <= 0]. *)
Definition py_range (n : Z) : list nat := seq 0 (Z.to_nat n).

Definition Qltb (a b : Q) : bool := negb (Qle_bool b a).

(** [max(a, b)] and [min(a, b)] return the first argument unless the second
    is strictly larger (smaller). *)
Definition pymax (a b : Q) : Q := if Qltb a b then b else a.
Definition pymin (a b : Q) : Q := if Qltb b a then b else a.
Definition pyabs (a : Q) : Q := if Qltb a 0 then - a else a.

Definition Qsum (l : list Q) : Q := fold_left Qplus l 0.

(* ===================================================================== *)
(** ** core_data_structures.py *)

Inductive RoomType : Type :=
| LIVING_ROOM | BEDROOM | KITCHEN | BATHROOM | DINING_ROOM
| STUDY | BALCONY | STORAGE | HALLWAY.

Definition RoomType_eqb (a b : RoomType) : bool :=
  match a, b with
  | LIVING_ROOM, LIVING_ROOM | BEDROOM, BEDROOM | KITCHEN, KITCHEN
  | BATHROOM, BATHROOM | DINING_ROOM, DINING_ROOM | STUDY, STUDY
  | BALCONY, BALCONY | STORAGE, STORAGE | HALLWAY, HALLWAY => true
  | _, _ => false
  end.

Inductive Orientation : Type := NORTH | SOUTH | EAST | WEST.

Definition Orientation_eq_dec (a b : Orientation) : {a = b} + {a <> b}.
Proof. decide equality. Defined.

Record Point : Type := mkPoint { pt_x : Q; pt_y : Q }.

Record Rectangle : Type := mkRectangle {
  rect_x : Q;
  rect_y : Q;
  width : Q;
  height : Q
}.

Definition left (r : Rectangle) : Q := rect_x r.
Definition right (r : Rectangle) : Q := rect_x r + width r.
Definition top (r : Rectangle) : Q := rect_y r.
Definition bottom (r : Rectangle) : Q := rect_y r + height r.
Definition center (r : Rectangle) : Point :=
  mkPoint (rect_x r + width r / 2) (rect_y r + height r / 2).
Definition area (r : Rectangle) : Q := width r * height r.

Definition contains_point (r : Rectangle) (p : Point) : bool :=
  (Qle_bool (left r) (pt_x p) && Qle_bool (pt_x p) (right r))
  && (Qle_bool (top r) (pt_y p) && Qle_bool (pt_y p) (bottom r)).

Definition intersects (r other : Rectangle) : bool :=
  negb (Qle_bool (right r) (left other)
        || Qle_bool (right other) (left r)
        || Qle_bool (bottom r) (top other)
        || Qle_bool (bottom other) (top r)).

Record Furniture : Type := mkFurniture {
  name : string;
  furn_width : Q;
  furn_height : Q;
  can_rotate : bool;
  category : string;
  position : Point;
  is_rotated : bool;
  is_placed : bool
}.

Definition current_width (f : Furniture) : Q :=
  if is_rotated f then furn_height f else furn_width f.
Definition current_height (f : Furniture) : Q :=
  if is_rotated f then furn_width f else furn_height f.

(** [Room.id] is [id(self)], the address of the object: see [Room_init]. *)
Record Room : Type := mkRoom {
  room_type : RoomType;
  bounds : Rectangle;
  min_area : Q;
  orientation : option Orientation;
  furniture : list Furniture;
  doors : list Rectangle;
  windows : list Rectangle;
  id : Z
}.

Definition room_area (r : Room) : Q := area (bounds r).

Definition used_area (r : Room) : Q :=
  Qsum (map (fun f => current_width f * current_height f)
            (filter is_placed (furniture r))).

(** [used_area / area if area > 0 else 0] *)
Definition room_utilization_rate (r : Room) : result Q :=
  if Qltb 0 (room_area r) then pydiv (used_area r) (room_area r) else Ok 0.

Definition set_bounds (r : Room) (b : Rectangle) : Room :=
  mkRoom (room_type r) b (min_area r) (orientation r) (furniture r)
         (doors r) (windows r) (id r).

Record Layout : Type := mkLayout {
  layout_bounds : Rectangle;
  rooms : list Room;
  hallways : list Rectangle;
  fitness_score : Q;
  generation_id : Z;
  metadata : list (string * string)
}.

(** [Layout.__init__] *)
Definition Layout_init (b : Rectangle) : Layout := mkLayout b [] [] 0 0 [].

Definition total_area (l : Layout) : Q := area (layout_bounds l).
Definition layout_room_area (l : Layout) : Q := Qsum (map room_area (rooms l)).
Definition hallway_area (l : Layout) : Q := Qsum (map area (hallways l)).

Definition utilization_rate (l : Layout) : result Q :=
  let usable_area := layout_room_area l + hallway_area l in
  if Qltb 0 (total_area l) then pydiv usable_area (total_area l) else Ok 0.

Definition add_room (l : Layout) (r : Room) : Layout :=
  mkLayout (layout_bounds l) (rooms l ++ [r]) (hallways l) (fitness_score l)
           (generation_id l) (metadata l).

Definition add_hallway (l : Layout) (h : Rectangle) : Layout :=
  mkLayout (layout_bounds l) (rooms l) (hallways l ++ [h]) (fitness_score l)
           (generation_id l) (metadata l).

Definition set_rooms (l : Layout) (rs : list Room) : Layout :=
  mkLayout (layout_bounds l) rs (hallways l) (fitness_score l)
           (generation_id l) (metadata l).

Definition set_hallways (l : Layout) (hs : list Rectangle) : Layout :=
  mkLayout (layout_bounds l) (rooms l) hs (fitness_score l)
           (generation_id l) (metadata l).

Definition set_metadata (l : Layout) (m : list (string * string)) : Layout :=
  mkLayout (layout_bounds l) (rooms l) (hallways l) (fitness_score l)
           (generation_id l) m.

Definition set_fitness_score (l : Layout) (s : Q) : Layout :=
  mkLayout (layout_bounds l) (rooms l) (hallways l) s
           (generation_id l) (metadata l).

Definition get_rooms_by_type (l : Layout) (t : RoomType) : list Room :=
  filter (fun r => RoomType_eqb (room_type r) t) (rooms l).

Record RoomTemplate : Type := mkRoomTemplate {
  tpl_room_type : RoomType;
  tpl_min_area : Q;
  tpl_max_area : Q;
  aspect_ratio_min : Q;
  aspect_ratio_max : Q
}.

Record LayoutConstraints : Type := mkLayoutConstraints {
  min_room_distance : Q;
  max_total_rooms : Z;
  min_hallway_width : Q;
  max_corridor_length : Q;
  adjacency_rules : list (RoomType * list RoomType);
  separation_rules : list ((RoomType * RoomType) * Q)
}.

(** [LayoutConstraints.__init__] *)
Definition LayoutConstraints_init : LayoutConstraints :=
  mkLayoutConstraints 1 15 (12 # 10) 10
    [ (KITCHEN, [DINING_ROOM; LIVING_ROOM]);
      (BEDROOM, [BATHROOM]);
      (LIVING_ROOM, [DINING_ROOM; HALLWAY]);
      (BATHROOM, [BEDROOM; HALLWAY]) ]
    [ ((BEDROOM, KITCHEN), 2);
      ((BATHROOM, KITCHEN), 15 # 10);
      ((BEDROOM, LIVING_ROOM), 1) ].

(* ===================================================================== *)
(** ** The Python runtime the code relies on

    The [random] module, the allocator behind [id(self)] and [x ** 0.5] are
    not code of the repository.  They are taken as an interface; [RuntimeOk]
    states what their documentation promises.

    - [rng_random]: [random.random()], a number in [[0, 1)].
    - [rng_randbelow n]: the index drawn by [random.choice] in a sequence of
      length [n].
    - [rng_shuffle n]: the order in which [random.shuffle] leaves the [n]
      positions of a list.
    - [rng_sample n k]: the [k] positions [random.sample] picks out of [n]
      (unique positions: sampling without replacement).
    - [fresh_id live]: the address given to a new object when the objects
      at the addresses [live] exist.  Objects are never freed in the model.
    - [pow_half x]: [x ** 0.5]. *)

Class Runtime : Type := {
  rng_state : Type;
  rng_random : rng_state -> Q * rng_state;
  rng_randbelow : nat -> rng_state -> nat * rng_state;
  rng_shuffle : nat -> rng_state -> list nat * rng_state;
  rng_sample : nat -> nat -> rng_state -> list nat * rng_state;
  fresh_id : list Z -> Z;
  pow_half : Q -> Q
}.

Record RuntimeOk (E : Runtime) : Prop := {
  random_range : forall s, 0 <= fst (rng_random s) /\ fst (rng_random s) < 1;
  randbelow_lt : forall n s, (0 < n)%nat -> (fst (rng_randbelow n s) < n)%nat;
  shuffle_perm : forall n s, Permutation (fst (rng_shuffle n s)) (seq 0 n);
  sample_spec : forall n k s, (k <= n)%nat ->
      length (fst (rng_sample n k s)) = k
      /\ NoDup (fst (rng_sample n k s))
      /\ Forall (fun i => (i < n)%nat) (fst (rng_sample n k s));
  fresh_id_fresh : forall live, ~ In (fresh_id live) live;
  pow_half_pos : forall q, 0 < q -> 0 < pow_half q
}.

(* ===================================================================== *)
(** ** evaluation_system.py *)

Record EvaluationConfig : Type := mkEvaluationConfig {
  space_efficiency_weight : Q;
  lighting_weight : Q;
  ventilation_weight : Q;
  circulation_weight : Q;
  comfort_weight : Q;
  min_room_efficiency : Q;
  ideal_utilization_rate : Q;
  corridor_penalty_factor : Q;
  max_depth_from_window : Q;
  window_area_ratio : Q;
  light_decay_factor : Q;
  min_ventilation_path : Q;
  cross_ventilation_bonus : Q;
  dead_space_penalty : Q;
  max_circulation_distance : Q;
  intersection_penalty : Q;
  connection_bonus : Q;
  noise_reduction_factor : Q;
  privacy_weight : Q;
  social_area_bonus : Q
}.

Definition EvaluationConfig_default : EvaluationConfig :=
  mkEvaluationConfig (25 # 100) (20 # 100) (15 # 100) (20 # 100) (20 # 100)
    (4 # 10) (75 # 100) (8 # 10)
    6 (15 # 100) (1 # 10)
    2 (12 # 10) (5 # 10)
    15 (3 # 10) (2 # 10)
    (8 # 10) (5 # 10) (11 # 10).

(** A [for] loop whose body can raise, with an accumulator. *)
Fixpoint rfold {A B : Type} (f : B -> A -> result B) (l : list A) (acc : B)
  : result B :=
  match l with
  | [] => Ok acc
  | a :: l' => rbind (f acc a) (fun acc' => rfold f l' acc')
  end.

(** [len(l)] as a number. *)
Definition len {A : Type} (l : list A) : Q := inject_Z (Z.of_nat (length l)).

(** The pairs [(l[i], l[j])], [i < j], in the order of
    [for i, a in enumerate(l): for b in l[i+1:]]. *)
Fixpoint pairs_after {A : Type} (l : list A) : list (A * A) :=
  match l with
  | [] => []
  | a :: l' => map (fun b => (a, b)) l' ++ pairs_after l'
  end.

(** [{room.room_type: room for room in rooms}[t]]: the last room of type
    [t] wins. *)
Definition room_dict_get (rs : list Room) (t : RoomType) : option Room :=
  find (fun r => RoomType_eqb (room_type r) t) (rev rs).

Definition is_nil {A : Type} (l : list A) : bool :=
  match l with [] => true | _ => false end.

(** Python [dict] with string keys, in insertion order. *)
Fixpoint dict_set {V : Type} (k : string) (v : V) (d : list (string * V))
  : list (string * V) :=
  match d with
  | [] => [(k, v)]
  | (k', v') :: d' =>
      if String.eqb k' k then (k, v) :: d' else (k', v') :: dict_set k v d'
  end.

Fixpoint dict_get {V : Type} (k : string) (d : list (string * V)) : option V :=
  match d with
  | [] => None
  | (k', v') :: d' => if String.eqb k' k then Some v' else dict_get k d'
  end.

(** [s.replace(old, '')] for a non-empty [old]; [skip] characters of an
    occurrence found earlier are still to be dropped. *)
Fixpoint str_remove (old : string) (skip : nat) (s : string) : string :=
  match s with
  | EmptyString => EmptyString
  | String c rest =>
      match skip with
      | S k => str_remove old k rest
      | O =>
          if String.prefix old s
          then match String.length old with
               | O => String c (str_remove old 0 rest)
               | S k => str_remove old k rest
               end
          else String c (str_remove old 0 rest)
      end
  end.

Definition ascii_lower (c : ascii) : ascii :=
  let n := nat_of_ascii c in
  if ((65 <=? n) && (n <=? 90))%nat then ascii_of_nat (n + 32) else c.

Fixpoint str_lower (s : string) : string :=
  match s with
  | EmptyString => EmptyString
  | String c rest => String (ascii_lower c) (str_lower rest)
  end.

Section Evaluators.

Context {E : Runtime}.
Variable config : EvaluationConfig.

Local Open Scope result_scope.

Definition distance_to (p other : Point) : Q :=
  pow_half ((pt_x p - pt_x other) * (pt_x p - pt_x other)
            + (pt_y p - pt_y other) * (pt_y p - pt_y other)).

(** *** SpaceEfficiencyEvaluator *)

Definition _evaluate_utilization_rate (rate : Q) : result Q :=
  let ideal := ideal_utilization_rate config in
  let deviation := pyabs (rate - ideal) in
  let? d := pydiv deviation ideal in
  Ok (pymax 0 (1 - d)).

Definition _evaluate_room_shape (aspect_ratio : Q) : Q :=
  if Qle_bool (8 # 10) aspect_ratio && Qle_bool aspect_ratio (125 # 100) then 1
  else if Qle_bool (6 # 10) aspect_ratio && Qle_bool aspect_ratio (167 # 100)
       then 8 # 10
       else 5 # 10.

Definition area_standards (t : RoomType) : option (Q * Q) :=
  match t with
  | LIVING_ROOM => Some (15, 40)
  | BEDROOM => Some (8, 25)
  | KITCHEN => Some (6, 20)
  | BATHROOM => Some (3, 12)
  | DINING_ROOM => Some (10, 25)
  | STUDY => Some (6, 18)
  | _ => None
  end.

Definition _evaluate_area_appropriateness (room : Room) : result Q :=
  let standards :=
    match area_standards (room_type room) with
    | Some s => s
    | None => (5, 30)
    end in
  let '(min_area, max_area) := standards in
  if Qle_bool min_area (room_area room) && Qle_bool (room_area room) max_area
  then Ok 1
  else if Qltb (room_area room) min_area
       then pydiv (room_area room) min_area
       else let? d := pydiv (room_area room - max_area) max_area in
            Ok (pymax 0 (1 - d)).

Definition _evaluate_room_efficiency (layout : Layout) : result Q :=
  if is_nil (rooms layout) then Ok 0
  else
    let? total_efficiency :=
      rfold (fun total_efficiency room =>
               let? aspect_ratio :=
                 pydiv (width (bounds room)) (height (bounds room)) in
               let shape_efficiency := _evaluate_room_shape aspect_ratio in
               let? furniture_efficiency := room_utilization_rate room in
               let? area_efficiency := _evaluate_area_appropriateness room in
               let room_score :=
                 (shape_efficiency + furniture_efficiency + area_efficiency) / 3
               in Ok (total_efficiency + room_score))
            (rooms layout) 0 in
    pydiv total_efficiency (len (rooms layout)).

Definition _evaluate_hallway_efficiency (layout : Layout) : result Q :=
  if is_nil (hallways layout) then Ok 1
  else
    let total_hallway_area := hallway_area layout in
    let total_area := total_area layout in
    let? hallway_ratio := pydiv total_hallway_area total_area in
    if Qltb hallway_ratio (5 # 100) then Ok 1
    else if Qltb hallway_ratio (1 # 10) then Ok (8 # 10)
    else if Qltb hallway_ratio (15 # 100) then Ok (6 # 10)
    else Ok (3 # 10).

Definition SpaceEfficiencyEvaluator_evaluate (layout : Layout) : result Q :=
  let score := 0 in
  let? utilization_rate := utilization_rate layout in
  let? utilization_score := _evaluate_utilization_rate utilization_rate in
  let score := score + utilization_score * (3 # 10) in
  let? room_efficiency_score := _evaluate_room_efficiency layout in
  let score := score + room_efficiency_score * (4 # 10) in
  let? hallway_efficiency_score := _evaluate_hallway_efficiency layout in
  let score := score + hallway_efficiency_score * (3 # 10) in
  Ok score.

(** *** LightingEvaluator *)

Definition _evaluate_window_coverage (layout : Layout) : result Q :=
  if is_nil (rooms layout) then Ok 0
  else
    let '(total_window_area, total_wall_area) :=
      fold_left
        (fun '(total_window_area, total_wall_area) room =>
           let perimeter := 2 * (width (bounds room) + height (bounds room)) in
           let wall_area := perimeter * (28 # 10) in
           let window_area :=
             Qsum (map (fun w => width w * height w) (windows room)) in
           (total_window_area + window_area, total_wall_area + wall_area))
        (rooms layout) (0, 0) in
    if Qeq_bool total_wall_area 0 then Ok 0
    else
      let? window_ratio := pydiv total_window_area total_wall_area in
      let ideal_ratio := window_area_ratio config in
      let? d := pydiv (pyabs (window_ratio - ideal_ratio)) ideal_ratio in
      Ok (pymax 0 (1 - d)).

(** The score of one room in [_evaluate_lighting_uniformity].  [min_distance]
    starts at [float('inf')]; the windows are not empty in the second branch,
    so the first distance replaces it. *)
Definition lighting_uniformity_room (room : Room) : result Q :=
  match windows room with
  | [] => Ok (3 # 10)
  | w0 :: ws =>
      let center := center (bounds room) in
      let window_center w :=
        mkPoint (rect_x w + width w / 2) (rect_y w + height w / 2) in
      let min_distance :=
        fold_left (fun min_distance w =>
                     pymin min_distance (distance_to center (window_center w)))
                  ws (distance_to center (window_center w0)) in
      let max_distance := max_depth_from_window config in
      let? d := pydiv min_distance max_distance in
      let distance_score := pymax 0 (1 - d) in
      let? a := pydiv 30 (room_area room) in
      let area_factor := pymin 1 a in
      Ok (distance_score * area_factor)
  end.

Definition _evaluate_lighting_uniformity (layout : Layout) : result Q :=
  let? room_scores :=
    rfold (fun room_scores room =>
             let? s := lighting_uniformity_room room in
             Ok (room_scores ++ [s]))
          (rooms layout) [] in
  if is_nil room_scores then Ok 0
  else pydiv (Qsum room_scores) (len room_scores).

(** The wall a window is taken to lie on. *)
Definition window_orientation (room : Room) (window : Rectangle)
  : option Orientation :=
  if Qle_bool (rect_x window) (rect_x (bounds room) + (1 # 10)) then Some WEST
  else if Qle_bool (right (bounds room) - (1 # 10))
                   (rect_x window + width window) then Some EAST
  else if Qle_bool (rect_y window) (rect_y (bounds room) + (1 # 10))
       then Some NORTH
  else if Qle_bool (bottom (bounds room) - (1 # 10))
                   (rect_y window + height window) then Some SOUTH
  else None.

Definition room_orientations (room : Room) : list Orientation :=
  nodup Orientation_eq_dec
    (flat_map (fun w => match window_orientation room w with
                        | Some o => [o]
                        | None => []
                        end) (windows room)).

Definition _evaluate_lighting_sources (layout : Layout) : Q :=
  let important_rooms := [LIVING_ROOM; BEDROOM; KITCHEN] in
  let score :=
    fold_left
      (fun score room_type =>
         fold_left
           (fun score room =>
              if is_nil (windows room) then score
              else
                let orientation_score :=
                  pymin 1 (len (room_orientations room) / 2) in
                score + orientation_score)
           (get_rooms_by_type layout room_type) score)
      important_rooms 0 in
  score / (len important_rooms * 2).

Definition LightingEvaluator_evaluate (layout : Layout) : result Q :=
  let score := 0 in
  let? window_coverage_score := _evaluate_window_coverage layout in
  let score := score + window_coverage_score * (3 # 10) in
  let? uniformity_score := _evaluate_lighting_uniformity layout in
  let score := score + uniformity_score * (4 # 10) in
  let source_config_score := _evaluate_lighting_sources layout in
  let score := score + source_config_score * (3 # 10) in
  Ok score.

(** *** VentilationEvaluator *)

Definition _evaluate_ventilation_paths (layout : Layout) : result Q :=
  if is_nil (rooms layout) then Ok 0
  else
    let room_scores :=
      map (fun room =>
             let ventilation_openings :=
               (length (doors room) + length (windows room))%nat in
             if (2 <=? ventilation_openings)%nat then 1
             else if (ventilation_openings =? 1)%nat then 6 # 10
             else 2 # 10)
          (rooms layout) in
    pydiv (Qsum room_scores) (len room_scores).

Inductive Wall : Type := wall_left | wall_right | wall_top | wall_bottom.

Definition Wall_eqb (a b : Wall) : bool :=
  match a, b with
  | wall_left, wall_left | wall_right, wall_right
  | wall_top, wall_top | wall_bottom, wall_bottom => true
  | _, _ => false
  end.

Definition window_position (room : Room) (window : Rectangle) : option Wall :=
  if Qle_bool (rect_x window) (rect_x (bounds room) + (1 # 10))
  then Some wall_left
  else if Qle_bool (right (bounds room) - (1 # 10))
                   (rect_x window + width window) then Some wall_right
  else if Qle_bool (rect_y window) (rect_y (bounds room) + (1 # 10))
       then Some wall_top
  else if Qle_bool (bottom (bounds room) - (1 # 10))
                   (rect_y window + height window) then Some wall_bottom
  else None.

Definition has_cross_ventilation (room : Room) : bool :=
  if (2 <=? length (windows room))%nat then
    let window_positions :=
      flat_map (fun w => match window_position room w with
                         | Some p => [p]
                         | None => []
                         end) (windows room) in
    let mem p := existsb (Wall_eqb p) window_positions in
    (mem wall_left && mem wall_right) || (mem wall_top && mem wall_bottom)
  else false.

Definition _evaluate_cross_ventilation (layout : Layout) : result Q :=
  let cross_ventilation_count :=
    length (filter has_cross_ventilation (rooms layout)) in
  let total_rooms := length (rooms layout) in
  if (total_rooms =? 0)%nat then Ok 0
  else
    let? r := pydiv (inject_Z (Z.of_nat cross_ventilation_count))
                    (inject_Z (Z.of_nat total_rooms)) in
    Ok (r * cross_ventilation_bonus config).

Definition _evaluate_air_circulation (layout : Layout) : result Q :=
  let connectivity_score :=
    fold_left (fun connectivity_score room =>
                 let connections := len (doors room) in
                 let room_score := pymin 1 (connections / 2) in
                 connectivity_score + room_score)
              (rooms layout) 0 in
  if is_nil (rooms layout) then Ok 0
  else pydiv connectivity_score (len (rooms layout)).

Definition VentilationEvaluator_evaluate (layout : Layout) : result Q :=
  let score := 0 in
  let? path_score := _evaluate_ventilation_paths layout in
  let score := score + path_score * (4 # 10) in
  let? cross_ventilation_score := _evaluate_cross_ventilation layout in
  let score := score + cross_ventilation_score * (3 # 10) in
  let? circulation_score := _evaluate_air_circulation layout in
  let score := score + circulation_score * (3 # 10) in
  Ok score.

(** *** CirculationEvaluator *)

Definition _evaluate_connection_efficiency (layout : Layout) : result Q :=
  let important_rooms := [LIVING_ROOM; KITCHEN; BEDROOM] in
  let room_dict := room_dict_get (rooms layout) in
  let? acc :=
    rfold (fun '(connection_score, total_connections) '(room_type1, room_type2) =>
             match room_dict room_type1, room_dict room_type2 with
             | Some room1, Some room2 =>
                 let distance :=
                   distance_to (center (bounds room1)) (center (bounds room2)) in
                 let max_distance := max_circulation_distance config in
                 let? d := pydiv distance max_distance in
                 let distance_score := pymax 0 (1 - d) in
                 Ok (connection_score + distance_score,
                     S total_connections)
             | _, _ => Ok (connection_score, total_connections)
             end)
          (pairs_after important_rooms) (0, O) in
  let '(connection_score, total_connections) := acc in
  if (0 <? total_connections)%nat
  then pydiv connection_score (inject_Z (Z.of_nat total_connections))
  else Ok 0.

Definition _evaluate_path_lengths (layout : Layout) : result Q :=
  if is_nil (hallways layout) then Ok 1
  else
    let total_hallway_length :=
      Qsum (map (fun h => pymax (width h) (height h)) (hallways layout)) in
    let ideal_length := total_area layout * (1 # 10) in
    let deviation := pyabs (total_hallway_length - ideal_length) in
    let? d := pydiv deviation ideal_length in
    Ok (pymax 0 (1 - d)).

Definition _evaluate_circulation_intersections (layout : Layout) : result Q :=
  let intersections :=
    length (filter (fun '(hallway1, hallway2) => intersects hallway1 hallway2)
                   (pairs_after (hallways layout))) in
  let max_intersections := (length (hallways layout) / 2)%nat in
  let? d := pydiv (inject_Z (Z.of_nat intersections))
                  (inject_Z (Z.of_nat (Nat.max 1 max_intersections))) in
  Ok (pymax 0 (1 - d)).

Definition CirculationEvaluator_evaluate (layout : Layout) : result Q :=
  let score := 0 in
  let? connection_score := _evaluate_connection_efficiency layout in
  let score := score + connection_score * (3 # 10) in
  let? path_length_score := _evaluate_path_lengths layout in
  let score := score + path_length_score * (4 # 10) in
  let? intersection_score := _evaluate_circulation_intersections layout in
  let score := score + intersection_score * (3 # 10) in
  Ok score.

(** *** ComfortEvaluator *)

(** [sum(scores) / len(scores) if scores else default] *)
Definition mean_or (default : Q) (scores : list Q) : result Q :=
  if is_nil scores then Ok default else pydiv (Qsum scores) (len scores).

Definition _evaluate_noise_isolation (layout : Layout) : result Q :=
  let noise_sources := [KITCHEN; BATHROOM] in
  let quiet_zones := [BEDROOM; STUDY] in
  let room_dict := room_dict_get (rooms layout) in
  let isolation_scores :=
    flat_map
      (fun source_type =>
         match room_dict source_type with
         | None => []
         | Some source_room =>
             let source_center := center (bounds source_room) in
             flat_map
               (fun quiet_type =>
                  match room_dict quiet_type with
                  | None => []
                  | Some quiet_room =>
                      let quiet_center := center (bounds quiet_room) in
                      let distance := distance_to source_center quiet_center in
                      [pymin 1 (distance / 5)]
                  end)
               quiet_zones
         end)
      noise_sources in
  mean_or 1 isolation_scores.

Definition is_public_door (room : Room) (door : Rectangle) : bool :=
  Qle_bool (rect_x door) (rect_x (bounds room) + (5 # 10))
  || Qle_bool (right (bounds room) - (5 # 10)) (rect_x door + width door)
  || Qle_bool (rect_y door) (rect_y (bounds room) + (5 # 10))
  || Qle_bool (bottom (bounds room) - (5 # 10)) (rect_y door + height door).

Definition _evaluate_privacy (layout : Layout) : result Q :=
  let private_rooms := [BEDROOM; BATHROOM] in
  let room_dict := room_dict_get (rooms layout) in
  let privacy_scores :=
    flat_map
      (fun room_type =>
         match room_dict room_type with
         | None => []
         | Some room =>
             let public_access :=
               len (filter (is_public_door room) (doors room)) in
             [pymax 0 (1 - public_access / 2)]
         end)
      private_rooms in
  mean_or 1 privacy_scores.

Definition _evaluate_social_spaces (layout : Layout) : result Q :=
  let social_rooms := [LIVING_ROOM; DINING_ROOM] in
  let room_dict := room_dict_get (rooms layout) in
  let? social_score :=
    rfold (fun social_score room_type =>
             match room_dict room_type with
             | None => Ok social_score
             | Some room =>
                 let ideal_area :=
                   if RoomType_eqb room_type LIVING_ROOM then 20 else 15 in
                 let area_score := pymin 1 (room_area room / ideal_area) in
                 let? aspect_ratio :=
                   pydiv (width (bounds room)) (height (bounds room)) in
                 let shape_score :=
                   if Qle_bool (8 # 10) aspect_ratio
                      && Qle_bool aspect_ratio (125 # 100)
                   then 1 else 7 # 10 in
                 Ok (social_score + (area_score + shape_score) / 2)
             end)
          social_rooms 0 in
  Ok (social_score / len social_rooms * social_area_bonus config).

Definition zone_score (layout : Layout) (zone : list RoomType) : result Q :=
  let zone_rooms :=
    filter (fun room => existsb (RoomType_eqb (room_type room)) zone)
           (rooms layout) in
  if (length zone_rooms <? 2)%nat then Ok 1
  else
    let centers := map (fun room => center (bounds room)) zone_rooms in
    let? ax := pydiv (Qsum (map pt_x centers)) (len centers) in
    let? ay := pydiv (Qsum (map pt_y centers)) (len centers) in
    let avg_center := mkPoint ax ay in
    let? avg_distance :=
      pydiv (Qsum (map (fun c => distance_to c avg_center) centers))
            (len centers) in
    Ok (pymax 0 (1 - avg_distance / 10)).

Definition _evaluate_functional_zoning (layout : Layout) : result Q :=
  let living_zone := [LIVING_ROOM; DINING_ROOM] in
  let private_zone := [BEDROOM; STUDY] in
  let service_zone := [KITCHEN; BATHROOM] in
  let zones := [living_zone; private_zone; service_zone] in
  let? zone_scores :=
    rfold (fun zone_scores zone =>
             let? s := zone_score layout zone in
             Ok (zone_scores ++ [s]))
          zones [] in
  pydiv (Qsum zone_scores) (len zone_scores).

Definition ComfortEvaluator_evaluate (layout : Layout) : result Q :=
  let score := 0 in
  let? noise_score := _evaluate_noise_isolation layout in
  let score := score + noise_score * (3 # 10) in
  let? privacy_score := _evaluate_privacy layout in
  let score := score + privacy_score * (3 # 10) in
  let? social_score := _evaluate_social_spaces layout in
  let score := score + social_score * (2 # 10) in
  let? functional_score := _evaluate_functional_zoning layout in
  let score := score + functional_score * (2 # 10) in
  Ok score.

(** *** MultiDimensionalEvaluator *)

Inductive EvaluatorClass : Type :=
| SpaceEfficiencyEvaluator
| LightingEvaluator
| VentilationEvaluator
| CirculationEvaluator
| ComfortEvaluator.

(** An evaluator object: its class and the weight given to [__init__]. *)
Record Evaluator : Type := mkEvaluator {
  evaluator_class : EvaluatorClass;
  weight : Q
}.

Definition Evaluator_evaluate (e : Evaluator) (layout : Layout) : result Q :=
  match evaluator_class e with
  | SpaceEfficiencyEvaluator => SpaceEfficiencyEvaluator_evaluate layout
  | LightingEvaluator => LightingEvaluator_evaluate layout
  | VentilationEvaluator => VentilationEvaluator_evaluate layout
  | CirculationEvaluator => CirculationEvaluator_evaluate layout
  | ComfortEvaluator => ComfortEvaluator_evaluate layout
  end.

(** [self.evaluators] of [MultiDimensionalEvaluator.__init__]. *)
Definition evaluators : list Evaluator :=
  [ mkEvaluator SpaceEfficiencyEvaluator (space_efficiency_weight config);
    mkEvaluator LightingEvaluator (lighting_weight config);
    mkEvaluator VentilationEvaluator (ventilation_weight config);
    mkEvaluator CirculationEvaluator (circulation_weight config);
    mkEvaluator ComfortEvaluator (comfort_weight config) ].

Definition evaluate (layout : Layout) : result Q :=
  rfold (fun total_score evaluator =>
           let? score := Evaluator_evaluate evaluator layout in
           let weighted_score := score * weight evaluator in
           Ok (total_score + weighted_score))
        evaluators 0.

(** [evaluator.__class__.__name__] *)
Definition class_name (c : EvaluatorClass) : string :=
  match c with
  | SpaceEfficiencyEvaluator => "SpaceEfficiencyEvaluator"
  | LightingEvaluator => "LightingEvaluator"
  | VentilationEvaluator => "VentilationEvaluator"
  | CirculationEvaluator => "CirculationEvaluator"
  | ComfortEvaluator => "ComfortEvaluator"
  end.

(** One value of the dictionary [evaluate_detailed] returns. *)
Record DetailEntry : Type := mkDetailEntry {
  entry_score : Q;
  entry_weight : Q;
  entry_weighted_score : Q
}.

Definition evaluate_detailed (layout : Layout)
  : result (list (string * DetailEntry)) :=
  let? acc :=
    rfold (fun '(results, total_score) evaluator =>
             let? score := Evaluator_evaluate evaluator layout in
             let weighted_score := score * weight evaluator in
             let evaluator_name :=
               str_lower (str_remove "Evaluator" 0
                            (class_name (evaluator_class evaluator))) in
             let results :=
               dict_set evaluator_name
                 (mkDetailEntry score (weight evaluator) weighted_score)
                 results in
             Ok (results, total_score + weighted_score))
          evaluators ([], 0) in
  let '(results, total_score) := acc in
  Ok (dict_set "total"
        (mkDetailEntry total_score (Qsum (map weight evaluators)) total_score)
        results).

End Evaluators.

(* ===================================================================== *)
(** ** monte_carlo_engine.py *)

Record MonteCarloConfig : Type := mkMonteCarloConfig {
  max_iterations : Z;
  population_size : Z;
  mutation_rate : Q;
  crossover_rate : Q;
  temperature_start : Q;
  temperature_end : Q;
  cooling_rate : Q;
  elite_ratio : Q;
  convergence_threshold : Q;
  max_no_improvement : Z;
  min_room_area : Q;
  max_room_area : Q;
  min_aspect_ratio : Q;
  max_aspect_ratio : Q;
  wall_thickness : Q
}.

Definition MonteCarloConfig_default : MonteCarloConfig :=
  mkMonteCarloConfig 10000 50 (3 # 10) (7 # 10) 100 (1 # 100) (995 # 1000)
    (2 # 10) (1 # 1000000) 100 5 50 (5 # 10) 2 (2 # 10).

(** A score or [float('-inf')]. *)
Inductive ExtQ : Type :=
| NegInf
| Fin (q : Q).

(** [a < b] *)
Definition ext_ltb (a b : ExtQ) : bool :=
  match a, b with
  | NegInf, NegInf => false
  | NegInf, Fin _ => true
  | Fin _, NegInf => false
  | Fin p, Fin q => Qltb p q
  end.

(** The fields of a [MonteCarloOptimizer] object that [optimize] updates. *)
Record Optimizer : Type := mkOptimizer {
  generation_count : Z;
  best_score : ExtQ;
  best_layout : option Layout;
  score_history : list ExtQ;
  convergence_count : Z
}.

(** [MonteCarloOptimizer.__init__] *)
Definition Optimizer_init : Optimizer := mkOptimizer 0 NegInf None [] 0.

Section Engine.

Context {E : Runtime}.

(** The state of the program: the random source, the addresses in use and
    the optimizer object. *)
Record World : Type := mkWorld {
  w_rng : rng_state;
  w_live : list Z;
  w_opt : Optimizer
}.

(** Computations with state and exceptions.  The state reached when an
    exception is raised is kept, as in Python. *)
Definition M (A : Type) : Type := World -> result A * World.

Definition ret {A} (a : A) : M A := fun w => (Ok a, w).

Definition bind {A B} (m : M A) (k : A -> M B) : M B :=
  fun w =>
    match m w with
    | (Ok a, w') => k a w'
    | (Raise e, w') => (Raise e, w')
    | (Timeout, w') => (Timeout, w')
    end.

Definition raise {A} (e : exn) : M A := fun w => (Raise e, w).
Definition timeout {A} : M A := fun w => (Timeout, w).

Definition lift {A} (r : result A) : M A := fun w => (r, w).

(** [try: m  except Exception: return None] *)
Definition try_except {A} (m : M A) : M (option A) :=
  fun w =>
    match m w with
    | (Ok a, w') => (Ok (Some a), w')
    | (Raise _, w') => (Ok None, w')
    | (Timeout, w') => (Timeout, w')
    end.

Declare Scope monad_scope.
Delimit Scope monad_scope with monad.
Notation "x <- m ;; k" := (bind m (fun x => k))
  (at level 61, m at next level, right associativity) : monad_scope.
Notation "' p <- m ;; k" := (bind m (fun x => let p := x in k))
  (at level 61, p pattern, m at next level, right associativity) : monad_scope.
Notation "m ;;; k" := (bind m (fun _ => k))
  (at level 61, right associativity) : monad_scope.

Local Open Scope monad_scope.

Fixpoint foldM {A B : Type} (f : B -> A -> M B) (l : list A) (acc : B) : M B :=
  match l with
  | [] => ret acc
  | a :: l' => acc' <- f acc a ;; foldM f l' acc'
  end.

Definition get_opt : M Optimizer := fun w => (Ok (w_opt w), w).
Definition put_opt (o : Optimizer) : M unit :=
  fun w => (Ok tt, mkWorld (w_rng w) (w_live w) o).

(** *** The [random] module *)

Definition with_rng {A} (f : rng_state -> A * rng_state) : M A :=
  fun w => let (a, s) := f (w_rng w) in (Ok a, mkWorld s (w_live w) (w_opt w)).

Definition random : M Q := with_rng rng_random.

(** [random.uniform(a, b)] is [a + (b - a) * random()]. *)
Definition uniform (a b : Q) : M Q := u <- random ;; ret (a + (b - a) * u).

(** [random.choice(l)], with the position chosen. *)
Definition choice_at {A} (l : list A) : M (nat * A) :=
  if is_nil l then raise IndexError
  else
    j <- with_rng (rng_randbelow (length l)) ;;
    match nth_error l j with
    | Some a => ret (j, a)
    | None => raise IndexError
    end.

Definition choice {A} (l : list A) : M A := '(_, a) <- choice_at l ;; ret a.

Definition pick {A} (l : list A) (positions : list nat) : list A :=
  flat_map (fun i => match nth_error l i with
                     | Some a => [a]
                     | None => []
                     end) positions.

Definition shuffle {A} (l : list A) : M (list A) :=
  positions <- with_rng (rng_shuffle (length l)) ;; ret (pick l positions).

(** The positions of [random.sample(l, k)]; [ValueError] when the sample is
    larger than the population. *)
Definition sample_positions (n k : nat) : M (list nat) :=
  if (k <=? n)%nat then with_rng (rng_sample n k) else raise ValueError.

Definition sample {A} (l : list A) (k : nat) : M (list A) :=
  positions <- sample_positions (length l) k ;; ret (pick l positions).

(** *** Objects *)

(** [Room.__init__]: the new object takes a free address, which becomes
    its [id]. *)
Definition Room_init (room_type : RoomType) (bounds : Rectangle)
    (min_area : Q) (orientation : option Orientation) : M Room :=
  fun w =>
    let a := fresh_id (w_live w) in
    (Ok (mkRoom room_type bounds min_area orientation [] [] [] a),
     mkWorld (w_rng w) (a :: w_live w) (w_opt w)).

(** [Layout.copy] *)
Definition Layout_copy (self : Layout) : M Layout :=
  let b := layout_bounds self in
  let new_layout :=
    Layout_init (mkRectangle (rect_x b) (rect_y b) (width b) (height b)) in
  new_layout <-
    foldM (fun new_layout room =>
             new_room <-
               Room_init (room_type room)
                 (mkRectangle (rect_x (bounds room)) (rect_y (bounds room))
                    (width (bounds room)) (height (bounds room)))
                 (min_area room) (orientation room) ;;
             ret (add_room new_layout new_room))
          (rooms self) new_layout ;;
  let new_layout :=
    set_hallways new_layout
      (map (fun h => mkRectangle (rect_x h) (rect_y h) (width h) (height h))
           (hallways self)) in
  let new_layout := set_metadata new_layout (metadata self) in
  ret new_layout.

(** [RoomTemplate.generate_random_size] *)
Definition generate_random_size (t : RoomTemplate) : M (Q * Q) :=
  area <- uniform (tpl_min_area t) (tpl_max_area t) ;;
  aspect_ratio <- uniform (aspect_ratio_min t) (aspect_ratio_max t) ;;
  let width := pow_half (area * aspect_ratio) in
  height <- lift (pydiv area width) ;;
  ret (width, height).

(** *** RandomLayoutGenerator *)

(** [_create_room_templates]: [self.room_templates.get(room_type)] *)
Definition room_templates (t : RoomType) : option RoomTemplate :=
  match t with
  | LIVING_ROOM => Some (mkRoomTemplate LIVING_ROOM 15 40 (8 # 10) (15 # 10))
  | BEDROOM => Some (mkRoomTemplate BEDROOM 8 25 (7 # 10) (14 # 10))
  | KITCHEN => Some (mkRoomTemplate KITCHEN 6 20 (6 # 10) (18 # 10))
  | BATHROOM => Some (mkRoomTemplate BATHROOM 3 12 (5 # 10) 2)
  | DINING_ROOM => Some (mkRoomTemplate DINING_ROOM 10 25 (7 # 10) (16 # 10))
  | STUDY => Some (mkRoomTemplate STUDY 6 18 (6 # 10) (15 # 10))
  | BALCONY => Some (mkRoomTemplate BALCONY 4 15 (3 # 10) 3)
  | STORAGE => Some (mkRoomTemplate STORAGE 2 8 (4 # 10) (25 # 10))
  | HALLWAY => Some (mkRoomTemplate HALLWAY 3 15 (2 # 10) 5)
  end.

Variable config : MonteCarloConfig.
Variable constraints : LayoutConstraints.

Definition _can_place_room_in_space (space : Rectangle) (w h : Q) : bool :=
  Qle_bool (w + 2 * wall_thickness config) (width space)
  && Qle_bool (h + 2 * wall_thickness config) (height space).

Definition _choose_position_in_space (space : Rectangle) (w h : Q)
  : M (Q * Q) :=
  let margin := wall_thickness config in
  u <- random ;;
  let x := rect_x space + margin + u * (width space - w - 2 * margin) in
  v <- random ;;
  let y := rect_y space + margin + v * (height space - h - 2 * margin) in
  ret (x, y).

Definition _split_space (original_space placed_room : Rectangle)
  : list Rectangle :=
  let margin := wall_thickness config in
  (if Qltb (margin * 2) (top placed_room - top original_space)
   then [mkRectangle (rect_x original_space) (rect_y original_space)
           (width original_space)
           (top placed_room - top original_space - margin)]
   else [])
  ++ (if Qltb (margin * 2) (bottom original_space - bottom placed_room)
      then [mkRectangle (rect_x original_space) (bottom placed_room + margin)
              (width original_space)
              (bottom original_space - bottom placed_room - margin)]
      else [])
  ++ (if Qltb (margin * 2) (left placed_room - left original_space)
      then [mkRectangle (rect_x original_space) (top placed_room)
              (left placed_room - left original_space - margin)
              (bottom placed_room - top placed_room)]
      else [])
  ++ (if Qltb (margin * 2) (right original_space - right placed_room)
      then [mkRectangle (right placed_room + margin) (top placed_room)
              (right original_space - right placed_room - margin)
              (bottom placed_room - top placed_room)]
      else []).

(** The candidate positions of [_compact_place_room], row by row. *)
Definition grid_positions (rows cols : Z) : list (nat * nat) :=
  flat_map (fun row => map (fun col => (row, col)) (py_range cols))
           (py_range rows).

Definition _compact_place_room (layout : Layout) (room_type : RoomType)
    (w h : Q) : M Layout :=
  let margin := wall_thickness config in
  let grid_size := 1 in
  let cols := py_int (width (layout_bounds layout) / grid_size) in
  let rows := py_int (height (layout_bounds layout) / grid_size) in
  let candidate '(row, col) :=
    let x := rect_x (layout_bounds layout)
             + inject_Z (Z.of_nat col) * grid_size + margin in
    let y := rect_y (layout_bounds layout)
             + inject_Z (Z.of_nat row) * grid_size + margin in
    mkRectangle x y w h in
  let accepted pos :=
    let room_bounds := candidate pos in
    (Qle_bool (rect_x room_bounds + w) (right (layout_bounds layout) - margin)
     && Qle_bool (rect_y room_bounds + h)
                 (bottom (layout_bounds layout) - margin))
    && negb (existsb (fun existing_room =>
                        intersects room_bounds (bounds existing_room))
                     (rooms layout)) in
  match find accepted (grid_positions rows cols) with
  | Some pos =>
      room <- Room_init room_type (candidate pos) 0 None ;;
      ret (add_room layout room)
  | None => ret layout
  end.

(** The first space of [available_spaces] the room fits in, with its
    index. *)
Fixpoint first_fit (spaces : list Rectangle) (i : nat) (w h : Q)
  : option (nat * Rectangle) :=
  match spaces with
  | [] => None
  | space :: spaces' =>
      if _can_place_room_in_space space w h then Some (i, space)
      else first_fit spaces' (S i) w h
  end.

(** [l.pop(i)] leaves [l] without its element [i]. *)
Definition list_pop {A} (l : list A) (i : nat) : list A :=
  firstn i l ++ skipn (S i) l.

Definition _place_rooms_rectangular_split (layout : Layout)
    (rooms_to_place : list (RoomType * Q * Q)) : M Layout :=
  let available_spaces := [layout_bounds layout] in
  '(layout, _) <-
    foldM (fun '(layout, available_spaces) '(room_type, w, h) =>
             match first_fit available_spaces 0 w h with
             | Some (i, space) =>
                 '(x, y) <- _choose_position_in_space space w h ;;
                 let room_bounds := mkRectangle x y w h in
                 room <- Room_init room_type room_bounds 0 None ;;
                 let layout := add_room layout room in
                 let remaining_spaces := _split_space space room_bounds in
                 ret (layout, list_pop available_spaces i ++ remaining_spaces)
             | None =>
                 layout <- _compact_place_room layout room_type w h ;;
                 ret (layout, available_spaces)
             end)
          rooms_to_place (layout, available_spaces) ;;
  ret layout.

(** The corridor [_add_hallways] draws between two room centers. *)
Definition hallway_between (start_point end_point : Point) : Rectangle :=
  let hallway_width := min_hallway_width constraints in
  if Qltb (pyabs (pt_y start_point - pt_y end_point))
          (pyabs (pt_x start_point - pt_x end_point))
  then
    let y := (pt_y start_point + pt_y end_point) / 2 in
    let x1 := pymin (pt_x start_point) (pt_x end_point) in
    let x2 := pymax (pt_x start_point) (pt_x end_point) in
    mkRectangle (x1 - hallway_width / 2) (y - hallway_width / 2)
                (x2 - x1 + hallway_width) hallway_width
  else
    let x := (pt_x start_point + pt_x end_point) / 2 in
    let y1 := pymin (pt_y start_point) (pt_y end_point) in
    let y2 := pymax (pt_y start_point) (pt_y end_point) in
    mkRectangle (x - hallway_width / 2) (y1 - hallway_width / 2)
                hallway_width (y2 - y1 + hallway_width).

(** [room != main_room] compares the two objects by identity, that is by
    address. *)
Definition _add_hallways (layout : Layout) : M Layout :=
  if (length (rooms layout) <? 2)%nat then ret layout
  else
    match get_rooms_by_type layout LIVING_ROOM with
    | [] => ret layout
    | main_room :: _ =>
        foldM (fun layout room =>
                 if negb (Z.eqb (id room) (id main_room)) then
                   u <- random ;;
                   if Qltb u (3 # 10) then
                     ret (add_hallway layout
                            (hallway_between (center (bounds main_room))
                                             (center (bounds room))))
                   else ret layout
                 else ret layout)
              (rooms layout) layout
    end.

Definition generate_random_layout (bounds : Rectangle)
    (room_requirements : list (RoomType * nat)) : M Layout :=
  let layout := Layout_init bounds in
  rooms_to_place <-
    foldM (fun rooms_to_place '(room_type, count) =>
             foldM (fun rooms_to_place _ =>
                      match room_templates room_type with
                      | Some template =>
                          '(w, h) <- generate_random_size template ;;
                          ret (rooms_to_place ++ [(room_type, w, h)])
                      | None => ret rooms_to_place
                      end)
                   (seq 0 count) rooms_to_place)
          room_requirements [] ;;
  rooms_to_place <- shuffle rooms_to_place ;;
  layout <- _place_rooms_rectangular_split layout rooms_to_place ;;
  layout <- _add_hallways layout ;;
  ret layout.

(** *** MonteCarloOptimizer *)

Variable evaluation_function : Layout -> result Q.

Definition _initialize_population (footprint : Rectangle)
    (room_requirements : list (RoomType * nat)) : M (list Layout) :=
  foldM (fun population _ =>
           layout <- generate_random_layout footprint room_requirements ;;
           ret (population ++ [layout]))
        (py_range (population_size config)) [].

(** [max(l, key=lambda x: x[1])]: the first element of largest score. *)
Definition max_by_score (l : list (Layout * Q)) : result (Layout * Q) :=
  match l with
  | [] => Raise ValueError
  | a :: l' =>
      Ok (fold_left (fun best c => if Qltb (snd best) (snd c) then c else best)
                    l' a)
  end.

(** [l[i]] for [i >= 0] *)
Definition index {A} (l : list A) (i : nat) : M A :=
  match nth_error l i with
  | Some a => ret a
  | None => raise IndexError
  end.

(** The two loops of [_select_parents], for the values [num_parents] and
    [elite_count] of its two [int(...)] expressions. *)
Definition select_parents_with_counts (num_parents elite_count : Z)
    (evaluated_population : list (Layout * Q)) : M (list Layout) :=
  let tournament_size := 3%nat in
  selected <-
    foldM (fun selected _ =>
             tournament <- sample evaluated_population tournament_size ;;
             winner <- lift (max_by_score tournament) ;;
             c <- Layout_copy (fst winner) ;;
             ret (selected ++ [c]))
          (py_range num_parents) [] ;;
  foldM (fun selected i =>
           e <- index evaluated_population i ;;
           c <- Layout_copy (fst e) ;;
           ret (selected ++ [c]))
        (py_range elite_count) selected.

(** [_select_parents].  The two counts are taken on the rationals here.  The
    code truncates floating-point products, which can be one less than the
    truncated exact product ([int(10 * (1 - 0.9))] is 0 in the code), so
    what is proved of a selection is proved of [select_parents_with_counts],
    for all counts. *)
Definition _select_parents (evaluated_population : list (Layout * Q))
  : M (list Layout) :=
  let num_parents :=
    py_int (inject_Z (population_size config) * (1 - elite_ratio config)) in
  let elite_count :=
    py_int (inject_Z (population_size config) * elite_ratio config) in
  select_parents_with_counts num_parents elite_count evaluated_population.

Inductive MutationType : Type :=
| mutate_position
| mutate_size
| mutate_room_swap
| mutate_room_add_remove.

(** [l[i] = v] for [i] in range *)
Fixpoint list_set {A} (l : list A) (i : nat) (v : A) : list A :=
  match l, i with
  | [], _ => []
  | _ :: l', O => v :: l'
  | a :: l', S i' => a :: list_set l' i' v
  end.

(** [rooms.remove(room)]: the first occurrence of the object goes. *)
Fixpoint remove_room (room : Room) (rs : list Room) : list Room :=
  match rs with
  | [] => []
  | r :: rs' => if Z.eqb (id r) (id room) then rs' else r :: remove_room room rs'
  end.

Definition _mutate (layout : Layout) (footprint : Rectangle)
    (room_requirements : list (RoomType * nat)) : M Layout :=
  mutated <- Layout_copy layout ;;
  mutation_type <-
    choice [mutate_position; mutate_size; mutate_room_swap;
            mutate_room_add_remove] ;;
  match mutation_type with
  | mutate_position =>
      if is_nil (rooms mutated) then ret mutated
      else
        '(j, room) <- choice_at (rooms mutated) ;;
        dx <- uniform (-2) 2 ;;
        dy <- uniform (-2) 2 ;;
        let new_bounds :=
          mkRectangle (pymax (rect_x footprint) (rect_x (bounds room) + dx))
                      (pymax (rect_y footprint) (rect_y (bounds room) + dy))
                      (width (bounds room))
                      (height (bounds room)) in
        if Qle_bool (right new_bounds) (right footprint)
           && Qle_bool (bottom new_bounds) (bottom footprint)
        then ret (set_rooms mutated
                    (list_set (rooms mutated) j (set_bounds room new_bounds)))
        else ret mutated
  | mutate_size =>
      if is_nil (rooms mutated) then ret mutated
      else
        '(j, room) <- choice_at (rooms mutated) ;;
        dw <- uniform (-1) 1 ;;
        dh <- uniform (-1) 1 ;;
        let b := bounds room in
        let new_width := pymax 3 (width b + dw) in
        let new_height := pymax 3 (height b + dh) in
        if Qle_bool (rect_x b + new_width) (right footprint)
           && Qle_bool (rect_y b + new_height) (bottom footprint)
        then ret (set_rooms mutated
                    (list_set (rooms mutated) j
                       (set_bounds room
                          (mkRectangle (rect_x b) (rect_y b)
                                       new_width new_height))))
        else ret mutated
  | mutate_room_swap =>
      if (2 <=? length (rooms mutated))%nat then
        positions <- sample_positions (length (rooms mutated)) 2 ;;
        match positions with
        | [i; j] =>
            room1 <- index (rooms mutated) i ;;
            room2 <- index (rooms mutated) j ;;
            let rs := list_set (rooms mutated) i
                        (set_bounds room1 (bounds room2)) in
            let rs := list_set rs j
                        (set_bounds room2 (bounds room1)) in
            ret (set_rooms mutated rs)
        | _ => raise ValueError
        end
      else ret mutated
  | mutate_room_add_remove =>
      if (2 <=? length (rooms mutated))%nat then
        room_to_remove <- choice (rooms mutated) ;;
        let mutated :=
          set_rooms mutated (remove_room room_to_remove (rooms mutated)) in
        room_type <- choice (map fst room_requirements) ;;
        match room_templates room_type with
        | Some template =>
            '(w, h) <- generate_random_size template ;;
            x <- uniform (rect_x footprint) (right footprint - w) ;;
            y <- uniform (rect_y footprint) (bottom footprint - h) ;;
            new_room <- Room_init room_type (mkRectangle x y w h) 0 None ;;
            ret (add_room mutated new_room)
        | None => ret mutated
        end
      else ret mutated
  end.

(** The rooms of one type the child takes in [_crossover]. *)
Definition crossover_rooms_to_use (parent1_rooms parent2_rooms : list Room)
    (count : nat) : M (list Room) :=
  foldM (fun rooms_to_use i =>
           u <- random ;;
           if Qltb u (5 # 10) && negb (is_nil parent1_rooms) then
             r <- index parent1_rooms (i mod length parent1_rooms) ;;
             ret (rooms_to_use ++ [r])
           else if negb (is_nil parent2_rooms) then
             r <- index parent2_rooms (i mod length parent2_rooms) ;;
             ret (rooms_to_use ++ [r])
           else ret rooms_to_use)
        (seq 0 count) [].

(** [for room in rooms: child.add_room(Room(room.room_type, room.bounds))] *)
Definition crossover_add_rooms (child : Layout) (rooms_to_use : list Room)
  : M Layout :=
  foldM (fun child room =>
           r <- Room_init (room_type room) (bounds room) 0 None ;;
           ret (add_room child r))
        rooms_to_use child.

Definition _crossover (parent1 parent2 : Layout) (footprint : Rectangle)
    (room_requirements : list (RoomType * nat)) : M (option Layout) :=
  try_except
    (let child := Layout_init footprint in
     child <-
       foldM (fun child '(room_type, count) =>
                let parent1_rooms := get_rooms_by_type parent1 room_type in
                let parent2_rooms := get_rooms_by_type parent2 room_type in
                rooms_to_use <-
                  crossover_rooms_to_use parent1_rooms parent2_rooms count ;;
                crossover_add_rooms child (firstn count rooms_to_use))
             room_requirements child ;;
     u <- random ;;
     if Qltb u (mutation_rate config)
     then _mutate child footprint room_requirements
     else ret child).

(** [l[:n]] *)
Definition slice_to {A} (l : list A) (n : Z) : list A :=
  if (0 <=? n)%Z then firstn (Z.to_nat n) l
  else firstn (length l - Z.to_nat (- n)) l.

(** The [while] loop of [_generate_offspring]; every turn uses one unit of
    [fuel]. *)
Fixpoint generate_offspring_loop (fuel : nat) (parents : list Layout)
    (footprint : Rectangle) (room_requirements : list (RoomType * nat))
    (offspring : list Layout) : M (list Layout) :=
  if (Z.of_nat (length offspring) <? population_size config)%Z then
    match fuel with
    | O => timeout
    | S fuel' =>
        let mutation :=
          parent <- choice parents ;;
          child <- _mutate parent footprint room_requirements ;;
          ret (Some child) in
        child <-
          (if (2 <=? length parents)%nat then
             u <- random ;;
             if Qltb u (crossover_rate config) then
               ps <- sample parents 2 ;;
               match ps with
               | [parent1; parent2] =>
                   _crossover parent1 parent2 footprint room_requirements
               | _ => raise ValueError
               end
             else mutation
           else mutation) ;;
        match child with
        | Some c =>
            generate_offspring_loop fuel' parents footprint room_requirements
              (offspring ++ [c])
        | None =>
            generate_offspring_loop fuel' parents footprint room_requirements
              offspring
        end
    end
  else ret offspring.

Definition _generate_offspring (fuel : nat) (parents : list Layout)
    (footprint : Rectangle) (room_requirements : list (RoomType * nat))
  : M (list Layout) :=
  offspring <-
    generate_offspring_loop fuel parents footprint room_requirements [] ;;
  ret (slice_to offspring (population_size config)).

(** [l.sort(key=lambda x: x[1], reverse=True)]: descending and stable. *)
Fixpoint insert_desc (a : Layout * Q) (l : list (Layout * Q))
  : list (Layout * Q) :=
  match l with
  | [] => [a]
  | b :: l' => if Qltb (snd a) (snd b) then b :: insert_desc a l' else a :: l
  end.

Definition sort_desc (l : list (Layout * Q)) : list (Layout * Q) :=
  fold_right insert_desc [] l.

Definition _environmental_selection
    (evaluated_population : list (Layout * Q)) : list (Layout * Q) :=
  slice_to (sort_desc evaluated_population) (population_size config).

(** [np.var] of a list of scores; [None] is NaN (some score is
    [float('-inf')]). *)
Fixpoint finite_scores (l : list ExtQ) : option (list Q) :=
  match l with
  | [] => Some []
  | NegInf :: _ => None
  | Fin q :: l' =>
      match finite_scores l' with
      | Some qs => Some (q :: qs)
      | None => None
      end
  end.

Definition np_var (l : list ExtQ) : option Q :=
  match finite_scores l with
  | Some qs =>
      let mean := Qsum qs / len qs in
      Some (Qsum (map (fun q => (q - mean) * (q - mean)) qs) / len qs)
  | None => None
  end.

Definition _check_convergence : M bool :=
  self <- get_opt ;;
  if (max_no_improvement config <=? convergence_count self)%Z then ret true
  else if (100 <=? length (score_history self))%nat then
    let recent_scores :=
      skipn (length (score_history self) - 100) (score_history self) in
    match np_var recent_scores with
    | Some variance =>
        if Qltb variance (convergence_threshold config) then ret true
        else ret false
    | None => ret false
    end
  else ret false.

(** [score = f(layout); layout.fitness_score = score] for every layout *)
Definition evaluate_all (layouts : list Layout) : M (list (Layout * Q)) :=
  foldM (fun evaluated layout =>
           score <- lift (evaluation_function layout) ;;
           let layout := set_fitness_score layout score in
           ret (evaluated ++ [(layout, score)]))
        layouts [].

(** The block that updates the best result: [current_best[1] >
    self.best_score] decides between recording a copy and counting one more
    turn without improvement. *)
Definition update_best (current_best : Layout * Q) : M unit :=
  self <- get_opt ;;
  if ext_ltb (best_score self) (Fin (snd current_best)) then
    c <- Layout_copy (fst current_best) ;;
    put_opt (mkOptimizer (generation_count self) (Fin (snd current_best))
               (Some c) (score_history self) 0)
  else
    put_opt (mkOptimizer (generation_count self) (best_score self)
               (best_layout self) (score_history self)
               (convergence_count self + 1)).

(** [self.score_history.append(self.best_score)] *)
Definition record_history : M unit :=
  self <- get_opt ;;
  put_opt (mkOptimizer (generation_count self) (best_score self)
             (best_layout self) (score_history self ++ [best_score self])
             (convergence_count self)).

(** One turn of the main loop of [optimize], up to the convergence test;
    the result says whether the loop goes on. *)
Definition optimize_iteration (fuel : nat) (footprint : Rectangle)
    (room_requirements_dict : list (RoomType * nat))
    (evaluated_population : list (Layout * Q)) (temperature : Q)
  : M (bool * list (Layout * Q) * Q) :=
  parents <- _select_parents evaluated_population ;;
  offspring <- _generate_offspring fuel parents footprint room_requirements_dict ;;
  evaluated_offspring <- evaluate_all offspring ;;
  let evaluated_population := evaluated_population ++ evaluated_offspring in
  let evaluated_population := _environmental_selection evaluated_population in
  current_best <- index evaluated_population 0 ;;
  update_best current_best ;;;
  record_history ;;;
  let temperature := temperature * cooling_rate config in
  converged <- _check_convergence ;;
  ret (negb converged, evaluated_population, temperature).

(** [self.generation_count += 1] *)
Definition count_generation : M unit :=
  self <- get_opt ;;
  put_opt (mkOptimizer (generation_count self + 1) (best_score self)
             (best_layout self) (score_history self)
             (convergence_count self)).

Fixpoint optimize_loop (fuel : nat) (iterations : nat) (footprint : Rectangle)
    (room_requirements_dict : list (RoomType * nat))
    (evaluated_population : list (Layout * Q)) (temperature : Q) : M unit :=
  match iterations with
  | O => ret tt
  | S iterations' =>
      '(go_on, evaluated_population, temperature) <-
        optimize_iteration fuel footprint room_requirements_dict
          evaluated_population temperature ;;
      if go_on then
        count_generation ;;;
        optimize_loop fuel iterations' footprint room_requirements_dict
          evaluated_population temperature
      else ret tt
  end.

(** The best of the initial population is recorded when there is one. *)
Definition record_initial_best (evaluated_population : list (Layout * Q))
  : M unit :=
  match evaluated_population with
  | [] => ret tt
  | first :: _ =>
      c <- Layout_copy (fst first) ;;
      self <- get_opt ;;
      put_opt (mkOptimizer (generation_count self) (Fin (snd first)) (Some c)
                 (score_history self) (convergence_count self))
  end.

(** [MonteCarloOptimizer.optimize]; the result is [self.best_layout], [None]
    when no layout was ever recorded.  Timing and printing are left out. *)
Definition optimize (fuel : nat) (footprint : Rectangle)
    (room_requirements room_requirements_dict : list (RoomType * nat))
  : M (option Layout) :=
  population <- _initialize_population footprint room_requirements_dict ;;
  evaluated_population <- evaluate_all population ;;
  let evaluated_population := sort_desc evaluated_population in
  record_initial_best evaluated_population ;;;
  let temperature := temperature_start config in
  optimize_loop fuel (Z.to_nat (max_iterations config)) footprint
    room_requirements_dict evaluated_population temperature ;;;
  self <- get_opt ;;
  ret (best_layout self).

End Engine.

(* ===================================================================== *)
(** ** A deterministic runtime

    A runtime to run the model on: the random source is a counter, addresses
    grow, and [pow_half] rounds the square root up to two decimals. *)

Definition rotate {A} (k : nat) (l : list A) : list A :=
  skipn k l ++ firstn k l.

Definition demo_runtime : Runtime := {|
  rng_state := nat;
  rng_random := fun s => (Z.of_nat (s mod 8) # 8, S s);
  rng_randbelow := fun n s => ((s mod n)%nat, S s);
  rng_shuffle := fun n s => (rotate (s mod n) (seq 0 n), S s);
  rng_sample := fun n k s => (firstn k (rotate (s mod n) (seq 0 n)), S s);
  fresh_id := fun live => (1 + fold_right Z.max 0 live)%Z;
  pow_half := fun q =>
    (Z.sqrt (Qnum q * 10000 / Zpos (Qden q)) + 1 # 100)
|}.

Definition demo_world (seed : nat) : @World demo_runtime :=
  mkWorld (E := demo_runtime) seed [] Optimizer_init.

(* ===================================================================== *)
(** ** Notions used in the statements *)

(** Two rectangles that meet along a boundary line. *)
Definition share_edge (a b : Rectangle) : Prop :=
  right a == left b \/ right b == left a
  \/ bottom a == top b \/ bottom b == top a.

(** A point on one of the four edges of a rectangle, corners included. *)
Definition on_edge (r : Rectangle) (p : Point) : Prop :=
  ((pt_x p == left r \/ pt_x p == right r)
   /\ top r <= pt_y p /\ pt_y p <= bottom r)
  \/ ((pt_y p == top r \/ pt_y p == bottom r)
      /\ left r <= pt_x p /\ pt_x p <= right r).

(** [a <= b] on scores *)
Definition ext_le (a b : ExtQ) : Prop := ext_ltb b a = false.

(** [l[i+1] >= l[i]] for every [i] *)
Definition nondecreasing (l : list ExtQ) : Prop :=
  forall i a b, nth_error l i = Some a -> nth_error l (S i) = Some b ->
                ext_le a b.

(** A room without its address. *)
Definition forget_id (r : Room) : Room :=
  mkRoom (room_type r) (bounds r) (min_area r) (orientation r) (furniture r)
         (doors r) (windows r) 0.

(* ===================================================================== *)
(** ** Sample layouts *)

Definition room_of (t : RoomType) (b : Rectangle) (address : Z) : Room :=
  mkRoom t b 0 None [] [] [] address.

(** The layout built in the test code of [evaluation_system.py]. *)
Definition main_layout : Layout :=
  mkLayout (mkRectangle 0 0 20 15)
    [ mkRoom LIVING_ROOM (mkRectangle 2 2 8 6) 0 None [] []
             [mkRectangle 2 2 2 (2 # 10)] 1;
      room_of KITCHEN (mkRectangle 10 2 5 4) 2;
      mkRoom BEDROOM (mkRectangle 2 8 6 5) 0 None [] []
             [mkRectangle 2 8 2 (2 # 10)] 3;
      room_of BATHROOM (mkRectangle 8 8 3 3) 4 ]
    [] 0 0 [].

(** A bedroom of height zero in a 20 x 15 footprint. *)
Definition zero_height_layout : Layout :=
  mkLayout (mkRectangle 0 0 20 15)
    [room_of BEDROOM (mkRectangle 2 2 4 0) 1] [] 0 0 [].

(** A footprint of area zero with one corridor and no room. *)
Definition zero_footprint_layout : Layout :=
  mkLayout (mkRectangle 0 0 0 0) [] [mkRectangle 0 0 1 1] 0 0 [].

(** One living room without windows in a 20 x 15 footprint. *)
Definition windowless_layout : Layout :=
  mkLayout (mkRectangle 0 0 20 15)
    [room_of LIVING_ROOM (mkRectangle 2 2 8 6) 1] [] 0 0 [].

(** The sum of the requested counts. *)
Definition requested_rooms (room_requirements : list (RoomType * nat)) : nat :=
  fold_right (fun '(_, count) n => (count + n)%nat) O room_requirements.

(** What is left of a room in a copy, up to the address: the openings and
    the furniture are gone. *)
Definition stripped (r : Room) : Room :=
  mkRoom (room_type r) (bounds r) (min_area r) (orientation r) [] [] [] 0.

(** A result that is a value. *)
Definition defined {A : Type} (r : result A) : Prop := exists v, r = Ok v.

(** [m] returns a value satisfying [Q], whatever the state. *)
Definition returns {E : Runtime} {A} (m : M A) (Q : A -> Prop) : Prop :=
  forall w, exists a w', m w = (Ok a, w') /\ Q a.

(** [m] ends with the same [proj] of the state as it starts with, whatever
    its outcome. *)
Definition keeps {E : Runtime} {T} (proj : World -> T) {A} (m : M A) : Prop :=
  forall w, proj (snd (m w)) = proj w.

(** From an optimizer satisfying [P], [m] returns [a] with an optimizer
    satisfying [Q a], or stops otherwise with one satisfying [X]. *)
Definition triple {E : Runtime} {A} (P : Optimizer -> Prop) (m : M A)
    (Q : A -> Optimizer -> Prop) (X : Optimizer -> Prop) : Prop :=
  forall w, P (w_opt w) ->
            match m w with
            | (Ok a, w') => Q a (w_opt w')
            | (_, w') => X (w_opt w')
            end.

(** The scores appended to the history [history0] are non-decreasing and
    none is above the best score. *)
Definition history_inv (history0 : list ExtQ) (o : Optimizer) : Prop :=
  exists added,
    score_history o = history0 ++ added
    /\ nondecreasing added
    /\ forall a, In a added -> ext_le a (best_score o).

(** The recorded best layout, when there is one, has no score. *)
Definition best_unscored (o : Optimizer) : Prop :=
  forall l, best_layout o = Some l -> fitness_score l = 0.

(** [m1] and [m2], started with the same state of the random source, end
    alike, with results related by [R] and states related by [T]. *)
Definition sim_to {E : Runtime} (T : World -> World -> Prop) {A B}
    (R : A -> B -> Prop) (m1 : M A) (m2 : M B) : Prop :=
  forall w1 w2,
    w_rng w1 = w_rng w2 ->
    match m1 w1, m2 w2 with
    | (Ok a, w1'), (Ok b, w2') => R a b /\ T w1' w2'
    | (Raise e1, w1'), (Raise e2, w2') => e1 = e2 /\ T w1' w2'
    | (Timeout, w1'), (Timeout, w2') => T w1' w2'
    | _, _ => False
    end.

Definition same_rng {E : Runtime} (w1 w2 : World) : Prop :=
  w_rng w1 = w_rng w2.

(** Layouts with the same footprint and the same rooms up to [id]. *)
Definition same_rooms (l1 l2 : Layout) : Prop :=
  layout_bounds l1 = layout_bounds l2
  /\ map forget_id (rooms l1) = map forget_id (rooms l2).

(** As [triple], on the addresses in use and for normal returns only. *)
Definition live_triple {E : Runtime} {A} (P : list Z -> Prop) (m : M A)
    (Q : A -> list Z -> Prop) : Prop :=
  forall w, P (w_live w) ->
            match m w with
            | (Ok a, w') => Q a (w_live w')
            | (_, _) => True
            end.

(** The addresses of [live0] are in use and no room of [rs] has one. *)
Definition apart (live0 : list Z) (rs : list Room) (live : list Z) : Prop :=
  incl live0 live /\ Forall (fun r => ~ In (id r) live0) rs.

(** The requirements of the end-to-end scenario: five rooms. *)
Definition five_rooms : list (RoomType * nat) :=
  [(LIVING_ROOM, 1%nat); (BEDROOM, 2%nat); (KITCHEN, 1%nat);
   (BATHROOM, 1%nat)].

(** A first run of the generator from the seed 1, and the state in which a
    second run starts when the random source is put back to the seed while
    the rooms of the first run still exist. *)
Definition first_run : result Layout * @World demo_runtime :=
  generate_random_layout (E := demo_runtime) MonteCarloConfig_default
    LayoutConstraints_init (mkRectangle 0 0 20 15) five_rooms (demo_world 1).

Definition second_run_world : @World demo_runtime :=
  mkWorld (E := demo_runtime) (w_rng (demo_world 1)) (w_live (snd first_run))
          (w_opt (snd first_run)).

Definition second_run : result Layout * @World demo_runtime :=
  generate_random_layout (E := demo_runtime) MonteCarloConfig_default
    LayoutConstraints_init (mkRectangle 0 0 20 15) five_rooms second_run_world.

(** [c] is what [l.copy()] returns in some state. *)
Definition copy_of {E : Runtime} (c l : Layout) : Prop :=
  exists w0 w1, Layout_copy l w0 = (Ok c, w1).

(** [c] is a copy of the winner of a tournament among three distinct
    members of the population. *)
Definition tournament_winner {E : Runtime} (population : list (Layout * Q))
    (c : Layout) : Prop :=
  exists positions winner,
    length positions = 3%nat
    /\ NoDup positions
    /\ Forall (fun i => (i < length population)%nat) positions
    /\ In winner (pick population positions)
    /\ (forall x, In x (pick population positions) -> snd x <= snd winner)
    /\ copy_of c (fst winner).

(** Scores in descending order. *)
Definition sorted_desc (population : list (Layout * Q)) : Prop :=
  forall i j a b,
    (i <= j)%nat -> nth_error population i = Some a ->
    nth_error population j = Some b -> snd b <= snd a.

(** A configuration for a population of two. *)
Definition pair_config : MonteCarloConfig :=
  mkMonteCarloConfig 2 2 (3 # 10) (7 # 10) 100 (1 # 100) (995 # 1000)
    (2 # 10) (1 # 1000000) 100 5 50 (5 # 10) 2 (2 # 10).

Definition pair_population : list (Layout * Q) :=
  [(windowless_layout, 1); (main_layout, 0)].


Definition five_population : list (Layout * Q) :=
  [(windowless_layout, 5); (main_layout, 4); (zero_height_layout, 3);
   (zero_footprint_layout, 2); (Layout_init (mkRectangle 0 0 20 15), 1)].

(** Parents for a crossover: the first has a bedroom, the second has none. *)
Definition parent_with_bedroom : Layout :=
  mkLayout (mkRectangle 0 0 20 15)
    [room_of BEDROOM (mkRectangle 2 2 4 3) 1] [] 0 0 [].

Definition parent_without_bedroom : Layout :=
  mkLayout (mkRectangle 0 0 20 15)
    [room_of KITCHEN (mkRectangle 10 2 5 4) 2] [] 0 0 [].

(** A small configuration: three layouts, two iterations. *)
Definition small_config : MonteCarloConfig :=
  mkMonteCarloConfig 2 3 (3 # 10) (7 # 10) 100 (1 # 100) (995 # 1000)
    (2 # 10) (1 # 1000000) 100 5 50 (5 # 10) 2 (2 # 10).

(* ===================================================================== *)
(** ** More of core_data_structures.py *)

(** [Point.__add__] and [Point.__sub__] *)
Definition Point_add (p other : Point) : Point :=
  mkPoint (pt_x p + pt_x other) (pt_y p + pt_y other).
Definition Point_sub (p other : Point) : Point :=
  mkPoint (pt_x p - pt_x other) (pt_y p - pt_y other).

Definition get_corners (r : Rectangle) : list Point :=
  [ mkPoint (left r) (top r);
    mkPoint (right r) (top r);
    mkPoint (right r) (bottom r);
    mkPoint (left r) (bottom r) ].

(** [Furniture.rotate] *)
Definition Furniture_rotate (f : Furniture) : Furniture :=
  if can_rotate f
  then mkFurniture (name f) (furn_width f) (furn_height f) (can_rotate f)
         (category f) (position f) (negb (is_rotated f)) (is_placed f)
  else f.

Definition get_bounds (f : Furniture) : Rectangle :=
  mkRectangle (pt_x (position f)) (pt_y (position f))
              (current_width f) (current_height f).

Definition free_area (r : Room) : Q := room_area r - used_area r.

Definition add_furniture (r : Room) (f : Furniture) : Room :=
  mkRoom (room_type r) (bounds r) (min_area r) (orientation r)
         (furniture r ++ [f]) (doors r) (windows r) (id r).

Definition add_door (r : Room) (door : Rectangle) : Room :=
  mkRoom (room_type r) (bounds r) (min_area r) (orientation r)
         (furniture r) (doors r ++ [door]) (windows r) (id r).

Definition add_window (r : Room) (window : Rectangle) : Room :=
  mkRoom (room_type r) (bounds r) (min_area r) (orientation r)
         (furniture r) (doors r) (windows r ++ [window]) (id r).

(** [outer.left <= r.left and r.right <= outer.right and outer.top <= r.top
    and r.bottom <= outer.bottom] *)
Definition inside (outer r : Rectangle) : bool :=
  Qle_bool (left outer) (left r) && Qle_bool (right r) (right outer)
  && Qle_bool (top outer) (top r) && Qle_bool (bottom r) (bottom outer).

Definition can_place_furniture (room : Room) (f : Furniture) (at_ : Point)
  : bool :=
  let test_rect :=
    mkRectangle (pt_x at_) (pt_y at_) (current_width f) (current_height f) in
  if negb (inside (bounds room) test_rect) then false
  else if existsb (fun existing_furniture =>
                     is_placed existing_furniture
                     && intersects test_rect (get_bounds existing_furniture))
                  (furniture room) then false
  else if existsb (fun door => intersects test_rect door) (doors room)
       then false
  else true.

(** [Room.place_furniture]: the answer and the furniture object after the
    call. *)
Definition place_furniture (room : Room) (f : Furniture) (at_ : Point)
  : bool * Furniture :=
  if can_place_furniture room f at_
  then (true,
        mkFurniture (name f) (furn_width f) (furn_height f) (can_rotate f)
          (category f) at_ (is_rotated f) true)
  else (false, f).

(** An error of [validate_layout]; the message is formatted from the room
    types it holds. *)
Inductive ValidationError : Type :=
| rooms_overlap (room1_type room2_type : RoomType)
| room_out_of_bounds (room_type : RoomType)
| missing_room_type (required_type : RoomType).

Definition validate_layout (l : Layout) : bool * list ValidationError :=
  let errors :=
    flat_map (fun '(room1, room2) =>
                if intersects (bounds room1) (bounds room2)
                then [rooms_overlap (room_type room1) (room_type room2)]
                else [])
             (pairs_after (rooms l)) in
  let errors :=
    errors
    ++ flat_map (fun room =>
                   if negb (inside (layout_bounds l) (bounds room))
                   then [room_out_of_bounds (room_type room)]
                   else [])
                (rooms l) in
  let required_types := [LIVING_ROOM; BEDROOM; KITCHEN; BATHROOM] in
  let errors :=
    errors
    ++ flat_map (fun required_type =>
                   if is_nil (get_rooms_by_type l required_type)
                   then [missing_room_type required_type]
                   else [])
                required_types in
  (is_nil errors, errors).

(** [d.get(key)] on the items of a dictionary (the keys are distinct). *)
Fixpoint items_get {K V : Type} (eqb : K -> K -> bool) (key : K)
    (items : list (K * V)) : option V :=
  match items with
  | [] => None
  | (k, v) :: items' => if eqb k key then Some v else items_get eqb key items'
  end.

Definition should_be_adjacent (c : LayoutConstraints)
    (room1_type room2_type : RoomType) : bool :=
  let adjacent_to :=
    match items_get RoomType_eqb room1_type (adjacency_rules c) with
    | Some l => l
    | None => []
    end in
  existsb (RoomType_eqb room2_type) adjacent_to.

Definition RoomType_pair_eqb (a b : RoomType * RoomType) : bool :=
  RoomType_eqb (fst a) (fst b) && RoomType_eqb (snd a) (snd b).

Definition get_min_separation (c : LayoutConstraints)
    (room1_type room2_type : RoomType) : Q :=
  let key := (room1_type, room2_type) in
  let reverse_key := (room2_type, room1_type) in
  let get k :=
    match items_get RoomType_pair_eqb k (separation_rules c) with
    | Some v => v
    | None => 0
    end in
  pymax (get key) (get reverse_key).

(* ===================================================================== *)
(** ** More of evaluation_system.py *)

(** [BaseEvaluator.normalize_score] *)
Definition normalize_score (score min_score max_score : Q) : result Q :=
  rbind (pydiv (score - min_score) (max_score - min_score))
        (fun d => Ok (pymax 0 (pymin 1 d))).

(* ===================================================================== *)
(** ** Notions for the layouts the engine makes *)

(** A room without furniture, doors and windows. *)
Definition bare (r : Room) : Prop :=
  furniture r = [] /\ doors r = [] /\ windows r = [].

Definition positive_size (r : Room) : Prop :=
  0 < width (bounds r) /\ 0 < height (bounds r).

(** [r] lies in [outer], at least [margin] away from its four sides. *)
Definition within (margin : Q) (outer r : Rectangle) : Prop :=
  left outer + margin <= left r /\ right r <= right outer - margin
  /\ top outer + margin <= top r /\ bottom r <= bottom outer - margin.

(** The number of rooms of type [t] the requirements ask for. *)
Definition requested_of (t : RoomType) (room_requirements : list (RoomType * nat))
  : nat :=
  fold_right (fun '(room_type, count) n =>
                if RoomType_eqb room_type t then (count + n)%nat else n)
             O room_requirements.

(** From an optimizer satisfying [P], [m] returns a value [a] with an
    optimizer satisfying [Q a]. *)
Definition total {E : Runtime} {A} (P : Optimizer -> Prop) (m : M A)
    (Q : A -> Optimizer -> Prop) : Prop :=
  forall w, P (w_opt w) ->
            exists a w', m w = (Ok a, w') /\ Q a (w_opt w').

(** A layout over [footprint] whose rooms have positive width and height and
    no furniture, door or window. *)
Definition well_made (footprint : Rectangle) (l : Layout) : Prop :=
  layout_bounds l = footprint
  /\ Forall (fun r => bare r /\ positive_size r) (rooms l).

(* ===================================================================== *)
(** * Properties *)

Unset Implicit Arguments.

(** ** Numbers *)

Lemma Qltb_lt (a b : Q) : Qltb a b = true <-> a < b.
Proof.
  unfold Qltb. rewrite negb_true_iff.
  split; intro H.
  - apply Qnot_le_lt. intro Hle. apply Qle_bool_iff in Hle. congruence.
  - apply not_true_is_false. intro Hle. apply Qle_bool_iff in Hle.
    apply (Qlt_not_le _ _ H Hle).
Qed.

Lemma Qltb_ge (a b : Q) : Qltb a b = false <-> b <= a.
Proof.
  unfold Qltb. rewrite negb_false_iff. apply Qle_bool_iff.
Qed.

Lemma pydiv_ok (a b : Q) : ~ b == 0 -> pydiv a b = Ok (a / b).
Proof.
  intro H. unfold pydiv.
  destruct (Qeq_bool b 0) eqn:Hb; [|reflexivity].
  apply Qeq_bool_iff in Hb. contradiction.
Qed.

Lemma pydiv_zero (a b : Q) : b == 0 -> pydiv a b = Raise ZeroDivisionError.
Proof.
  intro H. unfold pydiv. apply Qeq_bool_iff in H. now rewrite H.
Qed.

(** ** Geometry *)

Lemma touching_rectangles_do_not_intersect (a b : Rectangle) :
  share_edge a b -> intersects a b = false.
Proof.
  unfold share_edge, intersects. intro H.
  apply negb_false_iff.
  repeat rewrite orb_true_iff.
  repeat rewrite Qle_bool_iff.
  destruct H as [H | [H | [H | H]]]; rewrite H; auto using Qle_refl.
Qed.

Lemma edge_point_is_contained (r : Rectangle) (p : Point) :
  0 <= width r -> 0 <= height r -> on_edge r p -> contains_point r p = true.
Proof.
  unfold on_edge, contains_point, left, right, top, bottom.
  intros Hw Hh H.
  repeat rewrite andb_true_iff. repeat rewrite Qle_bool_iff.
  destruct H as [[[Hx | Hx] [H1 H2]] | [[Hy | Hy] [H1 H2]]];
    repeat split; try assumption; lra.
Qed.

(** C3: rectangles that share only a boundary edge do not intersect, and a
    point on an edge of a rectangle (of non-negative width and height, as
    the data model has it) is contained in it. *)
Theorem intersects_open_contains_point_closed
    (a b r : Rectangle) (p : Point) :
  share_edge a b ->
  0 <= width r -> 0 <= height r -> on_edge r p ->
  intersects a b = false /\ contains_point r p = true.
Proof.
  intros Hab Hw Hh Hp. split.
  - now apply touching_rectangles_do_not_intersect.
  - now apply edge_point_is_contained.
Qed.

Lemma intersects_open_contains_point_closed_witness :
  intersects (mkRectangle 0 0 4 3) (mkRectangle 4 1 2 5) = false
  /\ contains_point (mkRectangle 1 1 4 3) (mkPoint 5 4) = true.
Proof.
  apply (intersects_open_contains_point_closed
           (mkRectangle 0 0 4 3) (mkRectangle 4 1 2 5)
           (mkRectangle 1 1 4 3) (mkPoint 5 4)).
  - left. reflexivity.
  - discriminate.
  - discriminate.
  - left. split; [right; reflexivity | split; discriminate].
Defined.

(** ** The evaluator *)

Lemma dict_get_set {V : Type} (k : string) (v : V) (d : list (string * V)) :
  dict_get k (dict_set k v d) = Some v.
Proof.
  induction d as [|[k' v'] d IH]; simpl.
  - now rewrite String.eqb_refl.
  - destruct (String.eqb k' k) eqn:Hk; simpl.
    + now rewrite String.eqb_refl.
    + now rewrite Hk.
Qed.

Section EvaluatorFacts.

Context {E : Runtime}.
Variable config : EvaluationConfig.

(** The loop of [evaluate_detailed] carries the same running total as the
    loop of [evaluate], over any list of evaluators. *)
Lemma detailed_loop_total (layout : Layout) (evs : list Evaluator) :
  forall (results : list (string * DetailEntry)) (total : Q),
    match
      rfold (fun '(results, total_score) evaluator =>
               rbind (Evaluator_evaluate config evaluator layout)
                 (fun score =>
                    let weighted_score := score * weight evaluator in
                    let evaluator_name :=
                      str_lower (str_remove "Evaluator" 0
                                   (class_name (evaluator_class evaluator))) in
                    let results :=
                      dict_set evaluator_name
                        (mkDetailEntry score (weight evaluator) weighted_score)
                        results in
                    Ok (results, total_score + weighted_score)))
            evs (results, total),
      rfold (fun total_score evaluator =>
               rbind (Evaluator_evaluate config evaluator layout)
                 (fun score =>
                    let weighted_score := score * weight evaluator in
                    Ok (total_score + weighted_score)))
            evs total
    with
    | Ok (_, t), Ok t' => t = t'
    | Raise e1, Raise e2 => e1 = e2
    | Timeout, Timeout => True
    | _, _ => False
    end.
Proof.
  induction evs as [|ev evs IH]; intros results total; simpl.
  - reflexivity.
  - destruct (Evaluator_evaluate config ev layout) as [score | e |]; simpl.
    + apply IH.
    + reflexivity.
    + exact I.
Qed.

(** C1: [evaluate_detailed(layout)['total']['weighted_score']] is the value
    of [evaluate(layout)]; when a sub-evaluator raises, both calls raise the
    same exception. *)
Theorem evaluate_detailed_total_is_evaluate (layout : Layout) :
  match evaluate_detailed config layout, evaluate config layout with
  | Ok results, Ok total =>
      exists entry, dict_get "total" results = Some entry
                    /\ entry_weighted_score entry = total
  | Raise e1, Raise e2 => e1 = e2
  | Timeout, Timeout => True
  | _, _ => False
  end.
Proof.
  unfold evaluate_detailed, evaluate.
  pose proof (detailed_loop_total layout (evaluators config) [] 0) as H.
  destruct (rfold _ (evaluators config) ([], 0)) as [[results t] | e1 |];
    destruct (rfold _ (evaluators config) 0) as [t' | e2 |];
    simpl in *; try contradiction; try assumption; try exact I.
  subst t'. eexists. split; [apply dict_get_set | reflexivity].
Qed.

End EvaluatorFacts.

(** The evaluator runs on the layout of the module's test code, and the two
    entry points agree there. *)
Example evaluate_main_layout :
  exists total results entry,
    evaluate (E := demo_runtime) EvaluationConfig_default main_layout = Ok total
    /\ evaluate_detailed (E := demo_runtime) EvaluationConfig_default
         main_layout = Ok results
    /\ dict_get "total" results = Some entry
    /\ entry_weighted_score entry = total
    /\ map fst results
       = ["spaceefficiency"; "lighting"; "ventilation"; "circulation";
          "comfort"; "total"]%string.
Proof.
  do 3 eexists. repeat split; vm_compute; reflexivity.
Qed.

(** C7: the guards against a zero divisor are missing in several scoring
    ratios.  A room of height zero makes [SpaceEfficiencyEvaluator.evaluate]
    raise [ZeroDivisionError] ([width / height] in
    [_evaluate_room_efficiency]); a footprint of area zero with a corridor
    makes [SpaceEfficiencyEvaluator.evaluate] ([hallway_area / total_area])
    and [CirculationEvaluator.evaluate] ([deviation / ideal_length] in
    [_evaluate_path_lengths]) raise it; [evaluate] raises with them. *)
Theorem sub_evaluators_raise_on_degenerate_geometry :
  forall E : Runtime,
    SpaceEfficiencyEvaluator_evaluate EvaluationConfig_default
      zero_height_layout
    = Raise ZeroDivisionError
    /\ evaluate (E := E) EvaluationConfig_default zero_height_layout
       = Raise ZeroDivisionError
    /\ SpaceEfficiencyEvaluator_evaluate EvaluationConfig_default
         zero_footprint_layout
       = Raise ZeroDivisionError
    /\ CirculationEvaluator_evaluate (E := E) EvaluationConfig_default
         zero_footprint_layout
       = Raise ZeroDivisionError
    /\ evaluate (E := E) EvaluationConfig_default zero_footprint_layout
       = Raise ZeroDivisionError.
Proof.
  intro E. repeat split; vm_compute; reflexivity.
Qed.

(** ** Layouts without windows *)

Lemma defined_bind {A B} (r : result A) (k : A -> result B) :
  defined r -> (forall v, defined (k v)) -> defined (rbind r k).
Proof.
  intros [v ->] Hk. apply Hk.
Qed.

Lemma defined_Ok {A} (a : A) : defined (Ok a).
Proof. now exists a. Qed.

Lemma defined_pydiv (a b : Q) : ~ b == 0 -> defined (pydiv a b).
Proof.
  intro H. rewrite pydiv_ok by assumption. apply defined_Ok.
Qed.


Lemma len_nonzero {A} (l : list A) : l <> [] -> ~ len l == 0.
Proof.
  intros Hl H. destruct l as [|a l]; [congruence|].
  unfold len, Qeq in H. simpl in H. lia.
Qed.

Lemma inject_nat_nonzero (n : nat) :
  (0 < n)%nat -> ~ inject_Z (Z.of_nat n) == 0.
Proof.
  intros Hn H. unfold Qeq in H. simpl in H. lia.
Qed.

Lemma is_nil_false {A} (l : list A) : is_nil l = false -> l <> [].
Proof. destruct l; simpl; congruence. Qed.

Lemma defined_mean_or (default : Q) (scores : list Q) :
  defined (mean_or default scores).
Proof.
  unfold mean_or. destruct (is_nil scores) eqn:Hn.
  - apply defined_Ok.
  - apply defined_pydiv, len_nonzero, is_nil_false, Hn.
Qed.

Lemma Qsum_from (l : list Q) (a : Q) : fold_left Qplus l a == a + Qsum l.
Proof.
  unfold Qsum. revert a.
  induction l as [|q l IH]; intro a; simpl.
  - ring.
  - rewrite (IH (a + q)), (IH (0 + q)). ring.
Qed.

Lemma len_cons {A} (a : A) (l : list A) : len (a :: l) == len l + 1.
Proof.
  unfold len. change 1 with (inject_Z 1). rewrite <- inject_Z_plus.
  replace (Z.of_nat (length (a :: l))) with (Z.of_nat (length l) + 1)%Z
    by (simpl length; lia).
  reflexivity.
Qed.

Lemma Qsum_const {A} (c : Q) (l : list A) :
  Qsum (map (fun _ => c) l) == len l * c.
Proof.
  induction l as [|a l IH].
  - unfold Qsum, len. simpl. ring.
  - unfold Qsum. simpl map. simpl fold_left.
    rewrite Qsum_from, IH, len_cons. ring.
Qed.

Lemma utilization_rate_defined (l : Layout) : defined (utilization_rate l).
Proof.
  unfold utilization_rate. cbv zeta.
  destruct (Qltb 0 (total_area l)) eqn:Ht.
  - apply defined_pydiv. apply Qltb_lt in Ht. lra.
  - apply defined_Ok.
Qed.

Lemma room_utilization_rate_defined (r : Room) :
  defined (room_utilization_rate r).
Proof.
  unfold room_utilization_rate.
  destruct (Qltb 0 (room_area r)) eqn:Ht.
  - apply defined_pydiv. apply Qltb_lt in Ht. lra.
  - apply defined_Ok.
Qed.

Lemma area_appropriateness_defined (r : Room) :
  defined (_evaluate_area_appropriateness r).
Proof.
  unfold _evaluate_area_appropriateness.
  destruct (room_type r); cbn [area_standards];
    repeat match goal with
           | |- defined (if ?c then _ else _) => destruct c
           | |- defined (Ok _) => apply defined_Ok
           | |- defined (rbind _ _) => apply defined_bind; [|intro]
           | |- defined (pydiv _ _) => apply defined_pydiv; discriminate
           end.
Qed.

Lemma len_nonzero_is_nil {A} (l : list A) : is_nil l = false -> ~ len l == 0.
Proof. intro H. apply len_nonzero, is_nil_false, H. Qed.

Lemma len_map_nonzero {A B} (f : A -> B) (l : list A) :
  is_nil l = false -> ~ len (map f l) == 0.
Proof.
  intro H. apply len_nonzero. destruct l; simpl in *; congruence.
Qed.

Lemma inject_length_nonzero {A} (l : list A) :
  (length l =? 0)%nat = false -> ~ inject_Z (Z.of_nat (length l)) == 0.
Proof.
  intro H. apply inject_nat_nonzero. apply Nat.eqb_neq in H. lia.
Qed.

Ltac nonzero :=
  solve [ apply len_nonzero_is_nil; assumption
        | apply len_map_nonzero; assumption
        | apply inject_length_nonzero; assumption
        | assumption
        | discriminate ].

Ltac defined_step :=
  match goal with
  | |- defined (Ok _) => apply defined_Ok
  | |- defined (rbind _ _) => apply defined_bind; [|intro]
  | |- defined (pydiv _ _) => apply defined_pydiv; nonzero
  | |- defined (mean_or _ _) => apply defined_mean_or
  | |- defined (utilization_rate _) => apply utilization_rate_defined
  | |- defined (room_utilization_rate _) => apply room_utilization_rate_defined
  | |- defined (_evaluate_area_appropriateness _) =>
      apply area_appropriateness_defined
  | |- defined (if ?c then _ else _) => destruct c eqn:?
  | |- defined (match ?c with Some _ => _ | None => _ end) => destruct c eqn:?
  | |- defined (let '(_, _) := ?c in _) => destruct c eqn:?
  end.

Section WindowlessLayouts.

Context {E : Runtime}.
Variable config : EvaluationConfig.
Variable layout : Layout.

Hypothesis ideal_utilization_rate_nonzero :
  ~ ideal_utilization_rate config == 0.
Hypothesis window_area_ratio_nonzero : ~ window_area_ratio config == 0.
Hypothesis max_circulation_distance_nonzero :
  ~ max_circulation_distance config == 0.

Hypothesis rooms_positive :
  Forall (fun r => 0 < width (bounds r) /\ 0 < height (bounds r))
         (rooms layout).



Lemma ventilation_defined : defined (VentilationEvaluator_evaluate config layout).
Proof.
  unfold VentilationEvaluator_evaluate, _evaluate_ventilation_paths,
    _evaluate_cross_ventilation, _evaluate_air_circulation.
  cbv zeta.
  repeat defined_step.
Qed.







Hypothesis rooms_windowless : Forall (fun r => windows r = []) (rooms layout).

Lemma uniformity_loop (rs : list Room) :
  Forall (fun r => windows r = []) rs ->
  forall acc,
    rfold (fun room_scores room =>
             rbind (lighting_uniformity_room config room)
                   (fun s => Ok (room_scores ++ [s])))
          rs acc
    = Ok (acc ++ map (fun _ => 3 # 10) rs).
Proof.
  induction 1 as [|r rs Hr Hrs IH]; intro acc; simpl.
  - now rewrite app_nil_r.
  - unfold lighting_uniformity_room at 1. rewrite Hr. simpl.
    rewrite IH, <- app_assoc. reflexivity.
Qed.


Lemma lighting_uniformity_windowless :
  exists u, _evaluate_lighting_uniformity config layout = Ok u
            /\ (rooms layout <> [] ->
                u = Qsum (map (fun _ : Room => 3 # 10) (rooms layout))
                    / len (map (fun _ : Room => 3 # 10) (rooms layout))
                /\ 0 < u)
            /\ (rooms layout = [] -> u = 0).
Proof.
  clear rooms_positive.
  unfold _evaluate_lighting_uniformity.
  rewrite (uniformity_loop _ rooms_windowless). simpl.
  destruct (rooms layout) as [|r rs] eqn:Hrs.
  - exists 0. simpl. repeat split; congruence.
  - cbn [is_nil map]. rewrite pydiv_ok by (apply len_nonzero; discriminate).
    eexists. split; [reflexivity|]. split; [|discriminate].
    intros _. split; [reflexivity|].
    change ((3 # 10) :: map (fun _ : Room => 3 # 10) rs)
      with (map (fun _ : Room => 3 # 10) (r :: rs)).
    assert (Hl : ~ len (r :: rs) == 0) by (apply len_nonzero; discriminate).
    assert (Hm : len (map (fun _ : Room => 3 # 10) (r :: rs)) = len (r :: rs))
      by (unfold len; now rewrite length_map).
    assert (Hu : Qsum (map (fun _ : Room => 3 # 10) (r :: rs))
                 / len (map (fun _ : Room => 3 # 10) (r :: rs)) == 3 # 10).
    { rewrite Qsum_const, Hm. field. exact Hl. }
    rewrite Hu. reflexivity.
Qed.




End WindowlessLayouts.




(** ** Computations that return *)

Section Returns.

Context {E : Runtime}.


Lemma returns_ret {A} (a : A) (Q : A -> Prop) : Q a -> returns (ret a) Q.
Proof. intros H w. now exists a, w. Qed.

Lemma returns_bind {A B} (m : M A) (k : A -> M B) (P : A -> Prop)
    (Q : B -> Prop) :
  returns m P -> (forall a, P a -> returns (k a) Q) -> returns (bind m k) Q.
Proof.
  intros Hm Hk w. destruct (Hm w) as (a & w' & Hmw & Ha).
  unfold bind. rewrite Hmw. apply Hk, Ha.
Qed.

Lemma returns_weaken {A} (m : M A) (P Q : A -> Prop) :
  returns m P -> (forall a, P a -> Q a) -> returns m Q.
Proof.
  intros Hm HPQ w. destruct (Hm w) as (a & w' & Hmw & Ha).
  exists a, w'. auto.
Qed.

Lemma returns_with_rng {A} (f : rng_state -> A * rng_state) (Q : A -> Prop) :
  (forall s, Q (fst (f s))) -> returns (with_rng f) Q.
Proof.
  intros H w. unfold with_rng. specialize (H (w_rng w)).
  destruct (f (w_rng w)) as [a s]. eauto.
Qed.

Lemma returns_lift {A} (r : result A) (a : A) (Q : A -> Prop) :
  r = Ok a -> Q a -> returns (lift r) Q.
Proof. intros -> H w. now exists a, w. Qed.

Lemma returns_Room_init (t : RoomType) (b : Rectangle) (m : Q)
    (o : option Orientation) :
  returns (Room_init t b m o) (fun _ => True).
Proof. intro w. unfold Room_init. eauto. Qed.

(** A loop returns when its body does and keeps [I]. *)
Lemma returns_foldM {A B} (f : B -> A -> M B) (I : B -> Prop) (l : list A) :
  (forall b a, I b -> returns (f b a) I) ->
  forall acc, I acc -> returns (foldM f l acc) I.
Proof.
  intro Hf. induction l as [|a l IH]; intros acc Hacc; simpl.
  - now apply returns_ret.
  - eapply returns_bind; [apply Hf, Hacc|]. intros b Hb. now apply IH.
Qed.

Hypothesis runtime_ok : RuntimeOk E.

Lemma returns_random : returns random (fun u => 0 <= u /\ u < 1).
Proof.
  apply returns_with_rng. intro s. apply (random_range runtime_ok).
Qed.

Lemma returns_uniform (a b : Q) :
  a <= b -> returns (uniform a b) (fun v => a <= v).
Proof.
  intro Hab. unfold uniform.
  eapply returns_bind; [apply returns_random|].
  intros u [Hu0 Hu1]. apply returns_ret.
  assert (0 <= (b - a) * u) by (apply Qmult_le_0_compat; lra).
  lra.
Qed.

(** Every template samples positive dimensions without raising. *)
Lemma returns_generate_random_size (t : RoomType) (template : RoomTemplate) :
  room_templates t = Some template ->
  returns (generate_random_size template) (fun _ => True).
Proof.
  intro Ht. unfold generate_random_size.
  assert (Hranges : 0 < tpl_min_area template
                    /\ tpl_min_area template <= tpl_max_area template
                    /\ 0 < aspect_ratio_min template
                    /\ aspect_ratio_min template <= aspect_ratio_max template).
  { destruct t; injection Ht as <-; simpl; repeat split; reflexivity || discriminate. }
  destruct Hranges as (Ha0 & Ha & Hr0 & Hr).
  eapply returns_bind; [apply (returns_uniform _ _ Ha)|].
  intros area Harea.
  eapply returns_bind; [apply (returns_uniform _ _ Hr)|].
  intros ratio Hratio. cbv beta zeta in *.
  assert (Hpos : 0 < pow_half (area * ratio)).
  { apply (pow_half_pos runtime_ok). apply Qmult_lt_0_compat; lra. }
  apply returns_bind with (P := fun _ => True).
  - eapply returns_lift; [|exact I].
    apply pydiv_ok. apply Qnot_eq_sym, Qlt_not_eq, Hpos.
  - intros h _. now apply returns_ret.
Qed.


Lemma length_pick {A} (l : list A) (positions : list nat) :
  Forall (fun i => (i < length l)%nat) positions ->
  length (pick l positions) = length positions.
Proof.
  induction 1 as [|i positions Hi _ IH]; [reflexivity|].
  unfold pick in *. simpl. rewrite length_app, IH.
  destruct (nth_error l i) eqn:Hnth; [reflexivity|].
  apply nth_error_None in Hnth. lia.
Qed.

Lemma returns_shuffle {A} (l : list A) :
  returns (shuffle l) (fun r => length r = length l).
Proof.
  unfold shuffle.
  apply returns_bind
    with (P := fun positions => Permutation positions (seq 0 (length l))).
  - apply returns_with_rng. intro s. apply (shuffle_perm runtime_ok).
  - intros positions Hperm. apply returns_ret.
    rewrite length_pick.
    + rewrite (Permutation_length Hperm). apply length_seq.
    + apply (Permutation_Forall (Permutation_sym Hperm)).
      apply Forall_forall. intros i Hi. apply in_seq in Hi. lia.
Qed.

Variable config : MonteCarloConfig.
Variable constraints : LayoutConstraints.

Lemma returns_sizes_inner (room_type : RoomType)
    (positions : list nat) :
  forall rooms_to_place : list (RoomType * Q * Q),
    returns
      (foldM (fun rooms_to_place (_ : nat) =>
                match room_templates room_type with
                | Some template =>
                    bind (generate_random_size template)
                      (fun x => let '(w, h) := x in
                                ret (rooms_to_place ++ [(room_type, w, h)]))
                | None => ret rooms_to_place
                end)
             positions rooms_to_place)
      (fun r => (length r <= length rooms_to_place + length positions)%nat).
Proof.
  induction positions as [|i positions IH]; intro acc; simpl.
  - apply returns_ret. lia.
  - destruct (room_templates room_type) as [template|] eqn:Ht.
    + eapply returns_bind.
      * eapply returns_bind;
          [apply (returns_generate_random_size room_type), Ht|].
        intros [w h] _.
        apply (returns_ret _
                 (fun r => length r = S (length acc))).
        rewrite length_app. simpl. lia.
      * intros acc' Hacc'. eapply returns_weaken; [apply IH|].
        intros r Hr. simpl in *. lia.
    + eapply returns_bind; [apply (returns_ret _ (fun r => r = acc)); reflexivity|].
      intros acc' ->. eapply returns_weaken; [apply IH|].
      intros r Hr. simpl in *. lia.
Qed.

Lemma returns_sizes (room_requirements : list (RoomType * nat)) :
  forall rooms_to_place : list (RoomType * Q * Q),
    returns
      (foldM (fun rooms_to_place '(room_type, count) =>
                foldM (fun rooms_to_place (_ : nat) =>
                         match room_templates room_type with
                         | Some template =>
                             bind (generate_random_size template)
                               (fun x =>
                                  let '(w, h) := x in
                                  ret (rooms_to_place ++ [(room_type, w, h)]))
                         | None => ret rooms_to_place
                         end)
                      (seq 0 count) rooms_to_place)
             room_requirements rooms_to_place)
      (fun r => (length r
                 <= length rooms_to_place + requested_rooms room_requirements)%nat).
Proof.
  induction room_requirements as [|[room_type count] reqs IH]; intro acc; simpl.
  - apply returns_ret. lia.
  - eapply returns_bind; [apply returns_sizes_inner|].
    intros acc' Hacc'. eapply returns_weaken; [apply IH|].
    intros r Hr. simpl in *. rewrite length_seq in Hacc'. lia.
Qed.

Lemma returns_compact_place_room (layout : Layout) (room_type : RoomType)
    (w h : Q) :
  returns (_compact_place_room config layout room_type w h)
          (fun l => (length (rooms l) <= S (length (rooms layout)))%nat).
Proof.
  unfold _compact_place_room. cbv zeta.
  destruct (find _ _) as [pos|].
  - eapply returns_bind; [apply returns_Room_init|].
    intros room _. apply returns_ret.
    unfold add_room. simpl. rewrite length_app. simpl. lia.
  - apply returns_ret. lia.
Qed.

Lemma returns_place_rooms_loop (rooms_to_place : list (RoomType * Q * Q)) :
  forall (layout : Layout) (available_spaces : list Rectangle),
    returns
      (foldM (fun '(layout, available_spaces) '(room_type, w, h) =>
                match first_fit config available_spaces 0 w h with
                | Some (i, space) =>
                    bind (_choose_position_in_space config space w h)
                      (fun p =>
                         let '(x, y) := p in
                         let room_bounds := mkRectangle x y w h in
                         bind (Room_init room_type room_bounds 0 None)
                           (fun room =>
                              let layout := add_room layout room in
                              let remaining_spaces :=
                                _split_space config space room_bounds in
                              ret (layout,
                                   list_pop available_spaces i
                                   ++ remaining_spaces)))
                | None =>
                    bind (_compact_place_room config layout room_type w h)
                      (fun layout => ret (layout, available_spaces))
                end)
             rooms_to_place (layout, available_spaces))
      (fun st => (length (rooms (fst st))
                  <= length (rooms layout) + length rooms_to_place)%nat).
Proof.
  induction rooms_to_place as [|[[room_type w] h] rest IH];
    intros layout spaces; simpl.
  - apply returns_ret. simpl. lia.
  - eapply returns_bind
      with (P := fun st => (length (rooms (fst st))
                            <= S (length (rooms layout)))%nat).
    + destruct (first_fit config spaces 0 w h) as [[i space]|].
      * unfold _choose_position_in_space. cbv zeta.
        eapply returns_bind; [|intros [x y] _].
        { eapply returns_bind; [apply returns_random|]. intros u _.
          eapply returns_bind; [apply returns_random|]. intros v _.
          now apply (returns_ret _ (fun _ => True)). }
        eapply returns_bind; [apply returns_Room_init|].
        intros room _. apply returns_ret. simpl.
        rewrite length_app. simpl. lia.
      * eapply returns_bind; [apply returns_compact_place_room|].
        intros l Hl. apply returns_ret. exact Hl.
    + intros [layout' spaces'] Hst. simpl in Hst.
      eapply returns_weaken; [apply IH|].
      intros st Hlen. simpl in *. lia.
Qed.

Lemma returns_place_rooms (layout : Layout)
    (rooms_to_place : list (RoomType * Q * Q)) :
  returns (_place_rooms_rectangular_split config layout rooms_to_place)
          (fun l => (length (rooms l)
                     <= length (rooms layout) + length rooms_to_place)%nat).
Proof.
  unfold _place_rooms_rectangular_split. cbv zeta.
  eapply returns_bind; [apply returns_place_rooms_loop|].
  intros [l spaces] Hl. apply returns_ret. exact Hl.
Qed.

Lemma returns_add_hallways (layout : Layout) :
  returns (_add_hallways constraints layout)
          (fun l => rooms l = rooms layout).
Proof.
  unfold _add_hallways.
  destruct (length (rooms layout) <? 2)%nat; [now apply returns_ret|].
  destruct (get_rooms_by_type layout LIVING_ROOM) as [|main_room ?];
    [now apply returns_ret|].
  apply returns_foldM; [|reflexivity].
  intros l' room Hl.
  destruct (negb _); [|now apply returns_ret].
  eapply returns_bind; [apply returns_random|].
  intros u _. destruct (Qltb u (3 # 10)); now apply returns_ret.
Qed.

Lemma returns_generate_random_layout (bounds : Rectangle)
    (room_requirements : list (RoomType * nat)) :
  returns (generate_random_layout config constraints bounds room_requirements)
          (fun l => (length (rooms l)
                     <= requested_rooms room_requirements)%nat).
Proof.
  unfold generate_random_layout. cbv zeta.
  eapply returns_bind; [apply returns_sizes|].
  intros sizes Hsizes. simpl in Hsizes.
  eapply returns_bind; [apply returns_shuffle|].
  intros shuffled Hshuffled.
  eapply returns_bind; [apply returns_place_rooms|].
  intros placed Hplaced. simpl in Hplaced.
  eapply returns_bind; [apply returns_add_hallways|].
  intros l Hl. apply returns_ret. cbv beta in *. simpl in *.
  rewrite Hl. lia.
Qed.

End Returns.

(** ** The deterministic runtime keeps the promises of the interface *)

Lemma rotate_perm {A} (k : nat) (l : list A) : Permutation (rotate k l) l.
Proof.
  unfold rotate. rewrite Permutation_app_comm. now rewrite firstn_skipn.
Qed.

Lemma NoDup_firstn_of {A} (k : nat) (l : list A) :
  NoDup l -> NoDup (firstn k l).
Proof.
  intro H. rewrite <- (firstn_skipn k l) in H.
  now apply NoDup_app_remove_r in H.
Qed.

Lemma In_firstn_of {A} (k : nat) (l : list A) (a : A) :
  In a (firstn k l) -> In a l.
Proof.
  intro H. rewrite <- (firstn_skipn k l). apply in_or_app. now left.
Qed.

Lemma le_fold_max (a : Z) (l : list Z) :
  In a l -> (a <= fold_right Z.max 0 l)%Z.
Proof.
  induction l as [|b l IH]; simpl; [tauto|].
  intros [-> | H]; [lia|]. specialize (IH H). lia.
Qed.

Lemma demo_runtime_ok : RuntimeOk demo_runtime.
Proof.
  constructor; cbn [demo_runtime rng_state rng_random rng_randbelow rng_shuffle
                      rng_sample fresh_id pow_half fst].
  - intro s. assert (H : (s mod 8 < 8)%nat) by (apply Nat.mod_upper_bound; lia).
    unfold Qle, Qlt. cbn [Qnum Qden]. lia.
  - intros n s Hn. apply Nat.mod_upper_bound. lia.
  - intros n s. apply rotate_perm.
  - intros n k s Hk. repeat split.
    + rewrite length_firstn, (Permutation_length (rotate_perm _ _)), length_seq.
      lia.
    + apply NoDup_firstn_of.
      apply (Permutation_NoDup (Permutation_sym (rotate_perm _ _))).
      apply seq_NoDup.
    + apply Forall_forall. intros i Hi.
      apply In_firstn_of in Hi.
      apply (Permutation_in _ (rotate_perm _ _)) in Hi.
      apply in_seq in Hi. lia.
  - intros live Hin. apply le_fold_max in Hin. lia.
  - intros q _. unfold Qlt. cbn [Qnum Qden].
    pose proof (Z.sqrt_nonneg (Qnum q * 10000 / Z.pos (Qden q))). lia.
Qed.


(** C5: [generate_random_layout] returns a layout from every state, for every
    footprint and requirements, and the layout has at most as many rooms as
    were requested.  It can have fewer: no living room fits a 1 x 1
    footprint, and the room is left out. *)
Theorem generate_random_layout_returns {E : Runtime}
    (config : MonteCarloConfig) (constraints : LayoutConstraints)
    (bounds : Rectangle) (room_requirements : list (RoomType * nat))
    (w : World) :
  RuntimeOk E ->
  (exists layout w',
      generate_random_layout config constraints bounds room_requirements w
      = (Ok layout, w')
      /\ (length (rooms layout) <= requested_rooms room_requirements)%nat)
  /\ (exists layout w',
         generate_random_layout (E := demo_runtime) MonteCarloConfig_default
           LayoutConstraints_init (mkRectangle 0 0 1 1) [(LIVING_ROOM, 1%nat)]
           (demo_world 0)
         = (Ok layout, w')
         /\ (length (rooms layout)
             < requested_rooms [(LIVING_ROOM, 1%nat)])%nat).
Proof.
  intro HE. split.
  - apply (returns_generate_random_layout HE).
  - do 2 eexists. split; [vm_compute; reflexivity|]. simpl. lia.
Qed.

Lemma generate_random_layout_returns_witness :
  (exists layout w',
      generate_random_layout (E := demo_runtime) MonteCarloConfig_default
        LayoutConstraints_init (mkRectangle 0 0 20 15)
        [(LIVING_ROOM, 1%nat); (BEDROOM, 2%nat); (KITCHEN, 1%nat);
         (BATHROOM, 1%nat)]
        (demo_world 1)
      = (Ok layout, w')
      /\ (length (rooms layout)
          <= requested_rooms [(LIVING_ROOM, 1%nat); (BEDROOM, 2%nat);
                              (KITCHEN, 1%nat); (BATHROOM, 1%nat)])%nat)
  /\ (exists layout w',
         generate_random_layout (E := demo_runtime) MonteCarloConfig_default
           LayoutConstraints_init (mkRectangle 0 0 1 1) [(LIVING_ROOM, 1%nat)]
           (demo_world 0)
         = (Ok layout, w')
         /\ (length (rooms layout)
             < requested_rooms [(LIVING_ROOM, 1%nat)])%nat).
Proof.
  apply (generate_random_layout_returns (E := demo_runtime)).
  apply demo_runtime_ok.
Defined.

(** ** Parts of the state a computation leaves alone *)

Section Keeps.

Context {E : Runtime}.

Variable T : Type.
Variable proj : World -> T.

Lemma keeps_ret {A} (a : A) : keeps proj (ret a).
Proof. intro w. reflexivity. Qed.

Lemma keeps_raise {A} (e : exn) : keeps proj (raise (A := A) e).
Proof. intro w. reflexivity. Qed.

Lemma keeps_timeout {A} : keeps proj (timeout (A := A)).
Proof. intro w. reflexivity. Qed.

Lemma keeps_lift {A} (r : result A) : keeps proj (lift r).
Proof. intro w. reflexivity. Qed.

Lemma keeps_bind {A B} (m : M A) (k : A -> M B) :
  keeps proj m -> (forall a, keeps proj (k a)) -> keeps proj (bind m k).
Proof.
  intros Hm Hk w. unfold bind. specialize (Hm w).
  destruct (m w) as [[a | e |] w']; simpl in *; try assumption.
  now rewrite Hk.
Qed.

Lemma keeps_try_except {A} (m : M A) :
  keeps proj m -> keeps proj (try_except m).
Proof.
  intros Hm w. unfold try_except. specialize (Hm w).
  destruct (m w) as [[a | e |] w']; assumption.
Qed.

Lemma keeps_foldM {A B} (f : B -> A -> M B) (l : list A) :
  (forall b a, keeps proj (f b a)) -> forall acc, keeps proj (foldM f l acc).
Proof.
  intro Hf. induction l as [|a l IH]; intro acc; simpl.
  - apply keeps_ret.
  - apply keeps_bind; [apply Hf | apply IH].
Qed.

End Keeps.

Lemma keeps_opt_with_rng {E : Runtime} {A} (f : rng_state -> A * rng_state) :
  keeps w_opt (with_rng f).
Proof. intro w. unfold with_rng. now destruct (f (w_rng w)). Qed.

Lemma keeps_live_with_rng {E : Runtime} {A} (f : rng_state -> A * rng_state) :
  keeps w_live (with_rng f).
Proof. intro w. unfold with_rng. now destruct (f (w_rng w)). Qed.

Lemma keeps_opt_Room_init {E : Runtime} (t : RoomType) (b : Rectangle) (m : Q)
    (o : option Orientation) :
  keeps w_opt (Room_init t b m o).
Proof. intro w. reflexivity. Qed.

Lemma keeps_opt_get_opt {E : Runtime} : keeps w_opt get_opt.
Proof. intro w. reflexivity. Qed.

(** One step of a proof that a computation keeps a part of the state. *)
Ltac keeps_step :=
  match goal with
  | |- keeps _ (ret _) => apply keeps_ret
  | |- keeps _ (raise _) => apply keeps_raise
  | |- keeps _ timeout => apply keeps_timeout
  | |- keeps _ (lift _) => apply keeps_lift
  | |- keeps _ (bind _ _) => apply keeps_bind; [|intro]
  | |- keeps _ (try_except _) => apply keeps_try_except
  | |- keeps _ (foldM _ _ _) => apply keeps_foldM; intros
  | |- keeps w_opt (with_rng _) => apply keeps_opt_with_rng
  | |- keeps w_live (with_rng _) => apply keeps_live_with_rng
  | |- keeps w_opt (Room_init _ _ _ _) => apply keeps_opt_Room_init
  | |- keeps w_opt get_opt => apply keeps_opt_get_opt
  | |- keeps _ (if ?c then _ else _) => destruct c
  | |- keeps _ (match ?c with _ => _ end) => destruct c
  | |- keeps _ (let '(_, _) := ?c in _) => destruct c
  | |- keeps _ ?m =>
      match m with
      | context [match ?c with _ => _ end] => is_var c; destruct c
      end
  end.

Ltac keeps_tac := repeat (cbv beta zeta; keeps_step); eauto.

Create HintDb keeps.

Section KeepsFunctions.

Context {E : Runtime}.
Variable config : MonteCarloConfig.
Variable constraints : LayoutConstraints.

Lemma keeps_opt_random : keeps w_opt random.
Proof. apply keeps_opt_with_rng. Qed.

Lemma keeps_opt_uniform (a b : Q) : keeps w_opt (uniform a b).
Proof. unfold uniform, random. keeps_tac. Qed.

Lemma keeps_opt_choice_at {A} (l : list A) : keeps w_opt (choice_at l).
Proof. unfold choice_at. keeps_tac. Qed.

Lemma keeps_opt_choice {A} (l : list A) : keeps w_opt (choice l).
Proof. unfold choice. keeps_tac. apply keeps_opt_choice_at. Qed.

Lemma keeps_opt_sample_positions (n k : nat) :
  keeps w_opt (sample_positions n k).
Proof. unfold sample_positions. keeps_tac. Qed.

Lemma keeps_opt_sample {A} (l : list A) (k : nat) : keeps w_opt (sample l k).
Proof. unfold sample. keeps_tac. apply keeps_opt_sample_positions. Qed.

Lemma keeps_opt_index {A} (l : list A) (i : nat) : keeps w_opt (index l i).
Proof. unfold index. keeps_tac. Qed.

Lemma keeps_opt_Layout_copy (l : Layout) : keeps w_opt (Layout_copy l).
Proof. unfold Layout_copy. keeps_tac. Qed.

Lemma keeps_opt_generate_random_size (t : RoomTemplate) :
  keeps w_opt (generate_random_size t).
Proof.
  unfold generate_random_size. keeps_tac; apply keeps_opt_uniform.
Qed.

Lemma keeps_opt_generate_random_layout (bounds : Rectangle)
    (room_requirements : list (RoomType * nat)) :
  keeps w_opt
    (generate_random_layout config constraints bounds room_requirements).
Proof.
  unfold generate_random_layout, shuffle, _place_rooms_rectangular_split,
    _choose_position_in_space, _compact_place_room, _add_hallways, random.
  keeps_tac; apply keeps_opt_generate_random_size.
Qed.

#[local] Hint Resolve keeps_opt_random keeps_opt_uniform keeps_opt_choice_at
  keeps_opt_choice keeps_opt_sample_positions keeps_opt_sample keeps_opt_index
  keeps_opt_Layout_copy keeps_opt_generate_random_size
  keeps_opt_generate_random_layout : keeps.

Lemma keeps_opt_initialize_population (footprint : Rectangle)
    (room_requirements : list (RoomType * nat)) :
  keeps w_opt
    (_initialize_population config constraints footprint room_requirements).
Proof. unfold _initialize_population. keeps_tac; auto with keeps. Qed.

Lemma keeps_opt_select_parents (evaluated_population : list (Layout * Q)) :
  keeps w_opt (_select_parents config evaluated_population).
Proof.
  unfold _select_parents, select_parents_with_counts.
  keeps_tac; auto with keeps.
Qed.

Lemma keeps_opt_mutate (layout : Layout) (footprint : Rectangle)
    (room_requirements : list (RoomType * nat)) :
  keeps w_opt (_mutate layout footprint room_requirements).
Proof. unfold _mutate. keeps_tac; auto with keeps. Qed.

Lemma keeps_opt_crossover (parent1 parent2 : Layout) (footprint : Rectangle)
    (room_requirements : list (RoomType * nat)) :
  keeps w_opt
    (_crossover config parent1 parent2 footprint room_requirements).
Proof.
  unfold _crossover, crossover_rooms_to_use, crossover_add_rooms.
  keeps_tac; auto using keeps_opt_mutate with keeps.
Qed.

Lemma keeps_opt_generate_offspring_loop (fuel : nat) (parents : list Layout)
    (footprint : Rectangle) (room_requirements : list (RoomType * nat)) :
  forall offspring,
    keeps w_opt
      (generate_offspring_loop config fuel parents footprint
         room_requirements offspring).
Proof.
  induction fuel as [|fuel IH]; intro offspring; simpl.
  - keeps_tac.
  - keeps_tac; auto using keeps_opt_mutate, keeps_opt_crossover with keeps.
Qed.

Lemma keeps_opt_generate_offspring (fuel : nat) (parents : list Layout)
    (footprint : Rectangle) (room_requirements : list (RoomType * nat)) :
  keeps w_opt
    (_generate_offspring config fuel parents footprint room_requirements).
Proof.
  unfold _generate_offspring. keeps_tac.
  apply keeps_opt_generate_offspring_loop.
Qed.

Lemma keeps_opt_evaluate_all (evaluation_function : Layout -> result Q)
    (layouts : list Layout) :
  keeps w_opt (evaluate_all evaluation_function layouts).
Proof. unfold evaluate_all. keeps_tac. Qed.

Lemma keeps_opt_check_convergence : keeps w_opt (_check_convergence config).
Proof. unfold _check_convergence. keeps_tac. Qed.

End KeepsFunctions.

(** ** The optimizer object through a run *)

Section OptimizerTriples.

Context {E : Runtime}.

Lemma triple_ret {A} (P : Optimizer -> Prop) (a : A)
    (Q : A -> Optimizer -> Prop) (X : Optimizer -> Prop) :
  (forall o, P o -> Q a o) -> triple P (ret a) Q X.
Proof. intros H w Hw. simpl. auto. Qed.

Lemma triple_bind {A B} (P : Optimizer -> Prop) (m : M A) (k : A -> M B)
    (Q : A -> Optimizer -> Prop) (R : B -> Optimizer -> Prop)
    (X : Optimizer -> Prop) :
  triple P m Q X -> (forall a, triple (Q a) (k a) R X) ->
  triple P (bind m k) R X.
Proof.
  intros Hm Hk w Hw. specialize (Hm w Hw). unfold bind.
  destruct (m w) as [[a | e |] w']; try assumption.
  now apply Hk.
Qed.

Lemma triple_conseq {A} (P P' : Optimizer -> Prop) (m : M A)
    (Q Q' : A -> Optimizer -> Prop) (X X' : Optimizer -> Prop) :
  triple P m Q X ->
  (forall o, P' o -> P o) -> (forall a o, Q a o -> Q' a o) ->
  (forall o, X o -> X' o) ->
  triple P' m Q' X'.
Proof.
  intros Hm HP HQ HX w Hw. specialize (Hm w (HP _ Hw)).
  destruct (m w) as [[a | e |] w']; auto.
Qed.

(** A computation that keeps the optimizer keeps what holds of it. *)
Lemma triple_keeps {A} (P : Optimizer -> Prop) (m : M A) :
  keeps w_opt m -> triple P m (fun _ => P) P.
Proof.
  intros Hm w Hw. specialize (Hm w).
  destruct (m w) as [[a | e |] w']; simpl in Hm; now rewrite Hm.
Qed.

Lemma triple_get_opt (P : Optimizer -> Prop) (X : Optimizer -> Prop) :
  triple P get_opt (fun self o => P o /\ self = o) X.
Proof. intros w Hw. simpl. auto. Qed.

Lemma triple_put_opt (P : Optimizer -> Prop) (o : Optimizer)
    (Q : unit -> Optimizer -> Prop) (X : Optimizer -> Prop) :
  (forall o', P o' -> Q tt o) -> triple P (put_opt o) Q X.
Proof. intros H w Hw. simpl. eauto. Qed.

End OptimizerTriples.

(** ** The history of best scores *)

Lemma ext_le_refl (a : ExtQ) : ext_le a a.
Proof.
  destruct a as [|q]; [reflexivity|].
  unfold ext_le. simpl. apply Qltb_ge. apply Qle_refl.
Qed.

Lemma ext_le_trans (a b c : ExtQ) : ext_le a b -> ext_le b c -> ext_le a c.
Proof.
  unfold ext_le.
  destruct a as [|p], b as [|q], c as [|r]; simpl; try congruence.
  rewrite !Qltb_ge. intros. lra.
Qed.

Lemma ext_ltb_le (a b : ExtQ) : ext_ltb a b = true -> ext_le a b.
Proof.
  unfold ext_le. destruct a as [|p], b as [|q]; simpl; try congruence.
  rewrite Qltb_lt, Qltb_ge. intros. lra.
Qed.

Lemma nondecreasing_nil : nondecreasing [].
Proof. intros [|i] a b H; discriminate. Qed.

Lemma nondecreasing_snoc (l : list ExtQ) (b : ExtQ) :
  nondecreasing l -> (forall a, In a l -> ext_le a b) ->
  nondecreasing (l ++ [b]).
Proof.
  intros Hl Hb i x y Hx Hy.
  destruct (Nat.lt_ge_cases (S i) (length l)) as [Hlt | Hge].
  - rewrite nth_error_app1 in Hx, Hy by lia. now apply (Hl i).
  - assert (Hi : (i < length l)%nat).
    { assert (Hlen : (S i < length (l ++ [b]))%nat)
        by (apply nth_error_Some; rewrite Hy; discriminate).
      rewrite length_app in Hlen. simpl in Hlen. lia. }
    rewrite nth_error_app1 in Hx by lia.
    rewrite nth_error_app2 in Hy by lia.
    replace (S i - length l)%nat with O in Hy by lia.
    simpl in Hy. injection Hy as <-.
    apply Hb. now apply nth_error_In in Hx.
Qed.

Section History.

Context {E : Runtime}.
Variable config : MonteCarloConfig.
Variable constraints : LayoutConstraints.
Variable evaluation_function : Layout -> result Q.

Variable history0 : list ExtQ.

Local Abbreviation inv m :=
  (triple (history_inv history0) m
          (fun _ => history_inv history0) (history_inv history0)).

Lemma update_best_history (current_best : Layout * Q) :
  inv (update_best current_best).
Proof.
  unfold update_best.
  eapply triple_bind; [apply triple_get_opt|].
  intro self. cbv beta.
  destruct (ext_ltb (best_score self) (Fin (snd current_best))) eqn:Hlt.
  - apply triple_bind
      with (Q := fun _ o => history_inv history0 o /\ self = o).
    + eapply triple_conseq;
        [apply triple_keeps, keeps_opt_Layout_copy
        | intros o H; exact H | intros a o H; exact H
        | intros o [Ho _]; exact Ho].
    + intro c. apply triple_put_opt.
      intros o' [(added & Hh & Hn & Hb) <-].
      exists added. simpl. repeat split; try assumption.
      intros a Ha. eapply ext_le_trans; [apply Hb, Ha|].
      now apply ext_ltb_le.
  - apply triple_put_opt.
    intros o' [(added & Hh & Hn & Hb) <-].
    exists added. simpl. auto.
Qed.

Lemma record_history_history : inv record_history.
Proof.
  unfold record_history.
  eapply triple_bind; [apply triple_get_opt|].
  intro self. apply triple_put_opt.
  intros o' [(added & Hh & Hn & Hb) <-].
  exists (added ++ [best_score self]). simpl.
  split; [rewrite Hh; now rewrite app_assoc|].
  split; [now apply nondecreasing_snoc|].
  intros a Ha. apply in_app_or in Ha. destruct Ha as [Ha | [<- | []]].
  - now apply Hb.
  - apply ext_le_refl.
Qed.

Lemma count_generation_history : inv count_generation.
Proof.
  unfold count_generation.
  eapply triple_bind; [apply triple_get_opt|].
  intro self. apply triple_put_opt.
  intros o' [(added & Hh & Hn & Hb) <-].
  exists added. simpl. auto.
Qed.

Lemma inv_keeps {A} (m : M A) : keeps w_opt m -> inv m.
Proof. apply triple_keeps. Qed.

Lemma inv_bind {A B} (m : M A) (k : A -> M B) :
  inv m -> (forall a, inv (k a)) -> inv (bind m k).
Proof. intros Hm Hk. eapply triple_bind; [exact Hm | exact Hk]. Qed.

Lemma optimize_iteration_history (fuel : nat) (footprint : Rectangle)
    (room_requirements_dict : list (RoomType * nat))
    (evaluated_population : list (Layout * Q)) (temperature : Q) :
  inv (optimize_iteration config evaluation_function fuel footprint
         room_requirements_dict evaluated_population temperature).
Proof.
  unfold optimize_iteration.
  apply inv_bind; [apply inv_keeps, keeps_opt_select_parents | intro parents].
  apply inv_bind;
    [apply inv_keeps, keeps_opt_generate_offspring | intro offspring].
  apply inv_bind; [apply inv_keeps, keeps_opt_evaluate_all | intro evaluated].
  cbv zeta.
  apply inv_bind; [apply inv_keeps, keeps_opt_index | intro current_best].
  apply inv_bind; [apply update_best_history | intro].
  apply inv_bind; [apply record_history_history | intro].
  apply inv_bind; [apply inv_keeps, keeps_opt_check_convergence | intro c].
  apply inv_keeps, keeps_ret.
Qed.

Lemma optimize_loop_history (fuel : nat) (footprint : Rectangle)
    (room_requirements_dict : list (RoomType * nat)) (iterations : nat) :
  forall (evaluated_population : list (Layout * Q)) (temperature : Q),
    inv (optimize_loop config evaluation_function fuel iterations footprint
           room_requirements_dict evaluated_population temperature).
Proof.
  induction iterations as [|n IH]; intros population temperature; simpl.
  - apply inv_keeps, keeps_ret.
  - apply inv_bind; [apply optimize_iteration_history|].
    intros [[go_on population'] temperature'].
    destruct go_on; [|apply inv_keeps, keeps_ret].
    apply inv_bind; [apply count_generation_history | intro]. apply IH.
Qed.

Lemma record_initial_best_history
    (evaluated_population : list (Layout * Q)) :
  triple (fun o => score_history o = history0)
         (record_initial_best evaluated_population)
         (fun _ => history_inv history0) (history_inv history0).
Proof.
  assert (Hstart : forall o, score_history o = history0 ->
                             history_inv history0 o).
  { intros o Ho. exists []. rewrite app_nil_r.
    split; [assumption|]. split; [apply nondecreasing_nil|]. intros a []. }
  unfold record_initial_best.
  destruct evaluated_population as [|first rest].
  - apply triple_ret. exact Hstart.
  - apply triple_bind with (Q := fun _ o => score_history o = history0).
    + eapply triple_conseq;
        [apply triple_keeps, keeps_opt_Layout_copy
        | intros o H; exact H | intros a o H; exact H | exact Hstart].
    + intro c. cbv beta.
      eapply triple_bind; [apply triple_get_opt|].
      intro self. apply triple_put_opt.
      intros o' [Ho <-]. apply Hstart. exact Ho.
Qed.

Lemma optimize_history (fuel : nat) (footprint : Rectangle)
    (room_requirements room_requirements_dict : list (RoomType * nat)) :
  triple (fun o => score_history o = history0)
         (optimize config constraints evaluation_function fuel footprint
            room_requirements room_requirements_dict)
         (fun _ => history_inv history0) (history_inv history0).
Proof.
  assert (Hstart : forall o, score_history o = history0 ->
                             history_inv history0 o).
  { intros o Ho. exists []. rewrite app_nil_r.
    split; [assumption|]. split; [apply nondecreasing_nil|]. intros a []. }
  unfold optimize.
  apply triple_bind with (Q := fun _ o => score_history o = history0).
  { eapply triple_conseq;
      [apply triple_keeps, keeps_opt_initialize_population
      | intros o H; exact H | intros a o H; exact H | exact Hstart]. }
  intro population. cbv beta.
  apply triple_bind with (Q := fun _ o => score_history o = history0).
  { eapply triple_conseq;
      [apply triple_keeps, keeps_opt_evaluate_all
      | intros o H; exact H | intros a o H; exact H | exact Hstart]. }
  intro evaluated. cbv beta zeta.
  eapply triple_bind; [apply record_initial_best_history | intro].
  apply inv_bind; [apply optimize_loop_history | intro].
  apply inv_bind; [apply inv_keeps, keeps_opt_get_opt | intro self].
  apply inv_keeps, keeps_ret.
Qed.

End History.

(** ** Copies of layouts *)

Section Copies.

Context {E : Runtime}.

Lemma rectangle_eta (b : Rectangle) :
  mkRectangle (rect_x b) (rect_y b) (width b) (height b) = b.
Proof. now destruct b. Qed.

Lemma copy_rooms_loop (rs : list Room) :
  forall (new_layout : Layout) (w : World),
  exists new_rooms w',
    foldM (fun new_layout room =>
             bind (Room_init (room_type room)
                     (mkRectangle (rect_x (bounds room)) (rect_y (bounds room))
                        (width (bounds room)) (height (bounds room)))
                     (min_area room) (orientation room))
                  (fun new_room => ret (add_room new_layout new_room)))
          rs new_layout w
    = (Ok (set_rooms new_layout (rooms new_layout ++ new_rooms)), w')
    /\ map forget_id new_rooms = map stripped rs.
Proof.
  induction rs as [|r rs IH]; intros new_layout w; simpl.
  - exists [], w. rewrite app_nil_r. split; [|reflexivity].
    now destruct new_layout.
  - unfold bind at 1. unfold Room_init at 1. unfold bind at 1. simpl.
    match goal with
    | |- context [foldM _ rs ?l ?w1] => destruct (IH l w1) as (nr & w' & H & Hm)
    end.
    rewrite H. eexists (_ :: nr), w'. split.
    + unfold set_rooms, add_room. simpl. now rewrite <- app_assoc.
    + simpl. rewrite Hm. unfold forget_id, stripped. simpl.
      now rewrite rectangle_eta.
Qed.

(** What [Layout.copy] returns. *)
Lemma Layout_copy_returns (self : Layout) (w : World) :
  exists c w',
    Layout_copy self w = (Ok c, w')
    /\ layout_bounds c = layout_bounds self
    /\ map forget_id (rooms c) = map stripped (rooms self)
    /\ hallways c = hallways self
    /\ fitness_score c = 0
    /\ generation_id c = 0%Z
    /\ metadata c = metadata self.
Proof.
  unfold Layout_copy. cbv zeta. unfold bind at 1.
  destruct (copy_rooms_loop (rooms self)
              (Layout_init
                 (mkRectangle (rect_x (layout_bounds self))
                    (rect_y (layout_bounds self)) (width (layout_bounds self))
                    (height (layout_bounds self)))) w)
    as (nr & w' & H & Hm).
  rewrite H. do 2 eexists. split; [reflexivity|]. simpl.
  repeat split.
  - apply rectangle_eta.
  - exact Hm.
  - rewrite <- (map_id (hallways self)) at 2.
    apply map_ext. intro h. apply rectangle_eta.
Qed.

Lemma Layout_copy_fitness (self c : Layout) (w w' : World) :
  Layout_copy self w = (Ok c, w') -> fitness_score c = 0.
Proof.
  intro H. destruct (Layout_copy_returns self w) as (c0 & w0 & H0 & Hc).
  rewrite H in H0. injection H0 as <- <-. tauto.
Qed.

Lemma triple_Layout_copy (P : Optimizer -> Prop) (self : Layout) :
  triple P (Layout_copy self) (fun c o => P o /\ fitness_score c = 0) P.
Proof.
  intros w Hw.
  pose proof (keeps_opt_Layout_copy self w) as Hk.
  destruct (Layout_copy self w) as [[c | e |] w'] eqn:Hc; simpl in Hk;
    rewrite Hk; try assumption.
  split; [assumption|]. now apply (Layout_copy_fitness self c w w').
Qed.

Variable config : MonteCarloConfig.
Variable constraints : LayoutConstraints.
Variable evaluation_function : Layout -> result Q.

Local Abbreviation unscored m :=
  (triple best_unscored m (fun _ => best_unscored) best_unscored).

Lemma update_best_unscored (current_best : Layout * Q) :
  unscored (update_best current_best).
Proof.
  unfold update_best.
  eapply triple_bind; [apply triple_get_opt|].
  intro self. cbv beta.
  destruct (ext_ltb (best_score self) (Fin (snd current_best))).
  - eapply triple_bind.
    + eapply triple_conseq;
        [apply (triple_Layout_copy best_unscored)
        | intros o [Ho _]; exact Ho | intros a o H; exact H
        | intros o H; exact H].
    + intro c. apply triple_put_opt.
      intros o' [_ Hc] l Hl. simpl in Hl. now injection Hl as <-.
  - apply triple_put_opt.
    intros o' [Ho <-] l Hl. simpl in Hl. now apply Ho.
Qed.

Lemma record_history_unscored : unscored record_history.
Proof.
  unfold record_history.
  eapply triple_bind; [apply triple_get_opt|].
  intro self. apply triple_put_opt.
  intros o' [Ho <-] l Hl. simpl in Hl. now apply Ho.
Qed.

Lemma count_generation_unscored : unscored count_generation.
Proof.
  unfold count_generation.
  eapply triple_bind; [apply triple_get_opt|].
  intro self. apply triple_put_opt.
  intros o' [Ho <-] l Hl. simpl in Hl. now apply Ho.
Qed.

Lemma record_initial_best_unscored
    (evaluated_population : list (Layout * Q)) :
  unscored (record_initial_best evaluated_population).
Proof.
  unfold record_initial_best.
  destruct evaluated_population as [|first rest].
  - apply triple_keeps, keeps_ret.
  - eapply triple_bind; [apply (triple_Layout_copy best_unscored)|].
    intro c. cbv beta.
    eapply triple_bind; [apply triple_get_opt|].
    intro self. apply triple_conseq
      with (P := fun _ => fitness_score c = 0)
           (Q := fun _ => best_unscored) (X := best_unscored).
    + apply triple_put_opt.
      intros o' Hc l Hl. simpl in Hl. now injection Hl as <-.
    + intros o [[_ Hc] _]. exact Hc.
    + auto.
    + auto.
Qed.

Lemma unscored_keeps {A} (m : M A) : keeps w_opt m -> unscored m.
Proof. apply triple_keeps. Qed.

Lemma unscored_bind {A B} (m : M A) (k : A -> M B) :
  unscored m -> (forall a, unscored (k a)) -> unscored (bind m k).
Proof. intros Hm Hk. eapply triple_bind; [exact Hm | exact Hk]. Qed.

Lemma optimize_iteration_unscored (fuel : nat) (footprint : Rectangle)
    (room_requirements_dict : list (RoomType * nat))
    (evaluated_population : list (Layout * Q)) (temperature : Q) :
  unscored (optimize_iteration config evaluation_function fuel footprint
              room_requirements_dict evaluated_population temperature).
Proof.
  unfold optimize_iteration.
  apply unscored_bind;
    [apply unscored_keeps, keeps_opt_select_parents | intro parents].
  apply unscored_bind;
    [apply unscored_keeps, keeps_opt_generate_offspring | intro offspring].
  apply unscored_bind;
    [apply unscored_keeps, keeps_opt_evaluate_all | intro evaluated].
  cbv zeta.
  apply unscored_bind;
    [apply unscored_keeps, keeps_opt_index | intro current_best].
  apply unscored_bind; [apply update_best_unscored | intro].
  apply unscored_bind; [apply record_history_unscored | intro].
  apply unscored_bind;
    [apply unscored_keeps, keeps_opt_check_convergence | intro c].
  apply unscored_keeps, keeps_ret.
Qed.

Lemma optimize_loop_unscored (fuel : nat) (footprint : Rectangle)
    (room_requirements_dict : list (RoomType * nat)) (iterations : nat) :
  forall (evaluated_population : list (Layout * Q)) (temperature : Q),
    unscored (optimize_loop config evaluation_function fuel iterations
                footprint room_requirements_dict evaluated_population
                temperature).
Proof.
  induction iterations as [|n IH]; intros population temperature; simpl.
  - apply unscored_keeps, keeps_ret.
  - apply unscored_bind; [apply optimize_iteration_unscored|].
    intros [[go_on population'] temperature'].
    destruct go_on; [|apply unscored_keeps, keeps_ret].
    apply unscored_bind; [apply count_generation_unscored | intro]. apply IH.
Qed.

Lemma optimize_unscored (fuel : nat) (footprint : Rectangle)
    (room_requirements room_requirements_dict : list (RoomType * nat)) :
  triple best_unscored
         (optimize config constraints evaluation_function fuel footprint
            room_requirements room_requirements_dict)
         (fun result _ => forall l, result = Some l -> fitness_score l = 0)
         (fun _ => True).
Proof.
  unfold optimize.
  eapply triple_conseq with (P := best_unscored) (X := best_unscored);
    [| auto | intros a o H; exact H | auto].
  apply triple_bind with (Q := fun _ => best_unscored);
    [apply unscored_keeps, keeps_opt_initialize_population | intro population].
  apply triple_bind with (Q := fun _ => best_unscored);
    [apply unscored_keeps, keeps_opt_evaluate_all | intro evaluated].
  cbv zeta.
  apply triple_bind with (Q := fun _ => best_unscored);
    [apply record_initial_best_unscored | intro].
  apply triple_bind with (Q := fun _ => best_unscored);
    [apply optimize_loop_unscored | intro].
  eapply triple_bind; [apply triple_get_opt|].
  intro self. apply triple_ret.
  intros o [Ho <-]. exact Ho.
Qed.

End Copies.

(** ** The run of the optimizer *)

(** C2: the scores a run of [optimize] appends to [score_history] are
    non-decreasing, for every footprint, requirements, configuration,
    evaluation function and state, and whether the run returns or raises.
    For a new optimizer the history is empty before, so the whole of
    [score_history] is non-decreasing. *)
Theorem optimize_score_history_nondecreasing {E : Runtime}
    (config : MonteCarloConfig) (constraints : LayoutConstraints)
    (evaluation_function : Layout -> result Q) (fuel : nat)
    (footprint : Rectangle)
    (room_requirements room_requirements_dict : list (RoomType * nat))
    (w : World) :
  exists added,
    score_history
      (w_opt (snd (optimize config constraints evaluation_function fuel
                     footprint room_requirements room_requirements_dict w)))
    = score_history (w_opt w) ++ added
    /\ nondecreasing added.
Proof.
  pose proof (optimize_history config constraints evaluation_function
                (score_history (w_opt w)) fuel footprint room_requirements
                room_requirements_dict w eq_refl) as H.
  destruct (optimize _ _ _ _ _ _ _ w) as [[r | e |] w'];
    destruct H as (added & Hh & Hn & _); exists added; auto.
Qed.

(** A run of two iterations on a new optimizer records two scores. *)
Example optimize_demo_history :
  let w' :=
    snd (optimize (E := demo_runtime) small_config LayoutConstraints_init
           (evaluate (E := demo_runtime) EvaluationConfig_default) 10 (mkRectangle 0 0 20 15)
           [(LIVING_ROOM, 1%nat); (BEDROOM, 1%nat)]
           [(LIVING_ROOM, 1%nat); (BEDROOM, 1%nat)] (demo_world 1)) in
  length (score_history (w_opt w')) = 2%nat
  /\ generation_count (w_opt w') = 2%Z.
Proof. vm_compute. split; reflexivity. Qed.

Lemma stripped_has_no_openings (rs rs' : list Room) :
  map forget_id rs = map stripped rs' ->
  Forall (fun r => doors r = [] /\ windows r = [] /\ furniture r = []) rs.
Proof.
  revert rs'. induction rs as [|r rs IH]; intros [|r' rs'] Hr;
    simpl in Hr; try discriminate; constructor.
  - injection Hr as Ht Hb Hm Ho Hf Hd Hw Hrs. auto.
  - injection Hr as Ht Hb Hm Ho Hf Hd Hw Hrs. now apply (IH rs').
Qed.

(** C10: [Layout.copy] returns a layout with the same footprint, the rooms
    in the same order with the same types and bounds, the same corridors,
    the fitness score 0 and rooms without doors, windows or furniture;
    hence the layout [optimize] returns, a copy, has the fitness score 0
    whatever the best score is. *)
Theorem copy_resets_fitness_and_openings {E : Runtime}
    (self : Layout) (w0 : World)
    (config : MonteCarloConfig) (constraints : LayoutConstraints)
    (evaluation_function : Layout -> result Q) (fuel : nat)
    (footprint : Rectangle)
    (room_requirements room_requirements_dict : list (RoomType * nat))
    (w : World) (best : Layout) (w' : World) :
  best_unscored (w_opt w) ->
  optimize config constraints evaluation_function fuel footprint
    room_requirements room_requirements_dict w = (Ok (Some best), w') ->
  (exists c w1,
      Layout_copy self w0 = (Ok c, w1)
      /\ layout_bounds c = layout_bounds self
      /\ length (rooms c) = length (rooms self)
      /\ map room_type (rooms c) = map room_type (rooms self)
      /\ map bounds (rooms c) = map bounds (rooms self)
      /\ hallways c = hallways self
      /\ fitness_score c = 0
      /\ Forall (fun r => doors r = [] /\ windows r = [] /\ furniture r = [])
                (rooms c))
  /\ fitness_score best = 0.
Proof.
  intros Hw Hrun. split.
  - destruct (Layout_copy_returns self w0)
      as (c & w1 & Hc & Hb & Hr & Hh & Hf & _).
    exists c, w1. repeat split; try assumption.
    + apply (f_equal (@length _)) in Hr. now rewrite !length_map in Hr.
    + apply (f_equal (map room_type)) in Hr.
      rewrite !map_map in Hr. exact Hr.
    + apply (f_equal (map bounds)) in Hr.
      rewrite !map_map in Hr. exact Hr.
    + now apply (stripped_has_no_openings _ (rooms self)).
  - pose proof (optimize_unscored config constraints evaluation_function fuel
                  footprint room_requirements room_requirements_dict w Hw)
      as H.
    rewrite Hrun in H. now apply H.
Qed.

Lemma copy_resets_fitness_and_openings_witness :
  exists best w',
    optimize (E := demo_runtime) small_config LayoutConstraints_init
      (evaluate (E := demo_runtime) EvaluationConfig_default) 10
      (mkRectangle 0 0 20 15)
      [(LIVING_ROOM, 1%nat); (BEDROOM, 1%nat)]
      [(LIVING_ROOM, 1%nat); (BEDROOM, 1%nat)] (demo_world 1)
    = (Ok (Some best), w')
    /\ ((exists c w1,
            Layout_copy main_layout (demo_world 0) = (Ok c, w1)
            /\ layout_bounds c = layout_bounds main_layout
            /\ length (rooms c) = length (rooms main_layout)
            /\ map room_type (rooms c) = map room_type (rooms main_layout)
            /\ map bounds (rooms c) = map bounds (rooms main_layout)
            /\ hallways c = hallways main_layout
            /\ fitness_score c = 0
            /\ Forall (fun r => doors r = [] /\ windows r = []
                                /\ furniture r = [])
                      (rooms c))
        /\ fitness_score best = 0).
Proof.
  do 2 eexists. split; [vm_compute; reflexivity|].
  eapply (copy_resets_fitness_and_openings (E := demo_runtime) main_layout
            (demo_world 0) small_config LayoutConstraints_init
            (evaluate (E := demo_runtime) EvaluationConfig_default) 10
            (mkRectangle 0 0 20 15)
            [(LIVING_ROOM, 1%nat); (BEDROOM, 1%nat)]
            [(LIVING_ROOM, 1%nat); (BEDROOM, 1%nat)] (demo_world 1)).
  - intros l Hl. discriminate Hl.
  - vm_compute. reflexivity.
Defined.

(** In that run the best score is positive, and the returned layout still
    has the fitness score 0. *)
Example optimize_demo_best_score :
  let run :=
    optimize (E := demo_runtime) small_config LayoutConstraints_init
      (evaluate (E := demo_runtime) EvaluationConfig_default) 10
      (mkRectangle 0 0 20 15)
      [(LIVING_ROOM, 1%nat); (BEDROOM, 1%nat)]
      [(LIVING_ROOM, 1%nat); (BEDROOM, 1%nat)] (demo_world 1) in
  match fst run, best_score (w_opt (snd run)) with
  | Ok (Some best), Fin s => fitness_score best = 0 /\ 0 < s
  | _, _ => False
  end.
Proof. vm_compute. split; reflexivity. Qed.

(** ** Two runs from the same state of the random source *)

Section TwoRuns.

Context {E : Runtime}.

Local Abbreviation sim R m1 m2 := (sim_to same_rng R m1 m2).

Lemma sim_ret {A B} (R : A -> B -> Prop) (a : A) (b : B) :
  R a b -> sim R (ret a) (ret b).
Proof. intros H w1 w2 Hw. simpl. unfold same_rng. auto. Qed.

(** After a first part that leaves the random source in the same state, a
    second part may relate the final states by [T]. *)
Lemma sim_bind_to {A B A' B'} (T : World -> World -> Prop)
    (R : A -> B -> Prop) (S : A' -> B' -> Prop)
    (m1 : M A) (m2 : M B) (k1 : A -> M A') (k2 : B -> M B') :
  (forall w1 w2, same_rng w1 w2 -> T w1 w2) ->
  sim R m1 m2 ->
  (forall a b, R a b -> sim_to T S (k1 a) (k2 b)) ->
  sim_to T S (bind m1 k1) (bind m2 k2).
Proof.
  intros HT Hm Hk w1 w2 Hw. specialize (Hm w1 w2 Hw). unfold bind.
  destruct (m1 w1) as [[a | e1 |] w1'], (m2 w2) as [[b | e2 |] w2'];
    try contradiction.
  - destruct Hm as [Hab Hw']. now apply Hk.
  - destruct Hm as [He Hw']. auto.
  - auto.
Qed.

Lemma sim_bind {A B A' B'} (R : A -> B -> Prop) (S : A' -> B' -> Prop)
    (m1 : M A) (m2 : M B) (k1 : A -> M A') (k2 : B -> M B') :
  sim R m1 m2 ->
  (forall a b, R a b -> sim S (k1 a) (k2 b)) ->
  sim S (bind m1 k1) (bind m2 k2).
Proof. apply sim_bind_to. auto. Qed.

Lemma sim_with_rng {A} (f : rng_state -> A * rng_state) :
  sim eq (with_rng f) (with_rng f).
Proof.
  intros w1 w2 Hw. unfold with_rng. rewrite Hw.
  destruct (f (w_rng w2)) as [a s]. unfold same_rng. simpl. auto.
Qed.

Lemma sim_lift {A} (r : result A) : sim eq (lift r) (lift r).
Proof.
  intros w1 w2 Hw. unfold lift, same_rng. destruct r; auto.
Qed.

Lemma sim_Room_init (t : RoomType) (b : Rectangle) (m : Q)
    (o : option Orientation) :
  sim (fun r1 r2 => forget_id r1 = forget_id r2)
      (Room_init t b m o) (Room_init t b m o).
Proof.
  intros w1 w2 Hw. unfold Room_init, same_rng. simpl. auto.
Qed.

Lemma sim_foldM {A B C} (R : B -> C -> Prop)
    (f1 : B -> A -> M B) (f2 : C -> A -> M C) (l : list A) :
  (forall b c a, R b c -> sim R (f1 b a) (f2 c a)) ->
  forall b c, R b c -> sim R (foldM f1 l b) (foldM f2 l c).
Proof.
  intro Hf. induction l as [|a l IH]; intros b c Hbc; simpl.
  - now apply sim_ret.
  - eapply sim_bind; [apply Hf, Hbc|]. intros b' c' Hbc'. now apply IH.
Qed.

Lemma sim_eq_bind {A B} (S : B -> B -> Prop) (m : M A) (k1 k2 : A -> M B) :
  sim eq m m -> (forall a, sim S (k1 a) (k2 a)) ->
  sim S (bind m k1) (bind m k2).
Proof.
  intros Hm Hk. eapply sim_bind; [exact Hm|]. intros a b <-. apply Hk.
Qed.

Lemma sim_random : sim eq random random.
Proof. apply sim_with_rng. Qed.

Lemma sim_uniform (a b : Q) : sim eq (uniform a b) (uniform a b).
Proof.
  unfold uniform. apply sim_eq_bind; [apply sim_random|].
  intro u. now apply sim_ret.
Qed.

Lemma sim_generate_random_size (t : RoomTemplate) :
  sim eq (generate_random_size t) (generate_random_size t).
Proof.
  unfold generate_random_size.
  apply sim_eq_bind; [apply sim_uniform | intro area].
  apply sim_eq_bind; [apply sim_uniform | intro ratio]. cbv zeta.
  apply sim_eq_bind; [apply sim_lift | intro h].
  now apply sim_ret.
Qed.

Lemma sim_shuffle {A} (l : list A) : sim eq (shuffle l) (shuffle l).
Proof.
  unfold shuffle. apply sim_eq_bind; [apply sim_with_rng | intro p].
  now apply sim_ret.
Qed.

Variable config : MonteCarloConfig.
Variable constraints : LayoutConstraints.

Lemma same_rooms_add_room (l1 l2 : Layout) (r1 r2 : Room) :
  same_rooms l1 l2 -> forget_id r1 = forget_id r2 ->
  same_rooms (add_room l1 r1) (add_room l2 r2).
Proof.
  intros [Hb Hr] H. split; simpl; [assumption|].
  rewrite !map_app, Hr. simpl. now rewrite H.
Qed.

Lemma existsb_bounds (f : Rectangle -> bool) (rs1 rs2 : list Room) :
  map forget_id rs1 = map forget_id rs2 ->
  existsb (fun r => f (bounds r)) rs1 = existsb (fun r => f (bounds r)) rs2.
Proof.
  revert rs2. induction rs1 as [|r1 rs1 IH]; intros [|r2 rs2] H;
    simpl in *; try discriminate; [reflexivity|].
  inversion H as [[Ht Hb Hm Ho Hf Hd Hw Hrs]].
  now rewrite (IH _ Hrs), Hb.
Qed.

Lemma find_pointwise {A} (f g : A -> bool) (l : list A) :
  (forall a, f a = g a) -> find f l = find g l.
Proof.
  intro H. induction l as [|a l IH]; simpl; [reflexivity|].
  now rewrite H, IH.
Qed.

Lemma sim_compact_place_room (l1 l2 : Layout) (t : RoomType) (w h : Q) :
  same_rooms l1 l2 ->
  sim same_rooms (_compact_place_room config l1 t w h)
                 (_compact_place_room config l2 t w h).
Proof.
  intros [Hb Hr]. unfold _compact_place_room. cbv zeta. rewrite Hb.
  match goal with
  | |- sim _ (match find ?f1 ?g with _ => _ end)
             (match find ?f2 ?g with _ => _ end) =>
      assert (Hf : forall pos, f1 pos = f2 pos)
  end.
  { intros [row col]. f_equal. f_equal. now apply existsb_bounds. }
  rewrite (find_pointwise _ _ _ Hf).
  destruct (find _ _) as [[row col]|].
  - eapply sim_bind; [apply sim_Room_init|].
    intros r1 r2 H. apply sim_ret. now apply same_rooms_add_room.
  - apply sim_ret. now split.
Qed.

Lemma sim_place_rooms (l1 l2 : Layout)
    (rooms_to_place : list (RoomType * Q * Q)) :
  same_rooms l1 l2 ->
  sim same_rooms (_place_rooms_rectangular_split config l1 rooms_to_place)
                 (_place_rooms_rectangular_split config l2 rooms_to_place).
Proof.
  intros H. unfold _place_rooms_rectangular_split. cbv zeta.
  eapply sim_bind
    with (R := fun st1 st2 => same_rooms (fst st1) (fst st2)
                              /\ snd st1 = snd st2).
  - apply sim_foldM.
    + intros [la sa] [lb sb] [[t w] h] [Hl Hs]. simpl in Hl, Hs. subst sb.
      destruct (first_fit config sa 0 w h) as [[i space]|].
      * apply sim_eq_bind.
        { unfold _choose_position_in_space. cbv zeta.
          apply sim_eq_bind; [apply sim_random | intro u].
          apply sim_eq_bind; [apply sim_random | intro v].
          now apply sim_ret. }
        intros [x y]. cbv zeta.
        eapply sim_bind; [apply sim_Room_init|].
        intros r1 r2 Hr. apply sim_ret. simpl.
        split; [now apply same_rooms_add_room | reflexivity].
      * eapply sim_bind; [now apply sim_compact_place_room|].
        intros la' lb' Hl'. apply sim_ret. now split.
    + simpl. split; [assumption|]. destruct H as [-> _]. reflexivity.
  - intros [la sa] [lb sb] [Hl _]. now apply sim_ret.
Qed.


Lemma sim_sizes (room_requirements : list (RoomType * nat)) :
  forall rooms_to_place : list (RoomType * Q * Q),
    sim eq
      (foldM (fun rooms_to_place '(room_type, count) =>
                foldM (fun rooms_to_place (_ : nat) =>
                         match room_templates room_type with
                         | Some template =>
                             bind (generate_random_size template)
                               (fun x =>
                                  let '(w, h) := x in
                                  ret (rooms_to_place ++ [(room_type, w, h)]))
                         | None => ret rooms_to_place
                         end)
                      (seq 0 count) rooms_to_place)
             room_requirements rooms_to_place)
      (foldM (fun rooms_to_place '(room_type, count) =>
                foldM (fun rooms_to_place (_ : nat) =>
                         match room_templates room_type with
                         | Some template =>
                             bind (generate_random_size template)
                               (fun x =>
                                  let '(w, h) := x in
                                  ret (rooms_to_place ++ [(room_type, w, h)]))
                         | None => ret rooms_to_place
                         end)
                      (seq 0 count) rooms_to_place)
             room_requirements rooms_to_place).
Proof.
  intro acc. apply sim_foldM; [|reflexivity].
  intros b c [room_type count] <-.
  apply sim_foldM; [|reflexivity].
  intros b' c' _ <-.
  destruct (room_templates room_type) as [template|]; [|now apply sim_ret].
  apply sim_eq_bind; [apply sim_generate_random_size|].
  intros [w h]. now apply sim_ret.
Qed.

(** [_add_hallways] returns the layout with its rooms as they were. *)
Lemma add_hallways_keeps_rooms (layout : Layout) :
  returns (_add_hallways constraints layout)
          (fun l => layout_bounds l = layout_bounds layout
                    /\ rooms l = rooms layout).
Proof.
  unfold _add_hallways.
  destruct (length (rooms layout) <? 2)%nat; [now apply returns_ret|].
  destruct (get_rooms_by_type layout LIVING_ROOM) as [|main_room ?];
    [now apply returns_ret|].
  apply returns_foldM; [|now split].
  intros l' room Hl.
  destruct (negb _); [|now apply returns_ret].
  apply returns_bind with (P := fun _ => True);
    [now apply returns_with_rng|].
  intros u _. destruct (Qltb u (3 # 10)); now apply returns_ret.
Qed.

Lemma sim_generate_random_layout (bounds : Rectangle)
    (room_requirements : list (RoomType * nat)) :
  sim_to (fun _ _ => True) same_rooms
    (generate_random_layout config constraints bounds room_requirements)
    (generate_random_layout config constraints bounds room_requirements).
Proof.
  unfold generate_random_layout. cbv zeta.
  eapply sim_bind_to; [auto | apply sim_sizes|]. intros sizes ? <-.
  eapply sim_bind_to; [auto | apply sim_shuffle|]. intros shuffled ? <-.
  eapply sim_bind_to; [auto | apply sim_place_rooms; now split|].
  intros l1 l2 [Hb Hr] w1 w2 _.
  destruct (returns_bind _ (fun l => ret l) _ (fun l => layout_bounds l = layout_bounds l1 /\ rooms l = rooms l1)
              (add_hallways_keeps_rooms l1)
              (fun l Hl => returns_ret l _ Hl) w1)
    as (l1' & w1' & -> & Hb1 & Hr1).
  destruct (returns_bind _ (fun l => ret l) _ (fun l => layout_bounds l = layout_bounds l2 /\ rooms l = rooms l2)
              (add_hallways_keeps_rooms l2)
              (fun l Hl => returns_ret l _ Hl) w2)
    as (l2' & w2' & -> & Hb2 & Hr2).
  split; [|exact I]. split; congruence.
Qed.

End TwoRuns.

(** ** The addresses of new rooms *)

Section FreshIds.

Context {E : Runtime}.

Lemma live_triple_ret {A} (P : list Z -> Prop) (a : A)
    (Q : A -> list Z -> Prop) :
  (forall live, P live -> Q a live) -> live_triple P (ret a) Q.
Proof. intros H w Hw. simpl. auto. Qed.

Lemma live_triple_bind {A B} (P : list Z -> Prop) (m : M A) (k : A -> M B)
    (Q : A -> list Z -> Prop) (R : B -> list Z -> Prop) :
  live_triple P m Q -> (forall a, live_triple (Q a) (k a) R) ->
  live_triple P (bind m k) R.
Proof.
  intros Hm Hk w Hw. specialize (Hm w Hw). unfold bind.
  destruct (m w) as [[a | e |] w']; try exact I.
  now apply Hk.
Qed.

Lemma live_triple_keeps {A} (P : list Z -> Prop) (m : M A) :
  keeps w_live m -> live_triple P m (fun _ => P).
Proof.
  intros Hm w Hw. specialize (Hm w).
  destruct (m w) as [[a | e |] w']; try exact I. simpl in Hm. now rewrite Hm.
Qed.

Hypothesis fresh : forall live, ~ In (fresh_id live) live.

Variable live0 : list Z.

Lemma Room_init_apart (rs : list Room) (t : RoomType) (b : Rectangle)
    (m : Q) (o : option Orientation) :
  live_triple (apart live0 rs) (Room_init t b m o)
              (fun room => apart live0 (rs ++ [room])).
Proof.
  intros w [Hincl Hrs]. unfold Room_init. simpl. split.
  - now apply incl_tl.
  - apply Forall_app. split; [assumption|]. constructor; [|constructor].
    simpl. intro Hin. apply (fresh (w_live w)). now apply Hincl.
Qed.

Variable config : MonteCarloConfig.
Variable constraints : LayoutConstraints.

Lemma compact_place_room_apart (layout : Layout) (t : RoomType) (w h : Q) :
  live_triple (apart live0 (rooms layout))
              (_compact_place_room config layout t w h)
              (fun l => apart live0 (rooms l)).
Proof.
  unfold _compact_place_room. cbv zeta.
  destruct (find _ _) as [pos|].
  - eapply live_triple_bind; [apply Room_init_apart|].
    intro room. apply live_triple_ret. auto.
  - apply live_triple_ret. auto.
Qed.

Lemma place_rooms_loop_apart (rooms_to_place : list (RoomType * Q * Q)) :
  forall (layout : Layout) (available_spaces : list Rectangle),
    live_triple (apart live0 (rooms layout))
      (foldM (fun '(layout, available_spaces) '(room_type, w, h) =>
                match first_fit config available_spaces 0 w h with
                | Some (i, space) =>
                    bind (_choose_position_in_space config space w h)
                      (fun p =>
                         let '(x, y) := p in
                         let room_bounds := mkRectangle x y w h in
                         bind (Room_init room_type room_bounds 0 None)
                           (fun room =>
                              let layout := add_room layout room in
                              let remaining_spaces :=
                                _split_space config space room_bounds in
                              ret (layout,
                                   list_pop available_spaces i
                                   ++ remaining_spaces)))
                | None =>
                    bind (_compact_place_room config layout room_type w h)
                      (fun layout => ret (layout, available_spaces))
                end)
             rooms_to_place (layout, available_spaces))
      (fun st => apart live0 (rooms (fst st))).
Proof.
  induction rooms_to_place as [|[[room_type w] h] rest IH];
    intros layout spaces; simpl.
  - apply live_triple_ret. auto.
  - eapply live_triple_bind with (Q := fun st => apart live0 (rooms (fst st))).
    + destruct (first_fit config spaces 0 w h) as [[i space]|].
      * eapply live_triple_bind.
        { apply live_triple_keeps.
          unfold _choose_position_in_space, random. keeps_tac. }
        intros [x y]. cbv zeta.
        eapply live_triple_bind; [apply Room_init_apart|].
        intro room. apply live_triple_ret. auto.
      * eapply live_triple_bind; [apply compact_place_room_apart|].
        intro l. apply live_triple_ret. auto.
    + intros [layout' spaces']. apply IH.
Qed.

Lemma keeps_live_generate_random_size (t : RoomTemplate) :
  keeps w_live (generate_random_size t).
Proof. unfold generate_random_size, uniform, random. keeps_tac. Qed.

Lemma generate_random_layout_apart (bounds : Rectangle)
    (room_requirements : list (RoomType * nat)) :
  live_triple (incl live0)
    (generate_random_layout config constraints bounds room_requirements)
    (fun l _ => Forall (fun r => ~ In (id r) live0) (rooms l)).
Proof.
  unfold generate_random_layout. cbv zeta.
  eapply live_triple_bind.
  { apply live_triple_keeps. keeps_tac. apply keeps_live_generate_random_size. }
  intro sizes.
  eapply live_triple_bind.
  { apply live_triple_keeps. unfold shuffle. keeps_tac. }
  intro shuffled.
  eapply live_triple_bind with (Q := fun l => apart live0 (rooms l)).
  { unfold _place_rooms_rectangular_split. cbv zeta.
    eapply live_triple_bind with (Q := fun st => apart live0 (rooms (fst st))).
    - intros w Hw. apply place_rooms_loop_apart.
      split; [exact Hw | constructor].
    - intros [l spaces]. apply live_triple_ret. auto. }
  intros l w [Hincl Hrs].
  destruct (returns_bind _ (fun l => ret l) _
              (fun l' => layout_bounds l' = layout_bounds l
                         /\ rooms l' = rooms l)
              (add_hallways_keeps_rooms constraints l)
              (fun l Hl => returns_ret l _ Hl) w)
    as (l' & w' & -> & _ & Hr).
  now rewrite Hr.
Qed.

End FreshIds.

(** The room lists of two runs differ in [id]: a second run from the same
    state of the random source, made while the five rooms of the first still
    exist, gives the same rooms at other addresses ([id] 6 to 10 instead of
    1 to 5). *)
Lemma same_seed_runs_differ_in_id :
  w_rng second_run_world = w_rng (demo_world 1)
  /\ match fst first_run, fst second_run with
     | Ok l1, Ok l2 =>
         rooms l1 <> rooms l2
         /\ map id (rooms l1) = [1; 2; 3; 4; 5]%Z
         /\ map id (rooms l2) = [6; 7; 8; 9; 10]%Z
     | _, _ => False
     end.
Proof.
  split; [reflexivity|].
  vm_compute. split; [discriminate | split; reflexivity].
Qed.

(** C9, amended: two runs of [generate_random_layout] from the same state of
    the random source return room lists that agree in everything but [id]:
    as many rooms, in the same order, with the same type, bounds and other
    fields.  [id] is the address of the room object and is not fixed by
    the random source: when the rooms of the first run still exist at the
    start of the second, no [id] of the second list is an [id] of the
    first. *)
Theorem same_seed_same_rooms_up_to_id {E : Runtime}
    (config : MonteCarloConfig) (constraints : LayoutConstraints)
    (bounds : Rectangle) (room_requirements : list (RoomType * nat))
    (w1 w2 : World) :
  RuntimeOk E ->
  w_rng w1 = w_rng w2 ->
  exists l1 l2 w1' w2',
    generate_random_layout config constraints bounds room_requirements w1
    = (Ok l1, w1')
    /\ generate_random_layout config constraints bounds room_requirements w2
       = (Ok l2, w2')
    /\ map forget_id (rooms l1) = map forget_id (rooms l2)
    /\ (Forall (fun r => In (id r) (w_live w2)) (rooms l1) ->
        forall r1 r2, In r1 (rooms l1) -> In r2 (rooms l2) -> id r1 <> id r2).
Proof.
  intros HE Hrng.
  destruct (returns_generate_random_layout HE config constraints bounds
              room_requirements w1) as (l1 & w1' & H1 & _).
  destruct (returns_generate_random_layout HE config constraints bounds
              room_requirements w2) as (l2 & w2' & H2 & _).
  exists l1, l2, w1', w2'. repeat split; try assumption.
  - pose proof (sim_generate_random_layout config constraints bounds
                  room_requirements w1 w2 Hrng) as Hsim.
    rewrite H1, H2 in Hsim. now destruct Hsim as [[_ Hr] _].
  - intros Halive r1 r2 Hr1 Hr2 Heq.
    pose proof (generate_random_layout_apart (fresh_id_fresh HE) (w_live w2)
                  config constraints bounds room_requirements w2
                  (incl_refl _)) as Hfresh.
    rewrite H2 in Hfresh. rewrite Forall_forall in Hfresh, Halive.
    apply (Hfresh r2 Hr2). rewrite <- Heq. now apply Halive.
Qed.

Lemma same_seed_same_rooms_up_to_id_witness :
  exists l1 l2 w1' w2',
    generate_random_layout (E := demo_runtime) MonteCarloConfig_default
      LayoutConstraints_init (mkRectangle 0 0 20 15) five_rooms (demo_world 1)
    = (Ok l1, w1')
    /\ generate_random_layout (E := demo_runtime) MonteCarloConfig_default
         LayoutConstraints_init (mkRectangle 0 0 20 15) five_rooms
         second_run_world
       = (Ok l2, w2')
    /\ map forget_id (rooms l1) = map forget_id (rooms l2)
    /\ (Forall (fun r => In (id r) (w_live second_run_world)) (rooms l1) ->
        forall r1 r2, In r1 (rooms l1) -> In r2 (rooms l2) -> id r1 <> id r2).
Proof.
  apply (same_seed_same_rooms_up_to_id (E := demo_runtime)
           MonteCarloConfig_default LayoutConstraints_init
           (mkRectangle 0 0 20 15) five_rooms (demo_world 1)
           second_run_world).
  - apply demo_runtime_ok.
  - reflexivity.
Defined.

(** In the second run above the rooms of the first run do exist. *)
Example first_run_rooms_exist :
  match fst first_run with
  | Ok l1 =>
      forallb (fun r => existsb (Z.eqb (id r)) (w_live second_run_world))
              (rooms l1) = true
  | _ => False
  end.
Proof. vm_compute. reflexivity. Qed.

(** ** Selection and recombination *)

Section Selection.

Context {E : Runtime}.

Lemma bind_Ok {A B} (m : M A) (k : A -> M B) (w w' : World) (b : B) :
  bind m k w = (Ok b, w') ->
  exists a w1, m w = (Ok a, w1) /\ k a w1 = (Ok b, w').
Proof.
  unfold bind. destruct (m w) as [[a | e |] w1]; intro H; try discriminate.
  now exists a, w1.
Qed.

Lemma max_by_score_is_max (l : list (Layout * Q)) (winner : Layout * Q) :
  max_by_score l = Ok winner ->
  In winner l /\ forall x, In x l -> snd x <= snd winner.
Proof.
  destruct l as [|a l]; simpl; [discriminate|].
  intro H. injection H as <-.
  assert (Hgen : forall (l : list (Layout * Q)) (best : Layout * Q),
             let r := fold_left (fun best c =>
                                   if Qltb (snd best) (snd c) then c else best)
                                l best in
             (r = best \/ In r l)
             /\ snd best <= snd r
             /\ forall x, In x l -> snd x <= snd r).
  { clear. induction l as [|c l IH]; intro best; simpl.
    - repeat split; [now left | apply Qle_refl | tauto].
    - destruct (Qltb (snd best) (snd c)) eqn:Hlt.
      + destruct (IH c) as (Hin & Hle & Hall). apply Qltb_lt in Hlt.
        repeat split.
        * right. destruct Hin as [-> | Hin]; auto.
        * lra.
        * intros x [<- | Hx]; auto.
      + destruct (IH best) as (Hin & Hle & Hall). apply Qltb_ge in Hlt.
        repeat split.
        * destruct Hin as [-> | Hin]; auto.
        * assumption.
        * intros x [<- | Hx]; [lra | auto]. }
  destruct (Hgen l a) as (Hin & Hle & Hall). split.
  - destruct Hin as [-> | Hin]; [now left | now right].
  - intros x [<- | Hx]; auto.
Qed.

Hypothesis runtime_ok : RuntimeOk E.

Variable config : MonteCarloConfig.
Variable population : list (Layout * Q).

Lemma tournament_step (w w' : World) (c : Layout) :
  bind (sample population 3)
       (fun tournament =>
          bind (lift (max_by_score tournament))
               (fun winner => Layout_copy (fst winner))) w
  = (Ok c, w') ->
  tournament_winner population c.
Proof.
  intro H. apply bind_Ok in H. destruct H as (tournament & w1 & Hs & H).
  apply bind_Ok in H. destruct H as (winner & w2 & Hm & Hc).
  unfold lift in Hm. injection Hm as Hm <-.
  unfold sample in Hs. apply bind_Ok in Hs.
  destruct Hs as (positions & w3 & Hp & Hr).
  injection Hr as <- <-.
  unfold sample_positions in Hp.
  destruct (3 <=? length population)%nat eqn:Hlen; [|discriminate].
  apply Nat.leb_le in Hlen.
  unfold with_rng in Hp.
  pose proof (sample_spec runtime_ok (w_rng w) Hlen) as (Hl & Hnd & Hlt).
  destruct (rng_sample (length population) 3 (w_rng w)) as [ps s] eqn:Hps.
  injection Hp as <- <-. simpl in Hl, Hnd, Hlt.
  apply max_by_score_is_max in Hm. destruct Hm as [Hin Hmax].
  exists ps, winner. repeat split; try assumption.
  do 2 eexists. eassumption.
Qed.

Lemma tournaments_loop (turns : list nat) :
  forall (selected selected' : list Layout) (w w' : World),
    foldM (fun selected (_ : nat) =>
             bind (sample population 3)
                  (fun tournament =>
                     bind (lift (max_by_score tournament))
                          (fun winner =>
                             bind (Layout_copy (fst winner))
                                  (fun c => ret (selected ++ [c])))))
          turns selected w
    = (Ok selected', w') ->
    exists winners,
      selected' = selected ++ winners
      /\ length winners = length turns
      /\ Forall (tournament_winner population) winners.
Proof.
  induction turns as [|t turns IH]; intros selected selected' w w' H;
    simpl in H.
  - injection H as <- <-. exists []. now rewrite app_nil_r.
  - apply bind_Ok in H. destruct H as (sel1 & w1 & Hstep & Hrest).
    apply IH in Hrest. destruct Hrest as (winners & -> & Hlen & Hall).
    assert (Hc : exists c, sel1 = selected ++ [c]
                           /\ tournament_winner population c).
    { apply bind_Ok in Hstep. destruct Hstep as (tournament & w2 & Hs & H).
      apply bind_Ok in H. destruct H as (winner & w3 & Hm & H).
      apply bind_Ok in H. destruct H as (c & w4 & Hc & Hr).
      injection Hr as <- <-. exists c. split; [reflexivity|].
      apply (tournament_step w w4). unfold bind at 1. rewrite Hs.
      unfold bind at 1. rewrite Hm. exact Hc. }
    destruct Hc as (c & -> & Hc).
    exists (c :: winners). rewrite <- app_assoc. simpl.
    repeat split; [now rewrite Hlen | now constructor].
Qed.

Lemma elites_loop (positions : list nat) :
  forall (selected selected' : list Layout) (w w' : World),
    foldM (fun selected i =>
             bind (index population i)
                  (fun e => bind (Layout_copy (fst e))
                                 (fun c => ret (selected ++ [c]))))
          positions selected w
    = (Ok selected', w') ->
    exists elites,
      selected' = selected ++ elites
      /\ Forall2 (fun i c => exists e, nth_error population i = Some e
                                       /\ copy_of c (fst e))
                 positions elites.
Proof.
  induction positions as [|i positions IH];
    intros selected selected' w w' H; simpl in H.
  - injection H as <- <-. exists []. now rewrite app_nil_r.
  - apply bind_Ok in H. destruct H as (sel1 & w1 & Hstep & Hrest).
    apply IH in Hrest. destruct Hrest as (elites & -> & Hall).
    apply bind_Ok in Hstep. destruct Hstep as (e & w2 & He & H).
    apply bind_Ok in H. destruct H as (c & w3 & Hc & Hr).
    injection Hr as <- <-.
    unfold index in He. destruct (nth_error population i) as [e'|] eqn:Hn;
      [|discriminate].
    injection He as -> <-.
    exists (c :: elites). rewrite <- app_assoc. split; [reflexivity|].
    constructor; [|assumption].
    exists e. split; [assumption | do 2 eexists; eassumption].
Qed.

Lemma Forall2_seq_nth {A} (P : nat -> A -> Prop) (l : list A) :
  forall start n,
    Forall2 P (seq start n) l ->
    length l = n
    /\ forall i a, nth_error l i = Some a -> P (start + i)%nat a.
Proof.
  induction l as [|a l IH]; intros start n H.
  - inversion H as [Hs|]. destruct n; [|discriminate].
    split; [reflexivity|]. intros [|i] b Hb; discriminate.
  - destruct n as [|n]; simpl in H; inversion H as [|? ? ? ? Ha Hl]; subst.
    apply IH in Hl. destruct Hl as [Hlen Hnth].
    split; [simpl; now rewrite Hlen|].
    intros [|i] b Hb; simpl in Hb.
    + injection Hb as <-. now rewrite Nat.add_0_r.
    + rewrite <- Nat.add_succ_comm. now apply Hnth.
Qed.

End Selection.

(** ** The population is kept sorted *)

Lemma insert_desc_In (a x : Layout * Q) (l : list (Layout * Q)) :
  In x (insert_desc a l) -> x = a \/ In x l.
Proof.
  induction l as [|b l IH]; simpl.
  - intros [<- | []]. now left.
  - destruct (Qltb (snd a) (snd b)); simpl.
    + intros [<- | H]; [auto | destruct (IH H); auto].
    + intros [<- | [<- | H]]; auto.
Qed.

Lemma insert_desc_sorted (a : Layout * Q) (l : list (Layout * Q)) :
  StronglySorted (fun x y => snd y <= snd x) l ->
  StronglySorted (fun x y => snd y <= snd x) (insert_desc a l).
Proof.
  induction 1 as [|b l Hl IH Hb]; simpl.
  - repeat constructor.
  - destruct (Qltb (snd a) (snd b)) eqn:Hab.
    + apply Qltb_lt in Hab. constructor; [assumption|].
      apply Forall_forall. intros x Hx.
      apply insert_desc_In in Hx. destruct Hx as [-> | Hx]; [lra|].
      rewrite Forall_forall in Hb. now apply Hb.
    + apply Qltb_ge in Hab. constructor; [now constructor|].
      constructor; [assumption|].
      apply Forall_forall. intros x Hx.
      rewrite Forall_forall in Hb. specialize (Hb x Hx). lra.
Qed.

Lemma sort_desc_sorted (l : list (Layout * Q)) :
  StronglySorted (fun x y => snd y <= snd x) (sort_desc l).
Proof.
  unfold sort_desc. induction l as [|a l IH]; simpl.
  - constructor.
  - now apply insert_desc_sorted.
Qed.

Lemma firstn_sorted (n : nat) (l : list (Layout * Q)) :
  StronglySorted (fun x y => snd y <= snd x) l ->
  StronglySorted (fun x y => snd y <= snd x) (firstn n l).
Proof.
  intro H. revert n. induction H as [|a l Hl IH Ha]; intros [|n]; simpl;
    try constructor.
  - apply IH.
  - apply Forall_forall. intros x Hx. apply In_firstn_of in Hx.
    rewrite Forall_forall in Ha. now apply Ha.
Qed.

Lemma strongly_sorted_desc (l : list (Layout * Q)) :
  StronglySorted (fun x y => snd y <= snd x) l -> sorted_desc l.
Proof.
  induction 1 as [|c l Hl IH Hc]; intros i j a b Hij Ha Hb.
  - destruct i; discriminate.
  - destruct i as [|i], j as [|j]; simpl in Ha, Hb; try lia.
    + injection Ha as <-. injection Hb as <-. apply Qle_refl.
    + injection Ha as <-. apply nth_error_In in Hb.
      rewrite Forall_forall in Hc. now apply Hc.
    + apply (IH i j); [lia | assumption | assumption].
Qed.

(** The population [optimize] works on, after the first sort and after
    every environmental selection, is in descending order of score. *)
Lemma populations_are_sorted (config : MonteCarloConfig)
    (evaluated_population : list (Layout * Q)) :
  sorted_desc (sort_desc evaluated_population)
  /\ sorted_desc (_environmental_selection config evaluated_population).
Proof.
  split; apply strongly_sorted_desc.
  - apply sort_desc_sorted.
  - unfold _environmental_selection, slice_to.
    destruct (0 <=? population_size config)%Z;
      apply firstn_sorted, sort_desc_sorted.
Qed.

(** Tournaments are not drawn with replacement: with two layouts in the
    population and one parent slot to fill, three draws with replacement
    would give a tournament, but [random.sample] cannot draw three distinct
    members and [_select_parents] raises [ValueError]. *)
Lemma select_parents_needs_three_members :
  length pair_population = 2%nat
  /\ py_int (inject_Z (population_size pair_config)
             * (1 - elite_ratio pair_config)) = 1%Z
  /\ fst (_select_parents (E := demo_runtime) pair_config pair_population
            (demo_world 0))
     = Raise ValueError.
Proof. repeat split. Qed.

(** C4, amended: when [_select_parents] returns, the selection is one
    copy of a tournament winner for each of the [num_parents] parent slots,
    followed by copies of the first [elite_count] members of the
    population, the top ones by score when the population is sorted as
    [optimize] keeps it; [num_parents] and [elite_count] stand for the
    values the code finds for [int(population_size * (1 - elite_ratio))]
    and [int(population_size * elite_ratio)], whatever they are.  A
    tournament is three distinct members of the population
    ([random.sample] draws without replacement) and its winner has the
    highest score among them. *)
Theorem select_parents_tournaments_then_elites {E : Runtime}
    (num_parents elite_count : Z) (population : list (Layout * Q))
    (w : World) (selected : list Layout) (w' : World) :
  RuntimeOk E ->
  select_parents_with_counts num_parents elite_count population w
  = (Ok selected, w') ->
  exists winners elites,
    selected = winners ++ elites
    /\ length winners = Z.to_nat num_parents
    /\ Forall (tournament_winner population) winners
    /\ length elites = Z.to_nat elite_count
    /\ (forall i c, nth_error elites i = Some c ->
                    exists e, nth_error population i = Some e
                              /\ copy_of c (fst e))
    /\ (sorted_desc population ->
        forall i j a b,
          (i < Z.to_nat elite_count)%nat -> (Z.to_nat elite_count <= j)%nat ->
          nth_error population i = Some a ->
          nth_error population j = Some b -> snd b <= snd a).
Proof.
  intros HE H.
  unfold select_parents_with_counts in H. cbv zeta in H.
  apply bind_Ok in H. destruct H as (winners0 & w1 & Hwin & Helite).
  apply (tournaments_loop HE) in Hwin.
  destruct Hwin as (winners & -> & Hlen & Hall). simpl in Helite.
  apply elites_loop in Helite. destruct Helite as (elites & -> & Hel).
  unfold py_range in Hel, Hlen. rewrite length_seq in Hlen.
  apply Forall2_seq_nth in Hel. destruct Hel as [Hlen' Hnth].
  exists winners, elites. repeat split; try assumption.
  intros Hsorted i j a b Hi Hj Ha Hb.
  apply (Hsorted i j a b); [lia | assumption | assumption].
Qed.

Lemma select_parents_tournaments_then_elites_witness :
  exists selected w',
    select_parents_with_counts (E := demo_runtime) 4 1 five_population
      (demo_world 0) = (Ok selected, w')
    /\ exists winners elites,
         selected = winners ++ elites
         /\ length winners = Z.to_nat 4
         /\ Forall (tournament_winner (E := demo_runtime) five_population)
                   winners
         /\ length elites = Z.to_nat 1
         /\ (forall i c, nth_error elites i = Some c ->
                         exists e, nth_error five_population i = Some e
                                   /\ copy_of (E := demo_runtime) c (fst e))
         /\ (sorted_desc five_population ->
             forall i j a b,
               (i < Z.to_nat 1)%nat -> (Z.to_nat 1 <= j)%nat ->
               nth_error five_population i = Some a ->
               nth_error five_population j = Some b -> snd b <= snd a).
Proof.
  do 2 eexists. split; [vm_compute; reflexivity|].
  eapply (select_parents_tournaments_then_elites (E := demo_runtime)
            4 1 five_population (demo_world 0)).
  - apply demo_runtime_ok.
  - vm_compute. reflexivity.
Defined.

(** No exception leaves [_crossover]: its body is inside [try] / [except
    Exception], and a failure shows as [None], which the loop of
    [_generate_offspring] skips. *)
Lemma crossover_never_raises {E : Runtime} (config : MonteCarloConfig)
    (parent1 parent2 : Layout) (footprint : Rectangle)
    (room_requirements : list (RoomType * nat)) (w : World) (e : exn) :
  fst (_crossover config parent1 parent2 footprint room_requirements w)
  <> Raise e.
Proof.
  unfold _crossover, try_except.
  destruct (bind _ _ w) as [[child | e' |] w']; discriminate.
Qed.

(** C6: [_crossover] gives up an instance that the first parent could
    provide.  The requirement is one bedroom; the first parent has one and
    the second has none; the draw is 0.5, not below 0.5, so the [elif] branch
    is taken, finds no bedroom in the second parent, and nothing is added:
    the child has no room.  In the mirrored case (the first parent has no
    bedroom, the draw is 0) the branch does fall back to the other parent. *)
Theorem crossover_drops_instance_first_parent_has :
  get_rooms_by_type parent_with_bedroom BEDROOM <> []
  /\ get_rooms_by_type parent_without_bedroom BEDROOM = []
  /\ fst (rng_random (Runtime := demo_runtime) 4%nat) == 5 # 10
  /\ (exists w',
         _crossover (E := demo_runtime) MonteCarloConfig_default
           parent_with_bedroom parent_without_bedroom (mkRectangle 0 0 20 15)
           [(BEDROOM, 1%nat)] (demo_world 4)
         = (Ok (Some (Layout_init (mkRectangle 0 0 20 15))), w'))
  /\ (exists child w',
         _crossover (E := demo_runtime) MonteCarloConfig_default
           parent_without_bedroom parent_with_bedroom (mkRectangle 0 0 20 15)
           [(BEDROOM, 1%nat)] (demo_world 0)
         = (Ok (Some child), w')
         /\ map room_type (rooms child) = [BEDROOM]).
Proof.
  split; [discriminate|]. split; [reflexivity|]. split; [reflexivity|].
  split.
  - eexists. vm_compute. reflexivity.
  - do 2 eexists. split; vm_compute; reflexivity.
Qed.

(* ===================================================================== *)
(** * More properties *)

(** ** Rectangles *)

Lemma Qle_bool_false (a b : Q) : b < a -> Qle_bool a b = false.
Proof.
  intro H. apply not_true_is_false. intro Hle. apply Qle_bool_iff in Hle. lra.
Qed.

Lemma Qltb_ge_false (a b : Q) : Qle_bool a b = false -> b < a.
Proof.
  intro H. apply Qnot_le_lt. intro Hle. apply Qle_bool_iff in Hle.
  congruence.
Qed.

(** X1: [intersects] does not depend on the order of the two rectangles. *)
Theorem intersects_symmetric (a b : Rectangle) :
  intersects a b = intersects b a.
Proof.
  unfold intersects.
  destruct (Qle_bool (right a) (left b)), (Qle_bool (right b) (left a)),
    (Qle_bool (bottom a) (top b)), (Qle_bool (bottom b) (top a));
    reflexivity.
Qed.

(** X2: a rectangle intersects itself exactly when its right side is
    beyond its left side and its bottom side beyond its top side; a
    rectangle whose sides coincide does not even intersect itself. *)
Theorem intersects_itself_iff_positive (r : Rectangle) :
  intersects r r = true <-> left r < right r /\ top r < bottom r.
Proof.
  unfold intersects.
  rewrite negb_true_iff. repeat rewrite orb_false_iff.
  split.
  - intros [[[H1 _] H2] _].
    apply Qltb_ge_false in H1. apply Qltb_ge_false in H2. now split.
  - intros [Hw Hh]. repeat split; apply Qle_bool_false; assumption.
Qed.

(** X3: two rectangles of non-negative width and height that intersect
    have a point in common: the point at the larger of the two left sides
    and the larger of the two top sides is contained in both. *)
Theorem intersecting_rectangles_share_a_point (a b : Rectangle) :
  0 <= width a -> 0 <= height a -> 0 <= width b -> 0 <= height b ->
  intersects a b = true ->
  exists p, contains_point a p = true /\ contains_point b p = true.
Proof.
  intros Hwa Hha Hwb Hhb.
  unfold intersects. rewrite negb_true_iff. repeat rewrite orb_false_iff.
  intros [[[H1 H2] H3] H4].
  apply Qltb_ge_false in H1. apply Qltb_ge_false in H2.
  apply Qltb_ge_false in H3. apply Qltb_ge_false in H4.
  exists (mkPoint (Qmax (left a) (left b)) (Qmax (top a) (top b))).
  unfold contains_point. cbn [pt_x pt_y].
  repeat rewrite andb_true_iff. repeat rewrite Qle_bool_iff.
  pose proof (Q.le_max_l (left a) (left b)).
  pose proof (Q.le_max_r (left a) (left b)).
  pose proof (Q.le_max_l (top a) (top b)).
  pose proof (Q.le_max_r (top a) (top b)).
  assert (Qmax (left a) (left b) <= right a)
    by (apply Q.max_lub; [unfold left, right in *; lra | lra]).
  assert (Qmax (left a) (left b) <= right b)
    by (apply Q.max_lub; [lra | unfold left, right in *; lra]).
  assert (Qmax (top a) (top b) <= bottom a)
    by (apply Q.max_lub; [unfold top, bottom in *; lra | lra]).
  assert (Qmax (top a) (top b) <= bottom b)
    by (apply Q.max_lub; [lra | unfold top, bottom in *; lra]).
  repeat split; assumption.
Qed.

Lemma intersecting_rectangles_share_a_point_witness :
  exists p,
    contains_point (mkRectangle 0 0 4 3) p = true
    /\ contains_point (mkRectangle 3 2 4 3) p = true.
Proof.
  apply (intersecting_rectangles_share_a_point
           (mkRectangle 0 0 4 3) (mkRectangle 3 2 4 3));
    try discriminate.
  reflexivity.
Defined.

(** X4: the four corners of a rectangle of non-negative width and height
    are contained in it. *)
Theorem corners_are_contained (r : Rectangle) :
  0 <= width r -> 0 <= height r ->
  length (get_corners r) = 4%nat
  /\ Forall (fun p => contains_point r p = true) (get_corners r).
Proof.
  intros Hw Hh. split; [reflexivity|].
  unfold get_corners.
  repeat constructor; unfold contains_point; cbn [pt_x pt_y];
    repeat rewrite andb_true_iff; repeat rewrite Qle_bool_iff;
    unfold left, right, top, bottom; repeat split; lra.
Qed.

Lemma corners_are_contained_witness :
  length (get_corners (mkRectangle 1 2 4 3)) = 4%nat
  /\ Forall (fun p => contains_point (mkRectangle 1 2 4 3) p = true)
            (get_corners (mkRectangle 1 2 4 3)).
Proof.
  apply (corners_are_contained (mkRectangle 1 2 4 3)); discriminate.
Defined.

(** ** Furniture *)

(** X5: rotating a piece of furniture twice gives it back; one rotation
    swaps its current width and height when it can rotate and changes
    nothing otherwise, and the area of its bounds stays the same. *)
Theorem rotate_twice_and_area (f : Furniture) :
  Furniture_rotate (Furniture_rotate f) = f
  /\ (can_rotate f = true ->
      current_width (Furniture_rotate f) = current_height f
      /\ current_height (Furniture_rotate f) = current_width f)
  /\ (can_rotate f = false -> Furniture_rotate f = f)
  /\ area (get_bounds (Furniture_rotate f)) == area (get_bounds f).
Proof.
  destruct f as [n w h cr cat pos rot placed].
  unfold Furniture_rotate, current_width, current_height, get_bounds, area.
  destruct cr, rot; cbn; repeat split; try discriminate; try reflexivity;
    ring.
Qed.

(** ** Placing furniture in a room *)

Lemma inside_iff (outer r : Rectangle) :
  inside outer r = true
  <-> left outer <= left r /\ right r <= right outer
      /\ top outer <= top r /\ bottom r <= bottom outer.
Proof.
  unfold inside. repeat rewrite andb_true_iff. repeat rewrite Qle_bool_iff.
  tauto.
Qed.

(** X6: furniture cannot be placed where it would reach beyond the room.
    When the position is to the left of or above the room, or the right
    side of the rectangle of the furniture at that position is beyond the
    right side of the room, or its bottom side beyond the bottom side of
    the room, [can_place_furniture] answers [False], whatever furniture and
    doors the room holds. *)
Theorem furniture_beyond_the_room_cannot_be_placed (room : Room)
    (f : Furniture) (at_ : Point) :
  pt_x at_ < left (bounds room)
  \/ pt_y at_ < top (bounds room)
  \/ right (bounds room)
     < right (mkRectangle (pt_x at_) (pt_y at_)
                (current_width f) (current_height f))
  \/ bottom (bounds room)
     < bottom (mkRectangle (pt_x at_) (pt_y at_)
                 (current_width f) (current_height f)) ->
  can_place_furniture room f at_ = false.
Proof.
  intros H. unfold can_place_furniture. cbv zeta.
  destruct (inside (bounds room) _) eqn:Hin; [|reflexivity].
  apply inside_iff in Hin. destruct Hin as (Hl & Hr & Ht & Hb).
  change (left (mkRectangle (pt_x at_) (pt_y at_) (current_width f)
                  (current_height f))) with (pt_x at_) in Hl.
  change (top (mkRectangle (pt_x at_) (pt_y at_) (current_width f)
                 (current_height f))) with (pt_y at_) in Ht.
  exfalso. destruct H as [H | [H | [H | H]]].
  - exact (Qlt_not_le _ _ H Hl).
  - exact (Qlt_not_le _ _ H Ht).
  - exact (Qlt_not_le _ _ H Hr).
  - exact (Qlt_not_le _ _ H Hb).
Qed.

Lemma furniture_beyond_the_room_cannot_be_placed_witness :
  can_place_furniture (room_of BEDROOM (mkRectangle 0 0 3 4) 1)
    (mkFurniture "bed" 2 (21 # 10) true "bedroom" (mkPoint 0 0) false false)
    (mkPoint (3 # 2) 1)
  = false.
Proof.
  apply (furniture_beyond_the_room_cannot_be_placed
           (room_of BEDROOM (mkRectangle 0 0 3 4) 1)
           (mkFurniture "bed" 2 (21 # 10) true "bedroom" (mkPoint 0 0)
              false false)
           (mkPoint (3 # 2) 1)).
  right. right. left. reflexivity.
Defined.

(** X7: when [place_furniture] answers [True], the furniture is marked as
    placed at the position asked for, its bounds are inside the room and
    intersect no door and no furniture already placed in the room; when it
    answers [False], the furniture is unchanged. *)
Theorem place_furniture_result (room : Room) (f : Furniture) (at_ : Point) :
  let '(placed, f') := place_furniture room f at_ in
  if placed then
    is_placed f' = true /\ position f' = at_
    /\ current_width f' = current_width f
    /\ current_height f' = current_height f
    /\ inside (bounds room) (get_bounds f') = true
    /\ Forall (fun door => intersects (get_bounds f') door = false)
              (doors room)
    /\ Forall (fun g => is_placed g = true ->
                        intersects (get_bounds f') (get_bounds g) = false)
              (furniture room)
  else f' = f.
Proof.
  unfold place_furniture, can_place_furniture. cbv zeta.
  destruct (inside _ _) eqn:Hin; [|reflexivity]. simpl negb. cbv iota.
  destruct (existsb _ (furniture room)) eqn:Hf; [reflexivity|].
  destruct (existsb _ (doors room)) eqn:Hd; [reflexivity|].
  unfold get_bounds, current_width, current_height in *. cbn.
  repeat split; try assumption.
  - apply Forall_forall. intros door Hdoor.
    apply not_true_is_false. intro Hi.
    assert (existsb (fun door =>
                       intersects
                         (mkRectangle (pt_x at_) (pt_y at_)
                            (if is_rotated f then furn_height f
                             else furn_width f)
                            (if is_rotated f then furn_width f
                             else furn_height f)) door)
                    (doors room) = true)
      by (apply existsb_exists; eauto).
    congruence.
  - apply Forall_forall. intros g Hg Hplaced.
    apply not_true_is_false. intro Hi.
    assert (existsb (fun g =>
                       is_placed g
                       && intersects
                            (mkRectangle (pt_x at_) (pt_y at_)
                               (if is_rotated f then furn_height f
                                else furn_width f)
                               (if is_rotated f then furn_width f
                                else furn_height f))
                            (mkRectangle (pt_x (position g))
                               (pt_y (position g))
                               (if is_rotated g then furn_height g
                                else furn_width g)
                               (if is_rotated g then furn_width g
                                else furn_height g)))
                    (furniture room) = true).
    { apply existsb_exists. exists g. split; [assumption|].
      now rewrite Hplaced, Hi. }
    congruence.
Qed.

(** X8: the position of a piece of furniture already placed in the room is
    taken.  When the bounds of the placed piece have their right side
    beyond their left side and their bottom side beyond their top side, no
    furniture whose rectangle at that position has its sides in the same
    order can be placed there, the placed piece itself included, so a
    placed piece cannot be placed again where it stands. *)
Theorem occupied_position_is_refused (room : Room) (g f : Furniture) :
  In g (furniture room) -> is_placed g = true ->
  left (get_bounds g) < right (get_bounds g) ->
  top (get_bounds g) < bottom (get_bounds g) ->
  left (mkRectangle (pt_x (position g)) (pt_y (position g))
          (current_width f) (current_height f))
  < right (mkRectangle (pt_x (position g)) (pt_y (position g))
             (current_width f) (current_height f)) ->
  top (mkRectangle (pt_x (position g)) (pt_y (position g))
         (current_width f) (current_height f))
  < bottom (mkRectangle (pt_x (position g)) (pt_y (position g))
              (current_width f) (current_height f)) ->
  can_place_furniture room f (position g) = false.
Proof.
  intros Hin Hplaced Hwg Hhg Hwf Hhf.
  unfold can_place_furniture. cbv zeta.
  destruct (negb _); [reflexivity|].
  assert (Hex : existsb
                  (fun existing_furniture =>
                     is_placed existing_furniture
                     && intersects
                          (mkRectangle (pt_x (position g)) (pt_y (position g))
                             (current_width f) (current_height f))
                          (get_bounds existing_furniture))
                  (furniture room) = true).
  { apply existsb_exists. exists g. split; [assumption|].
    rewrite Hplaced. simpl. unfold intersects.
    apply negb_true_iff. repeat rewrite orb_false_iff.
    assert (Hl : left (get_bounds g)
                 = left (mkRectangle (pt_x (position g)) (pt_y (position g))
                           (current_width f) (current_height f)))
      by reflexivity.
    assert (Ht : top (get_bounds g)
                 = top (mkRectangle (pt_x (position g)) (pt_y (position g))
                          (current_width f) (current_height f)))
      by reflexivity.
    repeat split; apply Qle_bool_false.
    - now rewrite Hl.
    - now rewrite <- Hl.
    - now rewrite Ht.
    - now rewrite <- Ht. }
  now rewrite Hex.
Qed.

Lemma occupied_position_is_refused_witness :
  can_place_furniture
    (add_furniture (room_of BEDROOM (mkRectangle 0 0 5 5) 1)
       (mkFurniture "bed" 2 1 true "general" (mkPoint 1 1) false true))
    (mkFurniture "bed" 2 1 true "general" (mkPoint 1 1) false true)
    (position (mkFurniture "bed" 2 1 true "general" (mkPoint 1 1) false true))
  = false.
Proof.
  apply (occupied_position_is_refused
           (add_furniture (room_of BEDROOM (mkRectangle 0 0 5 5) 1)
              (mkFurniture "bed" 2 1 true "general" (mkPoint 1 1) false true))
           (mkFurniture "bed" 2 1 true "general" (mkPoint 1 1) false true)
           (mkFurniture "bed" 2 1 true "general" (mkPoint 1 1) false true)).
  - simpl. now left.
  - reflexivity.
  - reflexivity.
  - reflexivity.
  - reflexivity.
  - reflexivity.
Defined.

(** X9: [Room.utilization_rate] and [Layout.utilization_rate] never raise:
    the division is made only when the area is positive, and the rate is 0
    otherwise. *)
Theorem utilization_rates_are_guarded (room : Room) (layout : Layout) :
  (exists v, room_utilization_rate room = Ok v
             /\ (room_area room <= 0 -> v = 0)
             /\ (0 < room_area room -> v = used_area room / room_area room))
  /\ (exists v, utilization_rate layout = Ok v
                /\ (total_area layout <= 0 -> v = 0)
                /\ (0 < total_area layout ->
                    v = (layout_room_area layout + hallway_area layout)
                        / total_area layout)).
Proof.
  split.
  - unfold room_utilization_rate.
    destruct (Qltb 0 (room_area room)) eqn:Ha.
    + apply Qltb_lt in Ha. rewrite pydiv_ok by lra.
      eexists. split; [reflexivity|]. split; [lra | reflexivity].
    + apply Qltb_ge in Ha. exists 0.
      split; [reflexivity|]. split; [reflexivity | lra].
  - unfold utilization_rate. cbv zeta.
    destruct (Qltb 0 (total_area layout)) eqn:Ha.
    + apply Qltb_lt in Ha. rewrite pydiv_ok by lra.
      eexists. split; [reflexivity|]. split; [lra | reflexivity].
    + apply Qltb_ge in Ha. exists 0.
      split; [reflexivity|]. split; [reflexivity | lra].
Qed.

(** ** Validation of a layout *)

Lemma RoomType_eqb_eq (a b : RoomType) : RoomType_eqb a b = true <-> a = b.
Proof. destruct a, b; simpl; split; congruence. Qed.

Lemma In_pairs_after {A} (l : list A) (a b : A) :
  In (a, b) (pairs_after l)
  <-> exists i j, (i < j)%nat /\ nth_error l i = Some a
                  /\ nth_error l j = Some b.
Proof.
  induction l as [|c l IH]; simpl.
  - split; [tauto|]. intros (i & j & _ & H & _). destruct i; discriminate.
  - rewrite in_app_iff, in_map_iff, IH. split.
    + intros [(x & Hx & Hin) | (i & j & Hij & Hi & Hj)].
      * injection Hx as <- <-. apply In_nth_error in Hin.
        destruct Hin as [j Hj]. exists O, (S j). repeat split; [lia | exact Hj].
      * exists (S i), (S j). repeat split; [lia | assumption | assumption].
    + intros (i & j & Hij & Hi & Hj).
      destruct j as [|j]; [lia|]. simpl in Hj.
      destruct i as [|i]; simpl in Hi.
      * injection Hi as <-. left. exists b. split; [reflexivity|].
        now apply nth_error_In in Hj.
      * right. exists i, j. repeat split; [lia | assumption | assumption].
Qed.

Lemma flat_map_nil {A B} (f : A -> list B) (l : list A) :
  flat_map f l = [] <-> forall a, In a l -> f a = [].
Proof.
  induction l as [|a l IH]; simpl.
  - split; [tauto | reflexivity].
  - split.
    + intros H. apply app_eq_nil in H. destruct H as [Ha Hl].
      intros x [<- | Hx]; [assumption|]. now apply IH.
    + intro H. rewrite (H a) by now left. simpl. apply IH. auto.
Qed.

Lemma is_nil_true {A} (l : list A) : is_nil l = true <-> l = [].
Proof. destruct l; simpl; split; congruence. Qed.

(** X10: [validate_layout] answers [True] exactly when no room intersects a
    later room of the list, every room is inside the footprint, and there
    is a living room, a bedroom, a kitchen and a bathroom; its answer is
    [True] exactly when its list of errors is empty. *)
Theorem validate_layout_iff (l : Layout) :
  (fst (validate_layout l) = true <->
     (forall i j room1 room2,
         (i < j)%nat -> nth_error (rooms l) i = Some room1 ->
         nth_error (rooms l) j = Some room2 ->
         intersects (bounds room1) (bounds room2) = false)
     /\ (forall room, In room (rooms l) ->
                      inside (layout_bounds l) (bounds room) = true)
     /\ (forall t, In t [LIVING_ROOM; BEDROOM; KITCHEN; BATHROOM] ->
                   exists room, In room (rooms l) /\ room_type room = t))
  /\ (fst (validate_layout l) = true <-> snd (validate_layout l) = []).
Proof.
  split; [|unfold validate_layout; cbn [fst snd]; apply is_nil_true].
  unfold validate_layout. cbn [fst]. cbv zeta.
  rewrite is_nil_true. split.
  - intro H. apply app_eq_nil in H. destruct H as [H Hmiss].
    apply app_eq_nil in H. destruct H as [Hover Hout].
    rewrite flat_map_nil in Hover. rewrite flat_map_nil in Hout.
    rewrite flat_map_nil in Hmiss.
    split; [|split].
    + intros i j room1 room2 Hij Hi Hj.
      assert (Hin : In (room1, room2) (pairs_after (rooms l)))
        by (apply In_pairs_after; eauto).
      specialize (Hover _ Hin). simpl in Hover.
      destruct (intersects _ _); [discriminate | reflexivity].
    + intros room Hin. specialize (Hout _ Hin). simpl in Hout.
      destruct (inside _ _); [reflexivity | discriminate].
    + intros t Ht. specialize (Hmiss _ Ht). simpl in Hmiss.
      unfold get_rooms_by_type in Hmiss.
      destruct (filter _ (rooms l)) as [|room rest] eqn:Hf;
        [discriminate|].
      assert (Hin : In room (filter (fun r => RoomType_eqb (room_type r) t)
                               (rooms l)))
        by (rewrite Hf; now left).
      apply filter_In in Hin. destruct Hin as [Hin Ht'].
      exists room. split; [assumption | now apply RoomType_eqb_eq].
  - intros (Hover & Hout & Hmiss).
    assert (H1 : flat_map
                   (fun '(room1, room2) =>
                      if intersects (bounds room1) (bounds room2)
                      then [rooms_overlap (room_type room1)
                              (room_type room2)]
                      else [])
                   (pairs_after (rooms l)) = []).
    { apply flat_map_nil. intros [room1 room2] Hin.
      apply In_pairs_after in Hin. destruct Hin as (i & j & Hij & Hi & Hj).
      now rewrite (Hover i j room1 room2 Hij Hi Hj). }
    assert (H2 : flat_map
                   (fun room =>
                      if negb (inside (layout_bounds l) (bounds room))
                      then [room_out_of_bounds (room_type room)]
                      else [])
                   (rooms l) = []).
    { apply flat_map_nil. intros room Hin. now rewrite (Hout room Hin). }
    assert (H3 : flat_map
                   (fun required_type =>
                      if is_nil (get_rooms_by_type l required_type)
                      then [missing_room_type required_type]
                      else [])
                   [LIVING_ROOM; BEDROOM; KITCHEN; BATHROOM] = []).
    { apply flat_map_nil. intros t Ht.
      destruct (Hmiss t Ht) as (room & Hin & Hroom).
      unfold get_rooms_by_type.
      assert (Hf : In room (filter (fun r => RoomType_eqb (room_type r) t)
                              (rooms l)))
        by (apply filter_In; split; [assumption | now apply RoomType_eqb_eq]).
      destruct (filter _ (rooms l)); [destruct Hf | reflexivity]. }
    now rewrite H1, H2, H3.
Qed.

(** ** Constraints *)

Lemma pymax_comm (a b : Q) : pymax a b == pymax b a.
Proof.
  unfold pymax.
  destruct (Qltb a b) eqn:Hab, (Qltb b a) eqn:Hba; try reflexivity.
  - apply Qltb_lt in Hab. apply Qltb_lt in Hba. lra.
  - apply Qltb_ge in Hab. apply Qltb_ge in Hba. lra.
Qed.

(** X11: the minimal separation of two room types does not depend on their
    order, whatever the table of rules, and it is not negative when no rule
    is. *)
Theorem get_min_separation_symmetric (c : LayoutConstraints)
    (room1_type room2_type : RoomType) :
  get_min_separation c room1_type room2_type
  == get_min_separation c room2_type room1_type
  /\ (Forall (fun rule => 0 <= snd rule) (separation_rules c) ->
      0 <= get_min_separation c room1_type room2_type).
Proof.
  unfold get_min_separation. cbv zeta. split; [apply pymax_comm|].
  intro Hrules.
  assert (Hget : forall k,
             0 <= match items_get RoomType_pair_eqb k (separation_rules c)
                  with Some v => v | None => 0 end).
  { intro k. induction Hrules as [|[k' v] rules Hv _ IH]; simpl.
    - apply Qle_refl.
    - destruct (RoomType_pair_eqb k' k); [exact Hv | exact IH]. }
  unfold pymax. destruct (Qltb _ _); apply Hget.
Qed.

(** With the default rules adjacency is not symmetric: a kitchen should be
    next to a dining room, but no rule is recorded for dining rooms. *)
Example default_adjacency_is_one_way :
  should_be_adjacent LayoutConstraints_init KITCHEN DINING_ROOM = true
  /\ should_be_adjacent LayoutConstraints_init DINING_ROOM KITCHEN = false
  /\ get_min_separation LayoutConstraints_init KITCHEN BEDROOM == 2
  /\ get_min_separation LayoutConstraints_init STUDY BALCONY == 0.
Proof. repeat split. Qed.

(** ** Normalized scores *)

(** X12: [normalize_score] raises [ZeroDivisionError] when the two ends of
    the range are equal and returns a score between 0 and 1 otherwise. *)
Theorem normalize_score_range (score min_score max_score : Q) :
  (max_score == min_score ->
   normalize_score score min_score max_score = Raise ZeroDivisionError)
  /\ (~ max_score == min_score ->
      exists v, normalize_score score min_score max_score = Ok v
                /\ 0 <= v /\ v <= 1).
Proof.
  unfold normalize_score. split.
  - intro H. rewrite pydiv_zero by lra. reflexivity.
  - intro H. rewrite pydiv_ok by lra. simpl.
    eexists. split; [reflexivity|].
    unfold pymax, pymin.
    destruct (Qltb ((score - min_score) / (max_score - min_score)) 1) eqn:H1.
    + destruct (Qltb 0 _) eqn:H0.
      * apply Qltb_lt in H0, H1. lra.
      * lra.
    + destruct (Qltb 0 1) eqn:H0; [lra|]. discriminate.
Qed.

(** ** Lighting and ventilation of rooms without openings *)

Lemma map_const_length {A B} (c : B) (l1 l2 : list A) :
  length l1 = length l2 -> map (fun _ => c) l1 = map (fun _ => c) l2.
Proof.
  revert l2. induction l1 as [|a l1 IH]; intros [|b l2] H;
    try discriminate; [reflexivity|].
  simpl. f_equal. apply IH. now injection H.
Qed.

Lemma is_nil_length {A} (l1 l2 : list A) :
  length l1 = length l2 -> is_nil l1 = is_nil l2.
Proof. destruct l1, l2; simpl; congruence. Qed.

Lemma fold_const_length {A} (step : Q -> Q) (l1 l2 : list A) :
  length l1 = length l2 ->
  forall acc, fold_left (fun acc _ => step acc) l1 acc
              = fold_left (fun acc _ => step acc) l2 acc.
Proof.
  revert l2. induction l1 as [|a l1 IH]; intros [|b l2] H acc;
    try discriminate; [reflexivity|].
  simpl. apply IH. now injection H.
Qed.

Lemma ventilation_paths_without_openings (layout : Layout) :
  Forall (fun r => doors r = [] /\ windows r = []) (rooms layout) ->
  _evaluate_ventilation_paths layout
  = if is_nil (rooms layout) then Ok 0
    else pydiv (Qsum (map (fun _ : Room => 2 # 10) (rooms layout)))
               (len (map (fun _ : Room => 2 # 10) (rooms layout))).
Proof.
  intro Hall. unfold _evaluate_ventilation_paths. cbv zeta.
  rewrite (map_ext_in _ (fun _ => 2 # 10)); [reflexivity|].
  intros r Hr. rewrite Forall_forall in Hall.
  destruct (Hall r Hr) as [-> ->]. reflexivity.
Qed.

Lemma cross_ventilation_without_windows
    (config : EvaluationConfig) (layout : Layout) :
  Forall (fun r => doors r = [] /\ windows r = []) (rooms layout) ->
  _evaluate_cross_ventilation config layout
  = if (length (rooms layout) =? 0)%nat then Ok 0
    else rbind (pydiv (inject_Z (Z.of_nat 0))
                      (inject_Z (Z.of_nat (length (rooms layout)))))
               (fun r => Ok (r * cross_ventilation_bonus config)).
Proof.
  intro Hall. unfold _evaluate_cross_ventilation. cbv zeta.
  assert (Hf : filter has_cross_ventilation (rooms layout) = []).
  { induction Hall as [|r rs [_ Hr] _ IH]; [reflexivity|].
    simpl. unfold has_cross_ventilation at 1. rewrite Hr. simpl. exact IH. }
  now rewrite Hf.
Qed.

Lemma air_circulation_without_doors (layout : Layout) :
  Forall (fun r => doors r = [] /\ windows r = []) (rooms layout) ->
  _evaluate_air_circulation layout
  = if is_nil (rooms layout) then Ok 0
    else pydiv (fold_left (fun connectivity_score (_ : Room) =>
                             connectivity_score
                             + pymin 1 (len (@nil Rectangle) / 2))
                          (rooms layout) 0)
               (len (rooms layout)).
Proof.
  intro Hall. unfold _evaluate_air_circulation. cbv zeta.
  assert (Hf : forall acc,
             fold_left (fun connectivity_score room =>
                          connectivity_score
                          + pymin 1 (len (doors room) / 2))
                       (rooms layout) acc
             = fold_left (fun connectivity_score (_ : Room) =>
                            connectivity_score
                            + pymin 1 (len (@nil Rectangle) / 2))
                         (rooms layout) acc).
  { induction Hall as [|r rs [Hr _] _ IH]; intro acc; [reflexivity|].
    simpl. rewrite IH, Hr. reflexivity. }
  now rewrite Hf.
Qed.

Lemma window_coverage_without_windows
    (config : EvaluationConfig) (layout : Layout) :
  0 < window_area_ratio config ->
  Forall (fun r => doors r = [] /\ windows r = []) (rooms layout) ->
  _evaluate_window_coverage config layout = Ok 0.
Proof.
  intros Hideal Hall. unfold _evaluate_window_coverage.
  destruct (is_nil (rooms layout)); [reflexivity|].
  assert (Hf : forall acc,
             fst (fold_left
                    (fun '(total_window_area, total_wall_area) room =>
                       (total_window_area
                        + Qsum (map (fun w => width w * height w)
                                    (windows room)),
                        total_wall_area
                        + 2 * (width (bounds room) + height (bounds room))
                          * (28 # 10)))
                    (rooms layout) acc) == fst acc).
  { induction Hall as [|r rs [_ Hr] _ IH]; intros [a b]; [reflexivity|].
    simpl. rewrite IH, Hr. simpl. unfold Qsum. simpl. ring. }
  specialize (Hf (0, 0)). cbv zeta.
  destruct (fold_left _ (rooms layout) (0, 0)) as [total_window total_wall].
  simpl in Hf.
  destruct (Qeq_bool total_wall 0) eqn:Hwall; [reflexivity|].
  apply Qeq_bool_neq in Hwall.
  rewrite pydiv_ok by assumption. simpl.
  rewrite pydiv_ok by lra. simpl.
  assert (Hd : pyabs (total_window / total_wall - window_area_ratio config)
               / window_area_ratio config == 1).
  { unfold pyabs.
    assert (Hr : total_window / total_wall == 0)
      by (rewrite Hf; unfold Qdiv; ring).
    destruct (Qltb _ 0) eqn:Hneg.
    - rewrite Hr. field. lra.
    - apply Qltb_ge in Hneg. lra. }
  unfold pymax.
  destruct (Qltb 0 _) eqn:Hpos; [|reflexivity].
  apply Qltb_lt in Hpos. lra.
Qed.

Lemma lighting_sources_without_windows (layout : Layout) :
  Forall (fun r => doors r = [] /\ windows r = []) (rooms layout) ->
  _evaluate_lighting_sources layout
  = 0 / (len [LIVING_ROOM; BEDROOM; KITCHEN] * 2).
Proof.
  intro Hall. unfold _evaluate_lighting_sources. cbv zeta.
  assert (Hin : forall t acc,
             fold_left
               (fun score room =>
                  if is_nil (windows room) then score
                  else score + pymin 1 (len (room_orientations room) / 2))
               (get_rooms_by_type layout t) acc = acc).
  { intros t. unfold get_rooms_by_type.
    induction Hall as [|r rs [_ Hr] _ IH]; intro acc; [reflexivity|].
    simpl. destruct (RoomType_eqb (room_type r) t); [|apply IH].
    simpl. rewrite Hr. simpl. apply IH. }
  cbn [fold_left]. now rewrite !Hin.
Qed.

(** X14: the lighting and the ventilation score of a layout whose rooms
    have no door and no window do not depend on its geometry.  Two such
    layouts with the same number of rooms get the same score from
    [LightingEvaluator.evaluate] and the same from
    [VentilationEvaluator.evaluate], found by the same operations on the
    same numbers, as long as the ideal window ratio of the configuration is
    positive; neither evaluator raises on them. *)
Theorem scores_without_openings {E : Runtime}
    (config : EvaluationConfig) (layout1 layout2 : Layout) :
  0 < window_area_ratio config ->
  Forall (fun r => doors r = [] /\ windows r = []) (rooms layout1) ->
  Forall (fun r => doors r = [] /\ windows r = []) (rooms layout2) ->
  length (rooms layout1) = length (rooms layout2) ->
  LightingEvaluator_evaluate config layout1
  = LightingEvaluator_evaluate config layout2
  /\ VentilationEvaluator_evaluate config layout1
     = VentilationEvaluator_evaluate config layout2
  /\ defined (LightingEvaluator_evaluate config layout1)
  /\ defined (VentilationEvaluator_evaluate config layout1).
Proof.
  intros Hideal Hall1 Hall2 Hlen.
  assert (Hwin1 : Forall (fun r => windows r = []) (rooms layout1))
    by (eapply Forall_impl; [|exact Hall1]; now intros r [_ H]).
  assert (Hwin2 : Forall (fun r => windows r = []) (rooms layout2))
    by (eapply Forall_impl; [|exact Hall2]; now intros r [_ H]).
  assert (Hlight : LightingEvaluator_evaluate config layout1
                   = LightingEvaluator_evaluate config layout2).
  { unfold LightingEvaluator_evaluate, _evaluate_lighting_uniformity.
    cbv zeta.
    rewrite !window_coverage_without_windows by assumption.
    rewrite (uniformity_loop config _ Hwin1),
      (uniformity_loop config _ Hwin2).
    rewrite !lighting_sources_without_windows by assumption.
    now rewrite (map_const_length (3 # 10) _ _ Hlen). }
  assert (Hvent : VentilationEvaluator_evaluate config layout1
                  = VentilationEvaluator_evaluate config layout2).
  { unfold VentilationEvaluator_evaluate. cbv zeta.
    rewrite !ventilation_paths_without_openings by assumption.
    rewrite !cross_ventilation_without_windows by assumption.
    rewrite !air_circulation_without_doors by assumption.
    rewrite (map_const_length (2 # 10) _ _ Hlen),
      (is_nil_length _ _ Hlen).
    rewrite (fold_const_length
               (fun connectivity_score =>
                  connectivity_score + pymin 1 (len (@nil Rectangle) / 2))
               _ _ Hlen).
    unfold len. now rewrite Hlen. }
  split; [assumption|]. split; [assumption|]. split.
  - unfold LightingEvaluator_evaluate. cbv zeta.
    rewrite window_coverage_without_windows by assumption.
    destruct (lighting_uniformity_windowless config layout1 Hwin1)
      as (u & -> & _).
    apply defined_Ok.
  - apply ventilation_defined.
Qed.

Lemma scores_without_openings_witness :
  LightingEvaluator_evaluate (E := demo_runtime) EvaluationConfig_default
    windowless_layout
  = LightingEvaluator_evaluate (E := demo_runtime) EvaluationConfig_default
      (mkLayout (mkRectangle 0 0 30 30)
         [room_of KITCHEN (mkRectangle 5 5 3 9) 7] [] 0 0 [])
  /\ VentilationEvaluator_evaluate EvaluationConfig_default windowless_layout
     = VentilationEvaluator_evaluate EvaluationConfig_default
         (mkLayout (mkRectangle 0 0 30 30)
            [room_of KITCHEN (mkRectangle 5 5 3 9) 7] [] 0 0 [])
  /\ defined (LightingEvaluator_evaluate (E := demo_runtime)
                EvaluationConfig_default windowless_layout)
  /\ defined (VentilationEvaluator_evaluate EvaluationConfig_default
                windowless_layout).
Proof.
  apply (scores_without_openings (E := demo_runtime) EvaluationConfig_default
           windowless_layout
           (mkLayout (mkRectangle 0 0 30 30)
              [room_of KITCHEN (mkRectangle 5 5 3 9) 7] [] 0 0 [])).
  - reflexivity.
  - repeat constructor.
  - repeat constructor.
  - reflexivity.
Defined.

(** ** Selection of the next population *)

Lemma insert_desc_perm (a : Layout * Q) (l : list (Layout * Q)) :
  Permutation (insert_desc a l) (a :: l).
Proof.
  induction l as [|b l IH]; simpl; [reflexivity|].
  destruct (Qltb (snd a) (snd b)); [|reflexivity].
  rewrite IH. apply perm_swap.
Qed.

Lemma sort_desc_perm (l : list (Layout * Q)) : Permutation (sort_desc l) l.
Proof.
  unfold sort_desc. induction l as [|a l IH]; simpl; [reflexivity|].
  rewrite insert_desc_perm. now constructor.
Qed.

Lemma sorted_firstn_skipn (l : list (Layout * Q)) :
  StronglySorted (fun x y => snd y <= snd x) l ->
  forall n a b, In a (firstn n l) -> In b (skipn n l) -> snd b <= snd a.
Proof.
  induction 1 as [|c l Hl IH Hc]; intros n a b Ha Hb.
  - destruct n; destruct Ha.
  - destruct n as [|n]; [destruct Ha|].
    simpl in Ha, Hb. destruct Ha as [<- | Ha].
    + rewrite Forall_forall in Hc. apply Hc.
      rewrite <- (firstn_skipn n l). apply in_or_app. now right.
    + now apply (IH n).
Qed.

(** X15: with a non-negative population size, [_environmental_selection]
    keeps [population_size] members (all of them when there are fewer), in
    descending order of score, and every member it drops scores at most as
    much as every member it keeps: kept and dropped members together are
    the population given. *)
Theorem environmental_selection_keeps_the_best (config : MonteCarloConfig)
    (evaluated_population : list (Layout * Q)) :
  (0 <= population_size config)%Z ->
  length (_environmental_selection config evaluated_population)
  = Nat.min (Z.to_nat (population_size config)) (length evaluated_population)
  /\ sorted_desc (_environmental_selection config evaluated_population)
  /\ exists dropped,
       Permutation
         (_environmental_selection config evaluated_population ++ dropped)
         evaluated_population
       /\ forall a b,
            In a (_environmental_selection config evaluated_population) ->
            In b dropped -> snd b <= snd a.
Proof.
  intro Hsize. unfold _environmental_selection, slice_to.
  apply Z.leb_le in Hsize. rewrite Hsize.
  split; [|split].
  - rewrite length_firstn.
    now rewrite (Permutation_length (sort_desc_perm evaluated_population)).
  - apply strongly_sorted_desc, firstn_sorted, sort_desc_sorted.
  - exists (skipn (Z.to_nat (population_size config))
                  (sort_desc evaluated_population)).
    split.
    + rewrite firstn_skipn. apply sort_desc_perm.
    + apply sorted_firstn_skipn, sort_desc_sorted.
Qed.

Lemma environmental_selection_keeps_the_best_witness :
  length (_environmental_selection pair_config five_population)
  = Nat.min (Z.to_nat (population_size pair_config)) (length five_population)
  /\ sorted_desc (_environmental_selection pair_config five_population)
  /\ exists dropped,
       Permutation
         (_environmental_selection pair_config five_population ++ dropped)
         five_population
       /\ forall a b,
            In a (_environmental_selection pair_config five_population) ->
            In b dropped -> snd b <= snd a.
Proof.
  apply (environmental_selection_keeps_the_best pair_config five_population).
  discriminate.
Defined.

(** ** Populations that are too small *)

(** X16: [_select_parents] raises [ValueError] at its first tournament when
    the population has fewer than three members and at least one parent is
    to be chosen by tournament, that is when the code finds
    [int(population_size * (1 - elite_ratio))] to be at least 1; the state
    is left as it was. *)
Theorem select_parents_small_population {E : Runtime}
    (num_parents elite_count : Z)
    (evaluated_population : list (Layout * Q)) (w : World) :
  (length evaluated_population < 3)%nat ->
  (1 <= num_parents)%Z ->
  select_parents_with_counts num_parents elite_count evaluated_population w
  = (Raise ValueError, w).
Proof.
  intros Hlen Hparents. unfold select_parents_with_counts. cbv zeta.
  unfold py_range at 1.
  destruct (Z.to_nat num_parents) as [|n] eqn:Hn; [lia|].
  simpl seq. cbn [foldM]. unfold bind at 1. unfold bind at 1.
  unfold bind at 1. unfold sample, bind at 1, sample_positions.
  apply Nat.leb_gt in Hlen. rewrite Hlen. reflexivity.
Qed.

Lemma select_parents_small_population_witness :
  select_parents_with_counts (E := demo_runtime) 1 0 pair_population
    (demo_world 0)
  = (Raise ValueError, demo_world 0).
Proof.
  apply (select_parents_small_population (E := demo_runtime) 1 0
           pair_population (demo_world 0)).
  - simpl. lia.
  - lia.
Defined.

(** X17: with a population size of zero and at least one iteration to run,
    [optimize] raises [IndexError]: the first generation is empty and its
    best member is asked for. *)
Theorem optimize_empty_population {E : Runtime} (config : MonteCarloConfig)
    (constraints : LayoutConstraints)
    (evaluation_function : Layout -> result Q) (fuel : nat)
    (footprint : Rectangle)
    (room_requirements room_requirements_dict : list (RoomType * nat))
    (w : World) :
  population_size config = 0%Z -> (1 <= max_iterations config)%Z ->
  optimize config constraints evaluation_function fuel footprint
    room_requirements room_requirements_dict w
  = (Raise IndexError, w).
Proof.
  intros Hsize Hiter.
  destruct config as [iterations size ? ? ? ? ? elite ? ? ? ? ? ? ?].
  cbn in Hsize, Hiter. subst size.
  unfold optimize. cbn [max_iterations].
  destruct (Z.to_nat iterations) as [|n] eqn:Hn; [lia|].
  destruct fuel; reflexivity.
Qed.

Lemma optimize_empty_population_witness :
  optimize (E := demo_runtime)
    (mkMonteCarloConfig 10 0 (3 # 10) (7 # 10) 100 (1 # 100) (995 # 1000)
       (2 # 10) (1 # 1000000) 100 5 50 (5 # 10) 2 (2 # 10))
    LayoutConstraints_init (fun _ => Ok 0) 10 (mkRectangle 0 0 20 15)
    five_rooms five_rooms (demo_world 0)
  = (Raise IndexError, demo_world 0).
Proof.
  apply (optimize_empty_population (E := demo_runtime)
           (mkMonteCarloConfig 10 0 (3 # 10) (7 # 10) 100 (1 # 100)
              (995 # 1000) (2 # 10) (1 # 1000000) 100 5 50 (5 # 10) 2
              (2 # 10))
           LayoutConstraints_init (fun _ => Ok 0) 10 (mkRectangle 0 0 20 15)
           five_rooms five_rooms (demo_world 0)).
  - reflexivity.
  - simpl. lia.
Defined.

(** ** The entries of a detailed evaluation *)

Lemma evaluator_names (c : EvaluatorClass) :
  str_lower (str_remove "Evaluator" 0 (class_name c))
  = match c with
    | SpaceEfficiencyEvaluator => "spaceefficiency"
    | LightingEvaluator => "lighting"
    | VentilationEvaluator => "ventilation"
    | CirculationEvaluator => "circulation"
    | ComfortEvaluator => "comfort"
    end%string.
Proof. destruct c; reflexivity. Qed.

(** X18: when [evaluate_detailed] returns, its dictionary has the keys
    spaceefficiency, lighting, ventilation, circulation, comfort and total,
    in this order; the first five entries hold the score of the evaluator
    of that name, its weight in the configuration and their product, and
    the entry total holds the sum of the five products as score and as
    weighted score, and the sum of the five weights as weight. *)
Theorem evaluate_detailed_entries {E : Runtime} (config : EvaluationConfig)
    (layout : Layout) (results : list (string * DetailEntry)) :
  evaluate_detailed config layout = Ok results ->
  exists s1 s2 s3 s4 s5,
    SpaceEfficiencyEvaluator_evaluate config layout = Ok s1
    /\ LightingEvaluator_evaluate config layout = Ok s2
    /\ VentilationEvaluator_evaluate config layout = Ok s3
    /\ CirculationEvaluator_evaluate config layout = Ok s4
    /\ ComfortEvaluator_evaluate config layout = Ok s5
    /\ results
       = [ ("spaceefficiency",
            mkDetailEntry s1 (space_efficiency_weight config)
              (s1 * space_efficiency_weight config));
           ("lighting",
            mkDetailEntry s2 (lighting_weight config)
              (s2 * lighting_weight config));
           ("ventilation",
            mkDetailEntry s3 (ventilation_weight config)
              (s3 * ventilation_weight config));
           ("circulation",
            mkDetailEntry s4 (circulation_weight config)
              (s4 * circulation_weight config));
           ("comfort",
            mkDetailEntry s5 (comfort_weight config)
              (s5 * comfort_weight config));
           ("total",
            mkDetailEntry
              (0 + s1 * space_efficiency_weight config
               + s2 * lighting_weight config
               + s3 * ventilation_weight config
               + s4 * circulation_weight config
               + s5 * comfort_weight config)
              (Qsum [space_efficiency_weight config; lighting_weight config;
                     ventilation_weight config; circulation_weight config;
                     comfort_weight config])
              (0 + s1 * space_efficiency_weight config
               + s2 * lighting_weight config
               + s3 * ventilation_weight config
               + s4 * circulation_weight config
               + s5 * comfort_weight config)) ]%string.
Proof.
  unfold evaluate_detailed, evaluators. cbn [rfold].
  repeat rewrite evaluator_names.
  unfold Evaluator_evaluate. cbn [evaluator_class weight].
  destruct (SpaceEfficiencyEvaluator_evaluate config layout) as [s1 | |];
    [|discriminate | discriminate].
  cbn [rbind].
  destruct (LightingEvaluator_evaluate config layout) as [s2 | |];
    [|discriminate | discriminate].
  cbn [rbind].
  destruct (VentilationEvaluator_evaluate config layout) as [s3 | |];
    [|discriminate | discriminate].
  cbn [rbind].
  destruct (CirculationEvaluator_evaluate config layout) as [s4 | |];
    [|discriminate | discriminate].
  cbn [rbind].
  destruct (ComfortEvaluator_evaluate config layout) as [s5 | |];
    [|discriminate | discriminate].
  cbn. intro H. injection H as <-.
  exists s1, s2, s3, s4, s5. repeat split.
Qed.

Lemma evaluate_detailed_entries_witness :
  exists results,
    evaluate_detailed (E := demo_runtime) EvaluationConfig_default main_layout
    = Ok results
    /\ map fst results
       = ["spaceefficiency"; "lighting"; "ventilation"; "circulation";
          "comfort"; "total"]%string.
Proof.
  destruct (evaluate_detailed (E := demo_runtime) EvaluationConfig_default
              main_layout) as [results | |] eqn:H;
    [|vm_compute in H; discriminate | vm_compute in H; discriminate].
  exists results. split; [reflexivity|].
  destruct (evaluate_detailed_entries (E := demo_runtime)
              EvaluationConfig_default main_layout results H)
    as (s1 & s2 & s3 & s4 & s5 & _ & _ & _ & _ & _ & ->).
  reflexivity.
Defined.

(** ** The rooms the generator places *)

Lemma pick_shift {A} (a : A) (l : list A) (positions : list nat) :
  pick (a :: l) (map S positions) = pick l positions.
Proof.
  unfold pick. induction positions as [|i positions IH]; [reflexivity|].
  simpl. now rewrite IH.
Qed.

Lemma pick_all {A} (l : list A) : pick l (seq 0 (length l)) = l.
Proof.
  induction l as [|a l IH]; [reflexivity|].
  simpl length. rewrite <- cons_seq, <- seq_shift.
  change (pick (a :: l) (0%nat :: map S (seq 0 (length l))))
    with (a :: pick (a :: l) (map S (seq 0 (length l)))).
  now rewrite pick_shift, IH.
Qed.

Lemma pick_perm {A} (l : list A) (positions : list nat) :
  Permutation positions (seq 0 (length l)) -> Permutation (pick l positions) l.
Proof.
  intro H. rewrite <- (pick_all l) at 2. unfold pick.
  now apply Permutation_flat_map.
Qed.

Lemma filter_length_perm {A} (f : A -> bool) (l l' : list A) :
  Permutation l l' -> length (filter f l) = length (filter f l').
Proof.
  induction 1 as [|a l l' _ IH|a b l|l l' l'' _ IH1 _ IH2]; simpl.
  - reflexivity.
  - destruct (f a); simpl; now rewrite IH.
  - destruct (f a), (f b); reflexivity.
  - now rewrite IH1.
Qed.

Section GeneratedRooms.

Context {E : Runtime}.
Hypothesis runtime_ok : RuntimeOk E.

Lemma returns_and {A} (m : M A) (P Q : A -> Prop) :
  returns m P -> returns m Q -> returns m (fun a => P a /\ Q a).
Proof.
  intros HP HQ w.
  destruct (HP w) as (a & w' & H & Ha).
  destruct (HQ w) as (a' & w'' & H' & Ha').
  rewrite H in H'. injection H' as <- <-. now exists a, w'.
Qed.

Lemma returns_uniform_any (a b : Q) : returns (uniform a b) (fun _ => True).
Proof.
  unfold uniform.
  eapply returns_bind; [apply (returns_random runtime_ok)|].
  intros u _. now apply returns_ret.
Qed.

Lemma returns_Room_init_fields (t : RoomType) (b : Rectangle) (m : Q)
    (o : option Orientation) :
  returns (Room_init t b m o)
          (fun r => room_type r = t /\ bounds r = b /\ min_area r = m
                    /\ orientation r = o /\ bare r).
Proof.
  intro w. unfold Room_init. do 2 eexists. split; [reflexivity|].
  repeat split.
Qed.

Lemma returns_generate_random_size_pos (t : RoomType)
    (template : RoomTemplate) :
  room_templates t = Some template ->
  returns (generate_random_size template) (fun p => 0 < fst p /\ 0 < snd p).
Proof.
  intro Ht. unfold generate_random_size.
  assert (Hranges : 0 < tpl_min_area template
                    /\ tpl_min_area template <= tpl_max_area template
                    /\ 0 < aspect_ratio_min template
                    /\ aspect_ratio_min template <= aspect_ratio_max template).
  { destruct t; injection Ht as <-; simpl; repeat split;
      reflexivity || discriminate. }
  destruct Hranges as (Ha0 & Ha & Hr0 & Hr).
  eapply returns_bind; [apply (returns_uniform runtime_ok _ _ Ha)|].
  intros area Harea.
  eapply returns_bind; [apply (returns_uniform runtime_ok _ _ Hr)|].
  intros ratio Hratio. cbv beta zeta in *.
  assert (Hpos : 0 < pow_half (area * ratio)).
  { apply (pow_half_pos runtime_ok). apply Qmult_lt_0_compat; lra. }
  apply returns_bind
    with (P := fun height => height = area / pow_half (area * ratio)).
  - eapply returns_lift; [|reflexivity].
    apply pydiv_ok. apply Qnot_eq_sym, Qlt_not_eq, Hpos.
  - intros height ->. apply returns_ret. simpl. split; [assumption|].
    apply Qlt_shift_div_l; [assumption|]. lra.
Qed.

Variable config : MonteCarloConfig.
Variable constraints : LayoutConstraints.

Local Abbreviation good_size :=
  (fun p : RoomType * Q * Q => 0 < snd (fst p) /\ 0 < snd p).

Local Abbreviation type_count t :=
  (fun l : list (RoomType * Q * Q) =>
     length (filter (fun p => RoomType_eqb (fst (fst p)) t) l)).

Local Abbreviation made := (fun r : Room => bare r /\ positive_size r).

Lemma sizes_inner_spec (room_type : RoomType) (positions : list nat) :
  forall rooms_to_place : list (RoomType * Q * Q),
    Forall good_size rooms_to_place ->
    returns
      (foldM (fun rooms_to_place (_ : nat) =>
                match room_templates room_type with
                | Some template =>
                    bind (generate_random_size template)
                      (fun x => let '(w, h) := x in
                                ret (rooms_to_place ++ [(room_type, w, h)]))
                | None => ret rooms_to_place
                end)
             positions rooms_to_place)
      (fun r => Forall good_size r
                /\ forall t,
                     type_count t r
                     = (type_count t rooms_to_place
                        + if RoomType_eqb room_type t then length positions
                          else 0)%nat).
Proof.
  induction positions as [|i positions IH]; intros acc Hacc; simpl.
  - apply returns_ret. split; [assumption|].
    intro t. destruct (RoomType_eqb room_type t); lia.
  - destruct (room_templates room_type) as [template|] eqn:Ht;
      [|destruct room_type; discriminate].
    apply returns_bind
      with (P := fun r => Forall good_size r
                          /\ forall t,
                               type_count t r
                               = (type_count t acc
                                  + if RoomType_eqb room_type t then 1
                                    else 0)%nat).
    + eapply returns_bind;
        [apply (returns_generate_random_size_pos room_type), Ht|].
      intros [w h] [Hw Hh]. apply returns_ret. simpl in Hw, Hh. split.
      * apply Forall_app. split; [assumption|]. now repeat constructor.
      * intro t. rewrite filter_app, length_app. simpl.
        destruct (RoomType_eqb room_type t); reflexivity.
    + intros acc' [Hgood Hcount].
      eapply returns_weaken; [apply (IH _ Hgood)|].
      intros r [Hr Hc]. split; [assumption|].
      intro t. rewrite Hc, Hcount. destruct (RoomType_eqb room_type t); lia.
Qed.

Lemma sizes_spec (room_requirements : list (RoomType * nat)) :
  forall rooms_to_place : list (RoomType * Q * Q),
    Forall good_size rooms_to_place ->
    returns
      (foldM (fun rooms_to_place '(room_type, count) =>
                foldM (fun rooms_to_place (_ : nat) =>
                         match room_templates room_type with
                         | Some template =>
                             bind (generate_random_size template)
                               (fun x =>
                                  let '(w, h) := x in
                                  ret (rooms_to_place ++ [(room_type, w, h)]))
                         | None => ret rooms_to_place
                         end)
                      (seq 0 count) rooms_to_place)
             room_requirements rooms_to_place)
      (fun r => Forall good_size r
                /\ forall t,
                     type_count t r
                     = (type_count t rooms_to_place
                        + requested_of t room_requirements)%nat).
Proof.
  induction room_requirements as [|[room_type count] reqs IH];
    intros acc Hacc; simpl.
  - apply returns_ret. split; [assumption|]. intro t. lia.
  - eapply returns_bind; [apply (sizes_inner_spec _ _ _ Hacc)|].
    intros acc' [Hgood Hcount]. cbv beta in *.
    eapply returns_weaken; [apply (IH _ Hgood)|].
    intros r [Hr Hc]. split; [assumption|].
    intro t. rewrite Hc, Hcount, length_seq.
    destruct (RoomType_eqb room_type t); lia.
Qed.

Lemma shuffle_perm_spec {A} (l : list A) :
  returns (shuffle l) (fun r => Permutation r l).
Proof.
  unfold shuffle.
  apply returns_bind
    with (P := fun positions => Permutation positions (seq 0 (length l))).
  - apply returns_with_rng. intro s. apply (shuffle_perm runtime_ok).
  - intros positions Hperm. apply returns_ret. now apply pick_perm.
Qed.

Lemma returns_choose_position (space : Rectangle) (w h : Q) :
  returns (_choose_position_in_space config space w h) (fun _ => True).
Proof.
  unfold _choose_position_in_space. cbv zeta.
  eapply returns_bind; [apply (returns_random runtime_ok)|].
  intros u _.
  eapply returns_bind; [apply (returns_random runtime_ok)|].
  intros v _. now apply returns_ret.
Qed.

Lemma compact_place_room_spec (layout : Layout) (t : RoomType) (w h : Q) :
  0 < w -> 0 < h ->
  returns (_compact_place_room config layout t w h)
          (fun l => layout_bounds l = layout_bounds layout
                    /\ (hallways l = hallways layout
                        /\ fitness_score l = fitness_score layout)
                    /\ (rooms l = rooms layout
                        \/ exists room,
                             rooms l = rooms layout ++ [room]
                             /\ made room
                             /\ room_type room = t)).
Proof.
  intros Hw Hh. unfold _compact_place_room. cbv zeta.
  destruct (find _ _) as [[row col]|].
  - eapply returns_bind; [apply returns_Room_init_fields|].
    intros room (Ht & Hb & _ & _ & Hbare). apply returns_ret.
    repeat split. right. exists room. split; [reflexivity|].
    split; [|assumption]. split; [assumption|].
    unfold positive_size. rewrite Hb. now split.
  - apply returns_ret. repeat split. now left.
Qed.

Local Abbreviation room_count t :=
  (fun l : list Room =>
     length (filter (fun r => RoomType_eqb (room_type r) t) l)).

Lemma place_rooms_loop_spec (rooms_to_place : list (RoomType * Q * Q)) :
  forall (layout : Layout) (available_spaces : list Rectangle),
    Forall good_size rooms_to_place ->
    returns
      (foldM (fun '(layout, available_spaces) '(room_type, w, h) =>
                match first_fit config available_spaces 0 w h with
                | Some (i, space) =>
                    bind (_choose_position_in_space config space w h)
                      (fun p =>
                         let '(x, y) := p in
                         let room_bounds := mkRectangle x y w h in
                         bind (Room_init room_type room_bounds 0 None)
                           (fun room =>
                              let layout := add_room layout room in
                              let remaining_spaces :=
                                _split_space config space room_bounds in
                              ret (layout,
                                   list_pop available_spaces i
                                   ++ remaining_spaces)))
                | None =>
                    bind (_compact_place_room config layout room_type w h)
                      (fun layout => ret (layout, available_spaces))
                end)
             rooms_to_place (layout, available_spaces))
      (fun st => layout_bounds (fst st) = layout_bounds layout
                 /\ (hallways (fst st) = hallways layout
                     /\ fitness_score (fst st) = fitness_score layout)
                 /\ exists new,
                      rooms (fst st) = rooms layout ++ new
                      /\ Forall made new
                      /\ forall t,
                           (room_count t new
                            <= type_count t rooms_to_place)%nat).
Proof.
  induction rooms_to_place as [|[[t w] h] rest IH];
    intros layout spaces Hsizes; simpl.
  - apply returns_ret. simpl. repeat split. exists [].
    rewrite app_nil_r. repeat split; [constructor | intro; simpl; lia].
  - inversion Hsizes as [|? ? [Hw Hh] Hrest]; subst. simpl in Hw, Hh.
    apply returns_bind
      with (P := fun st =>
                   layout_bounds (fst st) = layout_bounds layout
                   /\ (hallways (fst st) = hallways layout
                       /\ fitness_score (fst st) = fitness_score layout)
                   /\ (rooms (fst st) = rooms layout
                       \/ exists room,
                            rooms (fst st) = rooms layout ++ [room]
                            /\ made room
                            /\ room_type room = t)).
    + destruct (first_fit config spaces 0 w h) as [[i space]|].
      * eapply returns_bind; [apply returns_choose_position|].
        intros [x y] _. cbv zeta.
        eapply returns_bind; [apply returns_Room_init_fields|].
        intros room (Ht & Hb & _ & _ & Hbare). apply returns_ret.
        cbn [fst snd]. repeat split.
        right. exists room. split; [reflexivity|].
        split; [|assumption]. split; [assumption|].
        unfold positive_size. rewrite Hb. now split.
      * eapply returns_bind;
          [apply (compact_place_room_spec layout t w h Hw Hh)|].
        intros l (Hl1 & [Hl2 Hl2'] & Hl3). apply returns_ret. cbn [fst snd].
        repeat split; assumption.
    + intros [layout' spaces'] (Hb & Hh' & Hrooms). cbn [fst snd] in *.
      eapply returns_weaken; [apply (IH layout' spaces' Hrest)|].
      intros st (Hb' & Hh'' & new & Hnew & Hmade & Hcount).
      split; [congruence|]. split; [split; destruct Hh', Hh''; congruence|].
      destruct Hrooms as [Hsame | (room & Hroom & Hmade' & Htype)].
      * exists new. rewrite Hnew, Hsame. split; [reflexivity|].
        split; [assumption|]. intro t'. specialize (Hcount t').
        simpl. destruct (RoomType_eqb t t'); simpl; lia.
      * exists (room :: new). rewrite Hnew, Hroom, <- app_assoc.
        split; [reflexivity|]. split; [now constructor|].
        intro t'. specialize (Hcount t'). simpl. rewrite Htype.
        destruct (RoomType_eqb t t'); simpl; lia.
Qed.

Lemma add_hallways_spec (layout : Layout) :
  returns (_add_hallways constraints layout)
          (fun l => rooms l = rooms layout
                    /\ layout_bounds l = layout_bounds layout
                    /\ fitness_score l = fitness_score layout).
Proof.
  unfold _add_hallways.
  destruct (length (rooms layout) <? 2)%nat; [now apply returns_ret|].
  destruct (get_rooms_by_type layout LIVING_ROOM) as [|main_room ?];
    [now apply returns_ret|].
  apply returns_foldM; [|now repeat split].
  intros l' room Hl.
  destruct (negb _); [|now apply returns_ret].
  eapply returns_bind; [apply (returns_random runtime_ok)|].
  intros u _. destruct (Qltb u (3 # 10)); now apply returns_ret.
Qed.

Lemma place_rooms_spec (layout : Layout)
    (rooms_to_place : list (RoomType * Q * Q)) :
  Forall good_size rooms_to_place ->
  returns
    (_place_rooms_rectangular_split config layout rooms_to_place)
    (fun l => layout_bounds l = layout_bounds layout
              /\ (hallways l = hallways layout
                  /\ fitness_score l = fitness_score layout)
              /\ exists new,
                   rooms l = rooms layout ++ new
                   /\ Forall made new
                   /\ forall t,
                        (room_count t new
                         <= type_count t rooms_to_place)%nat).
Proof.
  intro Hsizes. unfold _place_rooms_rectangular_split. cbv zeta.
  eapply returns_bind.
  - apply (place_rooms_loop_spec rooms_to_place layout _ Hsizes).
  - intros [l spaces] H. apply returns_ret. exact H.
Qed.

Lemma generate_random_layout_spec (footprint : Rectangle)
    (room_requirements : list (RoomType * nat)) :
  returns
    (generate_random_layout config constraints footprint room_requirements)
    (fun layout =>
       layout_bounds layout = footprint
       /\ fitness_score layout = 0
       /\ Forall made (rooms layout)
       /\ forall t, (length (get_rooms_by_type layout t)
                     <= requested_of t room_requirements)%nat).
Proof.
  unfold generate_random_layout. cbv zeta.
  eapply returns_bind; [apply sizes_spec; constructor|].
  intros sizes [Hsizes Hcount]. cbv beta in *.
  eapply returns_bind; [apply shuffle_perm_spec|].
  intros shuffled Hperm. cbv beta in Hperm.
  eapply returns_bind.
  - apply place_rooms_spec.
    apply (Permutation_Forall (Permutation_sym Hperm)), Hsizes.
  - intros placed (Hb & [_ Hfit0] & new & Hnew & Hmade & Hnum).
    simpl in Hb, Hnew, Hmade.
    eapply returns_bind; [apply add_hallways_spec|].
    intros l (Hrooms & Hbounds & Hfit). apply returns_ret.
    split; [congruence|]. split.
    { now rewrite Hfit, Hfit0. }
    split; [now rewrite Hrooms, Hnew|].
    intro t. unfold get_rooms_by_type. rewrite Hrooms, Hnew.
    specialize (Hnum t). specialize (Hcount t). simpl in Hcount.
    rewrite (filter_length_perm _ _ _ Hperm) in Hnum. lia.
Qed.

End GeneratedRooms.

(** X19: with a well-behaved runtime, [generate_random_layout] returns a
    layout over the footprint given, without a score, whose rooms all have
    positive width and height and no furniture, door or window; for every
    room type it holds at most as many rooms as the requirements ask for,
    so no room of a type that was not asked for. *)
Theorem generated_rooms_fit_the_request {E : Runtime}
    (config : MonteCarloConfig) (constraints : LayoutConstraints)
    (footprint : Rectangle) (room_requirements : list (RoomType * nat))
    (w : World) :
  RuntimeOk E ->
  exists layout w',
    generate_random_layout config constraints footprint room_requirements w
    = (Ok layout, w')
    /\ layout_bounds layout = footprint
    /\ fitness_score layout = 0
    /\ Forall (fun r => bare r /\ positive_size r) (rooms layout)
    /\ forall t, (length (get_rooms_by_type layout t)
                  <= requested_of t room_requirements)%nat.
Proof.
  intros HE.
  destruct (generate_random_layout_spec HE config constraints
              footprint room_requirements w) as (layout & w' & H & Hl).
  now exists layout, w'.
Qed.

Lemma generated_rooms_fit_the_request_witness :
  exists layout w',
    generate_random_layout (E := demo_runtime) MonteCarloConfig_default
      LayoutConstraints_init (mkRectangle 0 0 20 15) five_rooms (demo_world 1)
    = (Ok layout, w')
    /\ layout_bounds layout = mkRectangle 0 0 20 15
    /\ fitness_score layout = 0
    /\ Forall (fun r => bare r /\ positive_size r) (rooms layout)
    /\ forall t, (length (get_rooms_by_type layout t)
                  <= requested_of t five_rooms)%nat.
Proof.
  apply (generated_rooms_fit_the_request (E := demo_runtime)
           MonteCarloConfig_default LayoutConstraints_init
           (mkRectangle 0 0 20 15) five_rooms (demo_world 1)).
  apply demo_runtime_ok.
Defined.

(** ** Mutation and crossover *)

Lemma length_list_set {A} (l : list A) (i : nat) (v : A) :
  length (list_set l i v) = length l.
Proof.
  revert i. induction l as [|a l IH]; intros [|i]; simpl; auto.
Qed.

Lemma Forall_list_set {A} (P : A -> Prop) (l : list A) (i : nat) (v : A) :
  Forall P l -> P v -> Forall P (list_set l i v).
Proof.
  intros Hl Hv. revert i.
  induction Hl as [|a l Ha Hl IH]; intros [|i]; simpl; auto.
Qed.

Lemma length_remove_room (room : Room) (rs : list Room) :
  In room rs -> S (length (remove_room room rs)) = length rs.
Proof.
  induction rs as [|r rs IH]; simpl; [tauto|].
  destruct (Z.eqb (id r) (id room)) eqn:Hid; [reflexivity|].
  intros [-> | Hin]; [rewrite Z.eqb_refl in Hid; discriminate|].
  simpl. now rewrite IH.
Qed.

Lemma Forall_remove_room (P : Room -> Prop) (room : Room) (rs : list Room) :
  Forall P rs -> Forall P (remove_room room rs).
Proof.
  induction 1 as [|r rs Hr Hrs IH]; simpl; [constructor|].
  destruct (Z.eqb (id r) (id room)); [assumption | now constructor].
Qed.

Lemma copied_rooms (copies originals : list Room) :
  map forget_id copies = map stripped originals ->
  length copies = length originals
  /\ Forall bare copies
  /\ (Forall positive_size originals -> Forall positive_size copies).
Proof.
  revert originals.
  induction copies as [|c copies IH]; intros [|o originals] H;
    try discriminate.
  - repeat split; constructor.
  - simpl in H. injection H as Ht Hb Hm Ho Hf Hd Hw Hrest.
    destruct (IH _ Hrest) as (Hlen & Hbare & Hpos).
    split; [simpl; congruence|]. split.
    + constructor; [now repeat split | assumption].
    + intro Hall. inversion Hall as [|? ? Ho' Hos]; subst.
      constructor; [|now apply Hpos].
      unfold positive_size in *. now rewrite Hb.
Qed.

Section Offspring.

Context {E : Runtime}.
Hypothesis runtime_ok : RuntimeOk E.

Lemma returns_choice_at {A} (l : list A) :
  l <> [] ->
  returns (choice_at l) (fun p => nth_error l (fst p) = Some (snd p)).
Proof.
  intro Hl. unfold choice_at.
  destruct l as [|a l]; [congruence|]. cbn [is_nil].
  apply returns_bind with (P := fun j => (j < length (a :: l))%nat).
  - apply returns_with_rng. intro s.
    apply (randbelow_lt runtime_ok). simpl. lia.
  - intros j Hj. destruct (nth_error (a :: l) j) as [b|] eqn:Hnth.
    + now apply returns_ret.
    + apply nth_error_None in Hnth. lia.
Qed.

Lemma returns_choice {A} (l : list A) :
  l <> [] -> returns (choice l) (fun a => In a l).
Proof.
  intro Hl. unfold choice.
  eapply returns_bind; [apply (returns_choice_at l Hl)|].
  intros [j a] Hj. apply returns_ret. now apply nth_error_In in Hj.
Qed.

Lemma returns_sample_positions (n k : nat) :
  (k <= n)%nat ->
  returns (sample_positions n k)
          (fun positions => length positions = k
                            /\ Forall (fun i => (i < n)%nat) positions).
Proof.
  intro Hk. unfold sample_positions.
  apply Nat.leb_le in Hk as Hk'. rewrite Hk'.
  apply returns_with_rng. intro s.
  destruct (sample_spec runtime_ok s Hk) as (H1 & _ & H2). now split.
Qed.

Lemma In_pick {A} (l : list A) (positions : list nat) (a : A) :
  In a (pick l positions) -> In a l.
Proof.
  unfold pick. intro H. apply in_flat_map in H.
  destruct H as (i & _ & Hi).
  destruct (nth_error l i) as [b|] eqn:Hnth; [|destruct Hi].
  destruct Hi as [<- | []]. now apply nth_error_In in Hnth.
Qed.

Lemma returns_sample {A} (l : list A) (k : nat) :
  (k <= length l)%nat ->
  returns (sample l k)
          (fun r => length r = k /\ Forall (fun a => In a l) r).
Proof.
  intro Hk. unfold sample.
  eapply returns_bind; [apply (returns_sample_positions _ _ Hk)|].
  intros positions [Hlen Hall]. apply returns_ret. split.
  - now rewrite length_pick.
  - apply Forall_forall. intros a Ha. now apply In_pick in Ha.
Qed.

Lemma returns_index {A} (l : list A) (i : nat) :
  (i < length l)%nat ->
  returns (index l i) (fun a => nth_error l i = Some a).
Proof.
  intro Hi. unfold index.
  destruct (nth_error l i) as [a|] eqn:Hnth.
  - now apply returns_ret.
  - apply nth_error_None in Hnth. lia.
Qed.

Lemma returns_Layout_copy (self : Layout) :
  returns (Layout_copy self)
          (fun c => layout_bounds c = layout_bounds self
                    /\ hallways c = hallways self
                    /\ fitness_score c = 0
                    /\ length (rooms c) = length (rooms self)
                    /\ Forall bare (rooms c)
                    /\ (Forall positive_size (rooms self) ->
                        Forall positive_size (rooms c))).
Proof.
  intro w.
  destruct (Layout_copy_returns self w)
    as (c & w' & H & Hb & Hrooms & Hh & Hf & _).
  exists c, w'. split; [assumption|].
  destruct (copied_rooms _ _ Hrooms) as (Hlen & Hbare & Hpos).
  repeat split; assumption.
Qed.

Lemma returns_try_except {A} (m : M A) (P : A -> Prop) :
  returns m P ->
  returns (try_except m) (fun r => exists a, r = Some a /\ P a).
Proof.
  intros H w. destruct (H w) as (a & w' & Hm & Ha).
  unfold try_except. rewrite Hm. exists (Some a), w'.
  split; [reflexivity|]. now exists a.
Qed.

Lemma bare_set_bounds (r : Room) (b : Rectangle) :
  bare r -> bare (set_bounds r b).
Proof. intro H. exact H. Qed.

Lemma mutate_spec (layout : Layout) (footprint : Rectangle)
    (room_requirements : list (RoomType * nat)) :
  room_requirements <> [] \/ (length (rooms layout) < 2)%nat ->
  returns (_mutate layout footprint room_requirements)
          (fun mutated =>
             length (rooms mutated) = length (rooms layout)
             /\ layout_bounds mutated = layout_bounds layout
             /\ hallways mutated = hallways layout
             /\ fitness_score mutated = 0
             /\ Forall bare (rooms mutated)
             /\ (Forall positive_size (rooms layout) ->
                 Forall positive_size (rooms mutated))).
Proof.
  intro Hreq. unfold _mutate.
  eapply returns_bind; [apply returns_Layout_copy|].
  intros mutated (Hb & Hh & Hf & Hlen & Hbare & Hpos).
  eapply returns_bind; [apply returns_choice; discriminate|].
  intros mutation_type _.
  assert (Hsame : length (rooms mutated) = length (rooms layout)
                  /\ layout_bounds mutated = layout_bounds layout
                  /\ hallways mutated = hallways layout
                  /\ fitness_score mutated = 0
                  /\ Forall bare (rooms mutated)
                  /\ (Forall positive_size (rooms layout) ->
                      Forall positive_size (rooms mutated)))
    by (repeat split; assumption).
  destruct mutation_type.
  - destruct (is_nil (rooms mutated)) eqn:Hnil; [now apply returns_ret|].
    eapply returns_bind;
      [apply returns_choice_at; now apply is_nil_false|].
    intros [j room] Hj. cbn [fst snd] in Hj. apply nth_error_In in Hj.
    eapply returns_bind; [apply returns_uniform_any, runtime_ok|].
    intros dx _.
    eapply returns_bind; [apply returns_uniform_any, runtime_ok|].
    intros dy _. cbv zeta.
    destruct (_ && _); [|now apply returns_ret].
    apply returns_ret. cbn [rooms set_rooms layout_bounds hallways
                             fitness_score].
    rewrite length_list_set. repeat split; try assumption.
    + apply Forall_list_set; [assumption|].
      rewrite Forall_forall in Hbare. now apply (Hbare room).
    + intro Hall. specialize (Hpos Hall).
      apply Forall_list_set; [assumption|].
      rewrite Forall_forall in Hpos. apply (Hpos room Hj).
  - destruct (is_nil (rooms mutated)) eqn:Hnil; [now apply returns_ret|].
    eapply returns_bind;
      [apply returns_choice_at; now apply is_nil_false|].
    intros [j room] Hj. cbn [fst snd] in Hj. apply nth_error_In in Hj.
    eapply returns_bind; [apply returns_uniform_any, runtime_ok|].
    intros dw _.
    eapply returns_bind; [apply returns_uniform_any, runtime_ok|].
    intros dh _. cbv zeta.
    destruct (_ && _); [|now apply returns_ret].
    apply returns_ret. cbn [rooms set_rooms layout_bounds hallways
                             fitness_score].
    rewrite length_list_set. repeat split; try assumption.
    + apply Forall_list_set; [assumption|].
      rewrite Forall_forall in Hbare. now apply (Hbare room).
    + intro Hall. specialize (Hpos Hall).
      apply Forall_list_set; [assumption|].
      unfold positive_size, set_bounds. cbn [bounds width height].
      unfold pymax. split.
      * destruct (Qltb 3 _) eqn:H3; [apply Qltb_lt in H3; lra | reflexivity].
      * destruct (Qltb 3 _) eqn:H3; [apply Qltb_lt in H3; lra | reflexivity].
  - destruct (2 <=? length (rooms mutated))%nat eqn:Htwo;
      [|now apply returns_ret].
    apply Nat.leb_le in Htwo.
    eapply returns_bind; [apply (returns_sample_positions _ _ Htwo)|].
    intros positions [Hlen2 Hall].
    destruct positions as [|i [|j [|? ?]]]; try discriminate.
    inversion Hall as [|? ? Hi Hall']; subst.
    inversion Hall' as [|? ? Hj _]; subst.
    eapply returns_bind; [apply (returns_index _ _ Hi)|].
    intros room1 H1. apply nth_error_In in H1.
    eapply returns_bind; [apply (returns_index _ _ Hj)|].
    intros room2 H2. apply nth_error_In in H2.
    apply returns_ret. cbv zeta.
    cbn [rooms set_rooms layout_bounds hallways fitness_score].
    rewrite !length_list_set. repeat split; try assumption.
    + rewrite Forall_forall in Hbare.
      apply Forall_list_set; [apply Forall_list_set|];
        try assumption; try (apply Forall_forall; assumption).
      * now apply (Hbare room1).
      * now apply (Hbare room2).
    + intro Hall0. specialize (Hpos Hall0).
      rewrite Forall_forall in Hpos.
      apply Forall_list_set; [apply Forall_list_set|].
      * now apply Forall_forall.
      * apply (Hpos room2 H2).
      * apply (Hpos room1 H1).
  - destruct (2 <=? length (rooms mutated))%nat eqn:Htwo;
      [|now apply returns_ret].
    apply Nat.leb_le in Htwo.
    assert (Hne : rooms mutated <> [])
      by (destruct (rooms mutated); [simpl in Htwo; lia | discriminate]).
    eapply returns_bind; [apply (returns_choice _ Hne)|].
    intros room_to_remove Hin. cbv zeta.
    assert (Hreqs : map fst room_requirements <> []).
    { destruct Hreq as [Hreq | Hreq]; [|lia].
      destruct room_requirements; [congruence | discriminate]. }
    eapply returns_bind; [apply (returns_choice _ Hreqs)|].
    intros t _.
    destruct (room_templates t) as [template|] eqn:Ht;
      [|destruct t; discriminate].
    eapply returns_bind;
      [apply (returns_generate_random_size_pos runtime_ok t), Ht|].
    intros [w h] [Hw0 Hh0]. cbn [fst snd] in Hw0, Hh0.
    eapply returns_bind; [apply returns_uniform_any, runtime_ok|].
    intros x _.
    eapply returns_bind; [apply returns_uniform_any, runtime_ok|].
    intros y _.
    eapply returns_bind; [apply returns_Room_init_fields|].
    intros new_room (_ & Hnb & _ & _ & Hnbare).
    apply returns_ret.
    cbn [rooms add_room set_rooms layout_bounds hallways fitness_score].
    rewrite length_app. cbn [length].
    pose proof (length_remove_room _ _ Hin) as Hrem.
    repeat split; try assumption.
    + lia.
    + apply Forall_app. split; [now apply Forall_remove_room|].
      constructor; [assumption | constructor].
    + intro Hall. specialize (Hpos Hall).
      apply Forall_app. split; [now apply Forall_remove_room|].
      constructor; [|constructor].
      unfold positive_size. rewrite Hnb. now split.
Qed.

Variable config : MonteCarloConfig.

Lemma crossover_rooms_to_use_spec (parent1_rooms parent2_rooms : list Room)
    (count : nat) :
  returns (crossover_rooms_to_use parent1_rooms parent2_rooms count)
          (Forall (fun r => In r parent1_rooms \/ In r parent2_rooms)).
Proof.
  unfold crossover_rooms_to_use.
  apply returns_foldM; [|constructor].
  intros rooms_to_use i Hall.
  eapply returns_bind; [apply (returns_random runtime_ok)|].
  intros u _.
  destruct (Qltb u (5 # 10) && negb (is_nil parent1_rooms)) eqn:Hfirst.
  - apply andb_true_iff in Hfirst. destruct Hfirst as [_ Hne].
    apply negb_true_iff, is_nil_false in Hne.
    assert (Hlen : (i mod length parent1_rooms < length parent1_rooms)%nat).
    { apply Nat.mod_upper_bound. destruct parent1_rooms; [congruence|].
      discriminate. }
    eapply returns_bind; [apply (returns_index _ _ Hlen)|].
    intros r Hr. apply nth_error_In in Hr. apply returns_ret.
    apply Forall_app. split; [assumption|].
    constructor; [now left | constructor].
  - destruct (negb (is_nil parent2_rooms)) eqn:Hne;
      [|now apply returns_ret].
    apply negb_true_iff, is_nil_false in Hne.
    assert (Hlen : (i mod length parent2_rooms < length parent2_rooms)%nat).
    { apply Nat.mod_upper_bound. destruct parent2_rooms; [congruence|].
      discriminate. }
    eapply returns_bind; [apply (returns_index _ _ Hlen)|].
    intros r Hr. apply nth_error_In in Hr. apply returns_ret.
    apply Forall_app. split; [assumption|].
    constructor; [now right | constructor].
Qed.

Lemma crossover_add_rooms_spec (rooms_to_use : list Room) :
  forall child : Layout,
    returns (crossover_add_rooms child rooms_to_use)
            (fun c => layout_bounds c = layout_bounds child
                      /\ hallways c = hallways child
                      /\ fitness_score c = fitness_score child
                      /\ exists new,
                           rooms c = rooms child ++ new
                           /\ length new = length rooms_to_use
                           /\ Forall bare new
                           /\ (Forall positive_size rooms_to_use ->
                               Forall positive_size new)).
Proof.
  unfold crossover_add_rooms.
  induction rooms_to_use as [|room rest IH]; intro child; simpl.
  - apply returns_ret. repeat split. exists []. rewrite app_nil_r.
    repeat split; constructor.
  - apply returns_bind
      with (P := fun c => layout_bounds c = layout_bounds child
                          /\ hallways c = hallways child
                          /\ fitness_score c = fitness_score child
                          /\ exists r, rooms c = rooms child ++ [r]
                                       /\ bare r /\ bounds r = bounds room).
    + eapply returns_bind; [apply returns_Room_init_fields|].
      intros r (_ & Hb & _ & _ & Hbare). apply returns_ret.
      repeat split. now exists r.
    + intros c (Hb & Hh & Hf & r & Hr & Hbare & Hbounds).
      eapply returns_weaken; [apply IH|].
      intros c' (Hb' & Hh' & Hf' & new & Hnew & Hlen & Hbare' & Hpos).
      split; [congruence|]. split; [congruence|]. split; [congruence|].
      exists (r :: new). rewrite Hnew, Hr, <- app_assoc.
      split; [reflexivity|]. split; [simpl; congruence|].
      split; [now constructor|].
      intro Hall. inversion Hall as [|? ? Hroom Hrest]; subst.
      constructor; [|now apply Hpos].
      unfold positive_size in *. now rewrite Hbounds.
Qed.

Lemma crossover_loop_spec (parent1 parent2 : Layout)
    (room_requirements : list (RoomType * nat)) :
  forall child : Layout,
    returns
      (foldM (fun child '(room_type, count) =>
                bind (crossover_rooms_to_use
                        (get_rooms_by_type parent1 room_type)
                        (get_rooms_by_type parent2 room_type) count)
                     (fun rooms_to_use =>
                        crossover_add_rooms child
                          (firstn count rooms_to_use)))
             room_requirements child)
      (fun c => layout_bounds c = layout_bounds child
                /\ hallways c = hallways child
                /\ fitness_score c = fitness_score child
                /\ exists new,
                     rooms c = rooms child ++ new
                     /\ (length new <= requested_rooms room_requirements)%nat
                     /\ Forall bare new
                     /\ (Forall positive_size (rooms parent1) ->
                         Forall positive_size (rooms parent2) ->
                         Forall positive_size new)).
Proof.
  induction room_requirements as [|[t count] reqs IH]; intro child; simpl.
  - apply returns_ret. repeat split. exists []. rewrite app_nil_r.
    repeat split; constructor.
  - apply returns_bind
      with (P := fun c => layout_bounds c = layout_bounds child
                          /\ hallways c = hallways child
                          /\ fitness_score c = fitness_score child
                          /\ exists new,
                               rooms c = rooms child ++ new
                               /\ (length new <= count)%nat
                               /\ Forall bare new
                               /\ (Forall positive_size (rooms parent1) ->
                                   Forall positive_size (rooms parent2) ->
                                   Forall positive_size new)).
    + eapply returns_bind; [apply crossover_rooms_to_use_spec|].
      intros rooms_to_use Hfrom.
      eapply returns_weaken; [apply crossover_add_rooms_spec|].
      intros c (Hb & Hh & Hf & new & Hnew & Hlen & Hbare & Hpos).
      repeat split; try assumption. exists new.
      split; [assumption|]. split.
      { rewrite Hlen. apply firstn_le_length. }
      split; [assumption|].
      intros H1 H2. apply Hpos. apply Forall_forall. intros r Hr.
      apply In_firstn_of in Hr. rewrite Forall_forall in Hfrom.
      rewrite Forall_forall in H1. rewrite Forall_forall in H2.
      unfold get_rooms_by_type in Hfrom.
      destruct (Hfrom r Hr) as [Hin | Hin]; apply filter_In in Hin;
        [apply H1 | apply H2]; tauto.
    + intros c (Hb & Hh & Hf & new & Hnew & Hlen & Hbare & Hpos).
      eapply returns_weaken; [apply IH|].
      intros c' (Hb' & Hh' & Hf' & new' & Hnew' & Hlen' & Hbare' & Hpos').
      split; [congruence|]. split; [congruence|]. split; [congruence|].
      exists (new ++ new'). rewrite Hnew', Hnew, <- app_assoc.
      split; [reflexivity|]. split; [rewrite length_app; lia|].
      split; [apply Forall_app; now split|].
      intros H1 H2. apply Forall_app. split; [now apply Hpos | now apply Hpos'].
Qed.

Lemma crossover_spec (parent1 parent2 : Layout) (footprint : Rectangle)
    (room_requirements : list (RoomType * nat)) :
  returns
    (_crossover config parent1 parent2 footprint room_requirements)
    (fun r => exists child,
                r = Some child
                /\ layout_bounds child = footprint
                /\ hallways child = []
                /\ fitness_score child = 0
                /\ (length (rooms child)
                    <= requested_rooms room_requirements)%nat
                /\ Forall bare (rooms child)
                /\ (Forall positive_size (rooms parent1) ->
                    Forall positive_size (rooms parent2) ->
                    Forall positive_size (rooms child))).
Proof.
  unfold _crossover. apply returns_try_except. cbv zeta.
  eapply returns_bind; [apply crossover_loop_spec|].
  intros child (Hb & Hh & Hf & new & Hnew & Hlen & Hbare & Hpos).
  simpl in Hb, Hh, Hf, Hnew. subst new.
  eapply returns_bind; [apply (returns_random runtime_ok)|].
  intros u _.
  destruct (Qltb u (mutation_rate config)).
  - eapply returns_weaken.
    + apply mutate_spec.
      destruct room_requirements as [|req reqs]; [|left; discriminate].
      right. simpl in Hlen. lia.
    + intros mutated (Hl' & Hb' & Hh' & Hf' & Hbare' & Hpos').
      repeat split; try congruence; try assumption.
      intros H1 H2. apply Hpos'. now apply Hpos.
  - apply returns_ret. repeat split; assumption.
Qed.

Lemma well_made_of (footprint : Rectangle) (l : Layout) :
  layout_bounds l = footprint -> Forall bare (rooms l) ->
  Forall positive_size (rooms l) -> well_made footprint l.
Proof.
  intros Hb Hbare Hpos. split; [assumption|].
  rewrite Forall_forall in *. intros r Hr. split; auto.
Qed.

Lemma well_made_positive (footprint : Rectangle) (l : Layout) :
  well_made footprint l -> Forall positive_size (rooms l).
Proof.
  intros [_ H]. eapply Forall_impl; [|exact H]. now intros r [_ Hr].
Qed.

Lemma generate_offspring_loop_spec (parents : list Layout)
    (footprint : Rectangle) (room_requirements : list (RoomType * nat)) :
  parents <> [] -> room_requirements <> [] ->
  Forall (well_made footprint) parents ->
  forall (fuel : nat) (offspring : list Layout),
    (Z.to_nat (population_size config) <= length offspring + fuel)%nat ->
    Forall (fun c => well_made footprint c /\ fitness_score c = 0)
           offspring ->
    returns
      (generate_offspring_loop config fuel parents footprint
         room_requirements offspring)
      (fun r => length r
                = Nat.max (length offspring)
                          (Z.to_nat (population_size config))
                /\ Forall (fun c => well_made footprint c
                                    /\ fitness_score c = 0) r).
Proof.
  intros Hparents Hreqs Hgood.
  induction fuel as [|fuel IH]; intros offspring Hfuel Hoff.
  - cbn [generate_offspring_loop].
    destruct (Z.of_nat (length offspring) <? population_size config)%Z
      eqn:Hmore; [apply Z.ltb_lt in Hmore; lia|].
    apply Z.ltb_ge in Hmore. apply returns_ret. split; [lia | assumption].
  - cbn [generate_offspring_loop].
    destruct (Z.of_nat (length offspring) <? population_size config)%Z
      eqn:Hmore.
    2:{ apply Z.ltb_ge in Hmore. apply returns_ret.
        split; [lia | assumption]. }
    apply Z.ltb_lt in Hmore.
    assert (Hmutation :
              returns
                (bind (choice parents)
                   (fun parent =>
                      bind (_mutate parent footprint room_requirements)
                        (fun child => ret (Some child))))
                (fun r => exists child,
                            r = Some child /\ well_made footprint child
                            /\ fitness_score child = 0)).
    { eapply returns_bind; [apply (returns_choice _ Hparents)|].
      intros parent Hin. rewrite Forall_forall in Hgood.
      specialize (Hgood parent Hin).
      eapply returns_bind; [apply mutate_spec; now left|].
      intros child (_ & Hb & _ & Hf & Hbare & Hpos). apply returns_ret.
      exists child. split; [reflexivity|]. split; [|assumption].
      apply well_made_of; [destruct Hgood; congruence | assumption|].
      apply Hpos. now apply (well_made_positive footprint). }
    apply returns_bind
      with (P := fun r => exists child,
                            r = Some child /\ well_made footprint child
                            /\ fitness_score child = 0).
    + destruct (2 <=? length parents)%nat eqn:Htwo; [|exact Hmutation].
      apply Nat.leb_le in Htwo.
      eapply returns_bind; [apply (returns_random runtime_ok)|].
      intros u _.
      destruct (Qltb u (crossover_rate config)); [|exact Hmutation].
      eapply returns_bind; [apply (returns_sample _ _ Htwo)|].
      intros ps [Hlen Hall].
      destruct ps as [|parent1 [|parent2 [|? ?]]]; try discriminate.
      inversion Hall as [|? ? H1 Hall']; subst.
      inversion Hall' as [|? ? H2 _]; subst.
      rewrite Forall_forall in Hgood.
      pose proof (Hgood _ H1) as Hg1. pose proof (Hgood _ H2) as Hg2.
      eapply returns_weaken; [apply crossover_spec|].
      intros r (child & -> & Hb & _ & Hf & _ & Hbare & Hpos).
      exists child. split; [reflexivity|]. split; [|assumption].
      apply well_made_of; [assumption | assumption|].
      apply Hpos; now apply (well_made_positive footprint).
    + intros r (child & -> & Hchild & Hfit).
      eapply returns_weaken.
      * apply IH.
        -- rewrite length_app. simpl. lia.
        -- apply Forall_app. split; [assumption|].
           constructor; [now split | constructor].
      * intros r [Hlen Hall]. split; [|assumption].
        rewrite Hlen, length_app. simpl. lia.
Qed.

Lemma generate_offspring_spec (fuel : nat) (parents : list Layout)
    (footprint : Rectangle) (room_requirements : list (RoomType * nat)) :
  parents <> [] -> room_requirements <> [] ->
  Forall (well_made footprint) parents ->
  (Z.to_nat (population_size config) <= fuel)%nat ->
  returns
    (_generate_offspring config fuel parents footprint room_requirements)
    (fun r => length r = Z.to_nat (population_size config)
              /\ Forall (fun c => well_made footprint c
                                  /\ fitness_score c = 0) r).
Proof.
  intros Hparents Hreqs Hgood Hfuel. unfold _generate_offspring.
  eapply returns_bind.
  - apply (generate_offspring_loop_spec parents footprint room_requirements
             Hparents Hreqs Hgood fuel []); [simpl; lia | constructor].
  - intros offspring [Hlen Hall]. apply returns_ret. simpl in Hlen.
    unfold slice_to.
    destruct (0 <=? population_size config)%Z eqn:Hsign.
    + split.
      * rewrite length_firstn, Hlen. lia.
      * apply Forall_forall. intros c Hc. apply In_firstn_of in Hc.
        rewrite Forall_forall in Hall. now apply Hall.
    + apply Z.leb_gt in Hsign. split.
      * rewrite length_firstn, Hlen. lia.
      * apply Forall_forall. intros c Hc. apply In_firstn_of in Hc.
        rewrite Forall_forall in Hall. now apply Hall.
Qed.

End Offspring.

(** X20: with a well-behaved runtime, [_mutate] returns a layout with as
    many rooms as the layout given, the same footprint and hallways and no
    score, whose rooms have no furniture, door or window, and positive
    sizes when those of the layout given are positive.  It needs a
    requirement to draw a room type from as soon as the layout has two
    rooms. *)
Theorem mutate_keeps_the_room_count {E : Runtime} (layout : Layout)
    (footprint : Rectangle) (room_requirements : list (RoomType * nat))
    (w : World) :
  RuntimeOk E ->
  room_requirements <> [] \/ (length (rooms layout) < 2)%nat ->
  exists mutated w',
    _mutate layout footprint room_requirements w = (Ok mutated, w')
    /\ length (rooms mutated) = length (rooms layout)
    /\ layout_bounds mutated = layout_bounds layout
    /\ hallways mutated = hallways layout
    /\ fitness_score mutated = 0
    /\ Forall bare (rooms mutated)
    /\ (Forall positive_size (rooms layout) ->
        Forall positive_size (rooms mutated)).
Proof.
  intros HE Hreq.
  destruct (mutate_spec HE layout footprint room_requirements Hreq w)
    as (mutated & w' & H & Hm).
  now exists mutated, w'.
Qed.

Lemma mutate_keeps_the_room_count_witness :
  exists mutated w',
    _mutate (E := demo_runtime) main_layout (mkRectangle 0 0 20 15)
      five_rooms (demo_world 3)
    = (Ok mutated, w')
    /\ length (rooms mutated) = length (rooms main_layout)
    /\ layout_bounds mutated = layout_bounds main_layout
    /\ hallways mutated = hallways main_layout
    /\ fitness_score mutated = 0
    /\ Forall bare (rooms mutated)
    /\ (Forall positive_size (rooms main_layout) ->
        Forall positive_size (rooms mutated)).
Proof.
  apply (mutate_keeps_the_room_count (E := demo_runtime) main_layout
           (mkRectangle 0 0 20 15) five_rooms (demo_world 3)).
  - apply demo_runtime_ok.
  - left. discriminate.
Defined.

(** X21: with a well-behaved runtime, [_crossover] always returns a child,
    never [None]: nothing in its body raises.  The child lies over the
    footprint given, has no hallway and no score, at most as many rooms as
    the requirements ask for in total, all without furniture, door or
    window, and of positive size when the rooms of both parents are. *)
Theorem crossover_always_gives_a_child {E : Runtime}
    (config : MonteCarloConfig) (parent1 parent2 : Layout)
    (footprint : Rectangle) (room_requirements : list (RoomType * nat))
    (w : World) :
  RuntimeOk E ->
  exists child w',
    _crossover config parent1 parent2 footprint room_requirements w
    = (Ok (Some child), w')
    /\ layout_bounds child = footprint
    /\ hallways child = []
    /\ fitness_score child = 0
    /\ (length (rooms child) <= requested_rooms room_requirements)%nat
    /\ Forall bare (rooms child)
    /\ (Forall positive_size (rooms parent1) ->
        Forall positive_size (rooms parent2) ->
        Forall positive_size (rooms child)).
Proof.
  intro HE.
  destruct (crossover_spec HE config parent1 parent2 footprint
              room_requirements w) as (r & w' & H & child & -> & Hc).
  now exists child, w'.
Qed.

Lemma crossover_always_gives_a_child_witness :
  exists child w',
    _crossover (E := demo_runtime) MonteCarloConfig_default main_layout
      windowless_layout (mkRectangle 0 0 20 15) five_rooms (demo_world 0)
    = (Ok (Some child), w')
    /\ layout_bounds child = mkRectangle 0 0 20 15
    /\ hallways child = []
    /\ fitness_score child = 0
    /\ (length (rooms child) <= requested_rooms five_rooms)%nat
    /\ Forall bare (rooms child)
    /\ (Forall positive_size (rooms main_layout) ->
        Forall positive_size (rooms windowless_layout) ->
        Forall positive_size (rooms child)).
Proof.
  apply (crossover_always_gives_a_child (E := demo_runtime)
           MonteCarloConfig_default main_layout windowless_layout
           (mkRectangle 0 0 20 15) five_rooms (demo_world 0)).
  apply demo_runtime_ok.
Defined.



(** ** A whole run of the optimizer *)

Lemma py_int_nonneg (x : Q) : 0 <= x -> (0 <= py_int x)%Z.
Proof.
  destruct x as [a b]. unfold Qle, py_int. simpl. intro H.
  apply Z.quot_pos; lia.
Qed.

Lemma py_int_le (x : Q) : 0 <= x -> inject_Z (py_int x) <= x.
Proof.
  destruct x as [a b]. unfold Qle, py_int. simpl. intro H.
  rewrite Z.quot_div_nonneg by lia.
  pose proof (Z.mul_div_le a (Zpos b)). lia.
Qed.

Lemma py_int_gt (x : Q) : 0 <= x -> x < inject_Z (py_int x + 1).
Proof.
  destruct x as [a b]. unfold Qle, Qlt, py_int. simpl. intro H.
  rewrite Z.quot_div_nonneg by lia.
  pose proof (Z.mul_succ_div_gt a (Zpos b)). lia.
Qed.

Lemma elite_count_le (size : Z) (ratio : Q) :
  (0 <= size)%Z -> 0 <= ratio -> ratio <= 1 ->
  (Z.to_nat (py_int (inject_Z size * ratio)) <= Z.to_nat size)%nat.
Proof.
  intros Hsize H0 H1.
  assert (Hs : 0 <= inject_Z size)
    by (change 0 with (inject_Z 0); now rewrite <- Zle_Qle).
  assert (Hx : 0 <= inject_Z size * ratio)
    by (apply Qmult_le_0_compat; assumption).
  assert (Hy : 0 <= inject_Z size * (1 - ratio))
    by (apply Qmult_le_0_compat; lra).
  pose proof (py_int_le _ Hx) as Hle.
  assert (Hz : inject_Z (py_int (inject_Z size * ratio)) <= inject_Z size)
    by lra.
  rewrite <- Zle_Qle in Hz. lia.
Qed.

Lemma parents_count_ge (size : Z) (ratio : Q) :
  (3 <= size)%Z -> 0 <= ratio -> ratio <= 1 ->
  (1 <= Z.to_nat (py_int (inject_Z size * (1 - ratio)))
        + Z.to_nat (py_int (inject_Z size * ratio)))%nat.
Proof.
  intros Hsize H0 H1.
  assert (Hs : 3 <= inject_Z size)
    by (change 3 with (inject_Z 3); now rewrite <- Zle_Qle).
  assert (Hx : 0 <= inject_Z size * ratio)
    by (apply Qmult_le_0_compat; lra).
  assert (Hy : 0 <= inject_Z size * (1 - ratio))
    by (apply Qmult_le_0_compat; lra).
  pose proof (py_int_gt _ Hx) as Hgx. pose proof (py_int_gt _ Hy) as Hgy.
  pose proof (py_int_nonneg _ Hx) as Hnx.
  pose proof (py_int_nonneg _ Hy) as Hny.
  rewrite inject_Z_plus in Hgx, Hgy.
  assert (Hsum : inject_Z 1
                 < inject_Z (py_int (inject_Z size * (1 - ratio))
                             + py_int (inject_Z size * ratio))).
  { rewrite inject_Z_plus. change (inject_Z 1) with 1 in *. lra. }
  rewrite <- Zlt_Qlt in Hsum. lia.
Qed.

Section WholeRun.

Context {E : Runtime}.

Lemma total_ret {A} (P : Optimizer -> Prop) (a : A)
    (Q : A -> Optimizer -> Prop) :
  (forall o, P o -> Q a o) -> total P (ret a) Q.
Proof. intros H w Hw. exists a, w. split; [reflexivity | now apply H]. Qed.

Lemma total_bind {A B} (P : Optimizer -> Prop) (m : M A) (k : A -> M B)
    (Q : A -> Optimizer -> Prop) (R : B -> Optimizer -> Prop) :
  total P m Q -> (forall a, total (Q a) (k a) R) -> total P (bind m k) R.
Proof.
  intros Hm Hk w Hw. destruct (Hm w Hw) as (a & w1 & H1 & Ha).
  destruct (Hk a w1 Ha) as (b & w2 & H2 & Hb).
  exists b, w2. unfold bind. rewrite H1. now split.
Qed.

Lemma total_weaken {A} (P : Optimizer -> Prop) (m : M A)
    (Q Q' : A -> Optimizer -> Prop) :
  total P m Q -> (forall a o, Q a o -> Q' a o) -> total P m Q'.
Proof.
  intros Hm HQ w Hw. destruct (Hm w Hw) as (a & w' & H & Ha).
  exists a, w'. split; [assumption | now apply HQ].
Qed.

Lemma total_of_returns {A} (P : Optimizer -> Prop) (m : M A)
    (Q : A -> Prop) :
  returns m Q -> keeps w_opt m -> total P m (fun a o => Q a /\ P o).
Proof.
  intros Hm Hk w Hw. destruct (Hm w) as (a & w' & H & Ha).
  exists a, w'. split; [assumption|]. split; [assumption|].
  specialize (Hk w). rewrite H in Hk. simpl in Hk. now rewrite Hk.
Qed.

Lemma total_bind_returns {A B} (P : Optimizer -> Prop) (m : M A)
    (k : A -> M B) (Q : A -> Prop) (R : B -> Optimizer -> Prop) :
  returns m Q -> keeps w_opt m -> (forall a, Q a -> total P (k a) R) ->
  total P (bind m k) R.
Proof.
  intros Hm Hkeeps Hk.
  apply total_bind with (Q := fun a o => Q a /\ P o).
  - now apply total_of_returns.
  - intros a w [Ha Hw]. now apply Hk.
Qed.

Lemma total_assume {A} (H : Prop) (P : Optimizer -> Prop) (m : M A)
    (Q : A -> Optimizer -> Prop) :
  (H -> total P m Q) -> total (fun o => P o /\ H) m Q.
Proof. intros Hm w [Hw HH]. now apply Hm. Qed.

Lemma returns_foldM_append {A B} (f : list B -> A -> M (list B))
    (P : B -> Prop) (l : list A) :
  (forall acc a, In a l -> Forall P acc ->
                 returns (f acc a) (fun r => exists b, r = acc ++ [b] /\ P b)) ->
  forall acc, Forall P acc ->
              returns (foldM f l acc)
                      (fun r => length r = (length acc + length l)%nat
                                /\ Forall P r).
Proof.
  induction l as [|a l IH]; intros Hf acc Hacc; simpl.
  - apply returns_ret. split; [lia | assumption].
  - eapply returns_bind; [apply (Hf acc a); [now left | assumption]|].
    intros r (b & -> & Hb). eapply returns_weaken.
    + apply IH.
      * intros acc' a' Hin. apply Hf. now right.
      * apply Forall_app. split; [assumption|].
        constructor; [assumption | constructor].
    + intros r [Hlen Hall]. split; [|assumption].
      rewrite Hlen, length_app. simpl. lia.
Qed.

Hypothesis runtime_ok : RuntimeOk E.
Variable config : MonteCarloConfig.
Variable constraints : LayoutConstraints.
Variable evaluation_function : Layout -> result Q.
Variable footprint : Rectangle.
Variable room_requirements_dict : list (RoomType * nat).

Hypothesis population_size_ok : (3 <= population_size config)%Z.
Hypothesis elite_ratio_ok :
  0 <= elite_ratio config /\ elite_ratio config <= 1.
Hypothesis requirements_ok : room_requirements_dict <> [].
Hypothesis evaluation_ok :
  forall l, well_made footprint l -> defined (evaluation_function l).

Local Abbreviation size := (Z.to_nat (population_size config)).

Local Abbreviation scored_well :=
  (fun p : Layout * Q => well_made footprint (fst p)).

Lemma copy_well_made (l : Layout) :
  well_made footprint l -> returns (Layout_copy l) (well_made footprint).
Proof.
  intros Hl. eapply returns_weaken; [apply returns_Layout_copy|].
  intros c (Hb & _ & _ & _ & Hbare & Hpos).
  apply well_made_of; [destruct Hl; congruence | assumption|].
  apply Hpos. now apply (well_made_positive footprint).
Qed.

Lemma initialize_population_spec :
  returns
    (_initialize_population config constraints footprint
       room_requirements_dict)
    (fun population => length population = size
                       /\ Forall (well_made footprint) population).
Proof.
  unfold _initialize_population.
  eapply returns_weaken.
  - apply (returns_foldM_append _ (well_made footprint)); [|constructor].
    intros acc i _ _.
    eapply returns_bind;
      [apply (generate_random_layout_spec runtime_ok config constraints
                footprint room_requirements_dict)|].
    intros layout (Hb & _ & Hmade & _). apply returns_ret.
    exists layout. split; [reflexivity|]. now split.
  - intros population [Hlen Hall]. split; [|assumption].
    rewrite Hlen. unfold py_range. rewrite length_seq. reflexivity.
Qed.

Lemma evaluate_all_spec (layouts : list Layout) :
  Forall (well_made footprint) layouts ->
  returns (evaluate_all evaluation_function layouts)
          (fun evaluated => length evaluated = length layouts
                            /\ Forall scored_well evaluated).
Proof.
  intro Hall. unfold evaluate_all.
  eapply returns_weaken.
  - apply (returns_foldM_append _ scored_well); [|constructor].
    intros acc layout Hin _. rewrite Forall_forall in Hall.
    specialize (Hall layout Hin).
    destruct (evaluation_ok layout Hall) as [score Hscore].
    eapply returns_bind;
      [apply (returns_lift _ score (fun s => s = score) Hscore eq_refl)|].
    intros s ->. apply returns_ret. eexists. split; [reflexivity|].
    exact Hall.
  - intros evaluated [Hlen Hev]. split; [|assumption]. now rewrite Hlen.
Qed.

Lemma select_parents_spec (evaluated_population : list (Layout * Q)) :
  length evaluated_population = size ->
  Forall scored_well evaluated_population ->
  returns (_select_parents config evaluated_population)
          (fun parents => parents <> []
                          /\ Forall (well_made footprint) parents).
Proof.
  intros Hlen Hall. unfold _select_parents, select_parents_with_counts.
  cbv zeta.
  pose proof (parents_count_ge (population_size config) (elite_ratio config)
                population_size_ok (proj1 elite_ratio_ok)
                (proj2 elite_ratio_ok)) as Hcount.
  assert (Hsign : (0 <= population_size config)%Z) by lia.
  pose proof (elite_count_le (population_size config) (elite_ratio config)
                Hsign (proj1 elite_ratio_ok) (proj2 elite_ratio_ok))
    as Helite.
  assert (Hthree : (3 <= length evaluated_population)%nat) by lia.
  rewrite Forall_forall in Hall.
  eapply returns_bind.
  - apply (returns_foldM_append _ (well_made footprint)); [|constructor].
    intros acc i _ _.
    eapply returns_bind; [apply (returns_sample runtime_ok _ _ Hthree)|].
    intros tournament [Htlen Hfrom].
    destruct tournament as [|first rest] eqn:Ht; [discriminate|].
    rewrite <- Ht in *.
    assert (Hmax : exists winner, max_by_score tournament = Ok winner)
      by (rewrite Ht; simpl; eauto).
    destruct Hmax as [winner Hmax].
    eapply returns_bind;
      [apply (returns_lift _ winner (fun x => x = winner) Hmax eq_refl)|].
    intros x ->. apply max_by_score_is_max in Hmax.
    destruct Hmax as [Hin _]. rewrite Forall_forall in Hfrom.
    eapply returns_bind; [apply copy_well_made, Hall, Hfrom, Hin|].
    intros c Hc. apply returns_ret. now exists c.
  - intros selected [Hsel Hgood]. cbv beta in *.
    eapply returns_weaken.
    + apply (returns_foldM_append _ (well_made footprint)); [|exact Hgood].
      intros acc i Hi _. unfold py_range in Hi. apply in_seq in Hi.
      assert (Hlt : (i < length evaluated_population)%nat) by lia.
      eapply returns_bind; [apply (returns_index _ _ Hlt)|].
      intros e He. apply nth_error_In in He.
      eapply returns_bind; [apply copy_well_made, Hall, He|].
      intros c Hc. apply returns_ret. now exists c.
    + intros parents [Hplen Hparents]. split; [|assumption].
      unfold py_range in Hplen, Hsel. rewrite length_seq in Hplen, Hsel.
      simpl in Hsel. destruct parents; [simpl in Hplen; lia | discriminate].
Qed.

Lemma environmental_selection_spec
    (evaluated_population evaluated_offspring : list (Layout * Q)) :
  length evaluated_population = size ->
  Forall scored_well evaluated_population ->
  Forall scored_well evaluated_offspring ->
  length (_environmental_selection config
            (evaluated_population ++ evaluated_offspring)) = size
  /\ Forall scored_well
            (_environmental_selection config
               (evaluated_population ++ evaluated_offspring)).
Proof.
  intros Hlen Hpop Hoff. unfold _environmental_selection, slice_to.
  assert (Hsign : (0 <=? population_size config)%Z = true)
    by (apply Z.leb_le; lia).
  rewrite Hsign. split.
  - rewrite length_firstn,
      (Permutation_length (sort_desc_perm _)), length_app. lia.
  - apply Forall_forall. intros p Hp. apply In_firstn_of in Hp.
    apply (Permutation_in _ (sort_desc_perm _)) in Hp.
    apply in_app_or in Hp. rewrite Forall_forall in Hpop, Hoff.
    destruct Hp; auto.
Qed.

(** The optimizer holds a best layout, over the footprint and with rooms of
    positive size without openings. *)
Local Abbreviation has_best :=
  (fun o : Optimizer =>
     exists best, best_layout o = Some best /\ well_made footprint best).

Lemma update_best_total (current_best : Layout * Q) :
  scored_well current_best ->
  total has_best (update_best current_best) (fun _ => has_best).
Proof.
  intros Hgood w Hw. unfold update_best, bind at 1, get_opt.
  destruct (ext_ltb _ _).
  - destruct (copy_well_made _ Hgood w) as (c & w' & Hc & Hwm).
    unfold bind. rewrite Hc. do 2 eexists. split; [reflexivity|].
    simpl. now exists c.
  - do 2 eexists. split; [reflexivity|]. exact Hw.
Qed.

Lemma record_history_total :
  total has_best record_history (fun _ => has_best).
Proof.
  intros w Hw. unfold record_history, bind, get_opt, put_opt.
  do 2 eexists. split; [reflexivity|]. exact Hw.
Qed.

Lemma count_generation_total :
  total has_best count_generation (fun _ => has_best).
Proof.
  intros w Hw. unfold count_generation, bind, get_opt, put_opt.
  do 2 eexists. split; [reflexivity|]. exact Hw.
Qed.

Lemma check_convergence_total :
  total has_best (_check_convergence config) (fun _ => has_best).
Proof.
  intros w Hw. unfold _check_convergence, bind, get_opt.
  destruct (_ <=? _)%Z; [now do 2 eexists|].
  destruct (_ <=? _)%nat; [|now do 2 eexists].
  destruct (np_var _) as [variance|]; [|now do 2 eexists].
  destruct (Qltb _ _); now do 2 eexists.
Qed.

Lemma optimize_iteration_total (fuel : nat)
    (evaluated_population : list (Layout * Q)) (temperature : Q) :
  (size <= fuel)%nat ->
  length evaluated_population = size ->
  Forall scored_well evaluated_population ->
  total has_best
    (optimize_iteration config evaluation_function fuel footprint
       room_requirements_dict evaluated_population temperature)
    (fun r o => has_best o
                /\ length (snd (fst r)) = size
                /\ Forall scored_well (snd (fst r))).
Proof.
  intros Hfuel Hlen Hall. unfold optimize_iteration.
  eapply total_bind_returns;
    [apply (select_parents_spec _ Hlen Hall)
    | apply keeps_opt_select_parents|].
  intros parents [Hne Hparents].
  eapply total_bind_returns;
    [apply (generate_offspring_spec runtime_ok config fuel parents footprint
              room_requirements_dict Hne requirements_ok Hparents Hfuel)
    | apply keeps_opt_generate_offspring|].
  intros offspring [Holen Hoff].
  assert (Hoff' : Forall (well_made footprint) offspring)
    by (eapply Forall_impl; [|exact Hoff]; now intros c [Hc _]).
  eapply total_bind_returns;
    [apply (evaluate_all_spec _ Hoff') | apply keeps_opt_evaluate_all|].
  intros evaluated_offspring [Helen Heval]. cbv zeta.
  destruct (environmental_selection_spec _ _ Hlen Hall Heval)
    as [Hslen Hsel].
  set (selected := _environmental_selection config
                     (evaluated_population ++ evaluated_offspring)) in *.
  assert (Hpos : (0 < length selected)%nat) by lia.
  eapply total_bind_returns;
    [apply (returns_index _ _ Hpos) | apply keeps_opt_index|].
  intros current_best Hbest.
  apply nth_error_In in Hbest.
  assert (Hgood : scored_well current_best)
    by (rewrite Forall_forall in Hsel; now apply Hsel).
  eapply total_bind; [apply (update_best_total _ Hgood)|]. intros ?.
  eapply total_bind; [apply record_history_total|]. intros ?.
  eapply total_bind; [apply check_convergence_total|]. intros converged.
  apply total_ret. intros o Ho. cbn [fst snd]. repeat split; assumption.
Qed.

Lemma optimize_loop_total (fuel : nat) (iterations : nat) :
  (size <= fuel)%nat ->
  forall (evaluated_population : list (Layout * Q)) (temperature : Q),
    length evaluated_population = size ->
    Forall scored_well evaluated_population ->
    total has_best
      (optimize_loop config evaluation_function fuel iterations footprint
         room_requirements_dict evaluated_population temperature)
      (fun _ => has_best).
Proof.
  intro Hfuel.
  induction iterations as [|iterations IH];
    intros evaluated_population temperature Hlen Hall; simpl.
  - now apply total_ret.
  - eapply total_bind;
      [apply (optimize_iteration_total fuel _ temperature Hfuel Hlen Hall)|].
    intros [[go_on population] temperature']. cbn [fst snd].
    apply total_assume. intros [Hlen' Hall'].
    destruct go_on; [|now apply total_ret].
    eapply total_bind; [apply count_generation_total|]. intros ?.
    now apply IH.
Qed.

Lemma optimize_total (fuel : nat)
    (room_requirements : list (RoomType * nat)) :
  (size <= fuel)%nat ->
  total (fun _ => True)
    (optimize config constraints evaluation_function fuel footprint
       room_requirements room_requirements_dict)
    (fun r o => exists best,
                  r = Some best /\ best_layout o = Some best
                  /\ well_made footprint best).
Proof.
  intro Hfuel. unfold optimize.
  eapply total_bind_returns;
    [apply initialize_population_spec
    | apply keeps_opt_initialize_population|].
  intros population [Hlen Hall].
  eapply total_bind_returns;
    [apply (evaluate_all_spec _ Hall) | apply keeps_opt_evaluate_all|].
  intros evaluated [Helen Heval]. cbv zeta.
  assert (Hslen : length (sort_desc evaluated) = size)
    by (rewrite (Permutation_length (sort_desc_perm _)); lia).
  assert (Hsorted : Forall scored_well (sort_desc evaluated)).
  { apply Forall_forall. intros p Hp.
    apply (Permutation_in _ (sort_desc_perm _)) in Hp.
    rewrite Forall_forall in Heval. now apply Heval. }
  apply total_bind with (Q := fun _ => has_best).
  { intros w _. unfold record_initial_best.
    destruct (sort_desc evaluated) as [|first rest] eqn:Hs;
      [simpl in Hslen; lia|].
    inversion Hsorted as [|? ? Hfirst _]; subst.
    destruct (copy_well_made _ Hfirst w) as (c & w' & Hc & Hwm).
    unfold bind. rewrite Hc. unfold get_opt, put_opt.
    do 2 eexists. split; [reflexivity|]. simpl. now exists c. }
  intros ?.
  eapply total_bind;
    [apply (optimize_loop_total fuel _ Hfuel _ _ Hslen Hsorted)|].
  intros _ w (best & Hbest & Hwm). unfold bind, get_opt, ret.
  do 2 eexists. split; [reflexivity|]. now exists best.
Qed.

End WholeRun.

(** X23: [optimize] returns a best layout.  With a well-behaved runtime, a
    non-negative wall thickness, a population of at least three, an elite
    ratio between 0 and 1, at least one requirement, an evaluation function
    that returns a score for every layout over the footprint whose rooms
    have positive size and no furniture, door or window, and enough fuel
    for [population_size] turns of the offspring loop, [optimize] raises
    nothing and returns the layout it recorded as [best_layout], which is
    such a layout. *)
Theorem optimize_returns_a_layout {E : Runtime} (config : MonteCarloConfig)
    (constraints : LayoutConstraints)
    (evaluation_function : Layout -> result Q) (fuel : nat)
    (footprint : Rectangle)
    (room_requirements room_requirements_dict : list (RoomType * nat))
    (w : World) :
  RuntimeOk E ->
  0 <= wall_thickness config ->
  (3 <= population_size config)%Z ->
  0 <= elite_ratio config -> elite_ratio config <= 1 ->
  room_requirements_dict <> [] ->
  (forall l, well_made footprint l -> defined (evaluation_function l)) ->
  (Z.to_nat (population_size config) <= fuel)%nat ->
  exists best w',
    optimize config constraints evaluation_function fuel footprint
      room_requirements room_requirements_dict w
    = (Ok (Some best), w')
    /\ best_layout (w_opt w') = Some best
    /\ well_made footprint best.
Proof.
  intros HE Hmargin Hsize He0 He1 Hreqs Heval Hfuel.
  destruct (optimize_total HE config constraints evaluation_function
              footprint room_requirements_dict Hsize (conj He0 He1)
              Hreqs Heval fuel room_requirements Hfuel w I)
    as (r & w' & H & best & -> & Hbest & Hwm).
  now exists best, w'.
Qed.

Lemma optimize_returns_a_layout_witness :
  exists best w',
    optimize (E := demo_runtime) small_config LayoutConstraints_init
      (fun _ => Ok 0) 3 (mkRectangle 0 0 20 15) five_rooms five_rooms
      (demo_world 0)
    = (Ok (Some best), w')
    /\ best_layout (w_opt w') = Some best
    /\ well_made (mkRectangle 0 0 20 15) best.
Proof.
  apply (optimize_returns_a_layout (E := demo_runtime) small_config
           LayoutConstraints_init (fun _ => Ok 0) 3 (mkRectangle 0 0 20 15)
           five_rooms five_rooms (demo_world 0)).
  - apply demo_runtime_ok.
  - discriminate.
  - simpl. lia.
  - discriminate.
  - discriminate.
  - discriminate.
  - intros l _. now exists 0.
  - simpl. lia.
Defined.



(** ** Openings, furniture and placement *)

(** X25: adding a window to a room changes nothing to where furniture can
    be placed; adding a door, or a piece of furniture, rules out exactly
    the placements that intersect the door, or the piece when it is
    placed. *)
Theorem placement_after_additions (room : Room) (f : Furniture) (at_ : Point)
    (window door : Rectangle) (g : Furniture) :
  can_place_furniture (add_window room window) f at_
  = can_place_furniture room f at_
  /\ can_place_furniture (add_door room door) f at_
     = can_place_furniture room f at_
       && negb (intersects
                  (mkRectangle (pt_x at_) (pt_y at_) (current_width f)
                     (current_height f)) door)
  /\ can_place_furniture (add_furniture room g) f at_
     = can_place_furniture room f at_
       && negb (is_placed g
                && intersects
                     (mkRectangle (pt_x at_) (pt_y at_) (current_width f)
                        (current_height f)) (get_bounds g)).
Proof.
  unfold can_place_furniture, add_window, add_door, add_furniture.
  cbn [bounds furniture doors]. cbv zeta.
  split; [reflexivity|].
  destruct (negb (inside _ _)); [split; reflexivity|].
  rewrite !existsb_app. cbn [existsb]. rewrite !orb_false_r.
  split.
  - destruct (existsb _ (furniture room)); [reflexivity|].
    destruct (existsb _ (doors room)); [reflexivity|].
    now destruct (intersects _ door).
  - destruct (existsb _ (furniture room)); [reflexivity|].
    cbn [orb].
    destruct (is_placed g && intersects _ (get_bounds g));
      destruct (existsb _ (doors room)); reflexivity.
Qed.

(** ** Sizes drawn from a template *)



(** ** Rooms placed on the grid *)

(** X27: [_compact_place_room] never raises; it leaves the layout as it is
    or adds one room of the type and size asked for, which intersects no
    room the layout already has and lies in the footprint at least one
    wall thickness away from its sides. *)
Theorem compact_placement_avoids_rooms {E : Runtime}
    (config : MonteCarloConfig) (layout : Layout) (t : RoomType) (w h : Q)
    (s : World) :
  exists placed s',
    _compact_place_room config layout t w h s = (Ok placed, s')
    /\ layout_bounds placed = layout_bounds layout
    /\ (rooms placed = rooms layout
        \/ exists room,
             rooms placed = rooms layout ++ [room]
             /\ room_type room = t
             /\ width (bounds room) = w /\ height (bounds room) = h
             /\ within (wall_thickness config) (layout_bounds layout)
                  (bounds room)
             /\ Forall (fun existing =>
                          intersects (bounds room) (bounds existing) = false)
                       (rooms layout)).
Proof.
  unfold _compact_place_room. cbv zeta.
  destruct (find _ _) as [[row col]|] eqn:Hfind.
  - apply find_some in Hfind. destruct Hfind as [_ Hacc].
    apply andb_true_iff in Hacc. destruct Hacc as [Hacc Hfree].
    apply andb_true_iff in Hacc. destruct Hacc as [Hx Hy].
    apply Qle_bool_iff in Hx. apply Qle_bool_iff in Hy.
    cbn [rect_x rect_y] in Hx, Hy.
    unfold bind, Room_init, ret. do 2 eexists. split; [reflexivity|].
    split; [reflexivity|]. right. eexists. split; [reflexivity|].
    cbn [room_type bounds width height].
    split; [reflexivity|]. split; [reflexivity|]. split; [reflexivity|].
    split.
    + unfold within, left, right, top, bottom in *.
      cbn [rect_x rect_y width height].
      assert (0 <= inject_Z (Z.of_nat col))
        by (change 0 with (inject_Z 0); rewrite <- Zle_Qle; lia).
      assert (0 <= inject_Z (Z.of_nat row))
        by (change 0 with (inject_Z 0); rewrite <- Zle_Qle; lia).
      repeat split; lra.
    + apply negb_true_iff in Hfree.
      apply Forall_forall. intros existing Hin.
      apply not_true_is_false. intro Hi.
      rewrite (proj2 (existsb_exists _ _)) in Hfree; [discriminate|].
      now exists existing.
  - unfold ret. do 2 eexists. split; [reflexivity|].
    split; [reflexivity|]. now left.
Qed.

(** ** Generations and history *)

Section Counts.

Context {E : Runtime}.
Variable config : MonteCarloConfig.
Variable constraints : LayoutConstraints.
Variable evaluation_function : Layout -> result Q.

Local Abbreviation counts g n :=
  (fun o : Optimizer =>
     generation_count o = g /\ length (score_history o) = n).

Local Abbreviation anything := (fun _ : Optimizer => True).

Lemma counts_keeps {A} (m : M A) (g : Z) (n : nat) :
  keeps w_opt m -> triple (counts g n) m (fun _ => counts g n) anything.
Proof.
  intro Hk.
  eapply triple_conseq;
    [apply (triple_keeps (counts g n) m Hk)
    | intros o H; exact H | intros a o H; exact H | intros o _; exact I].
Qed.

Lemma update_best_counts (current_best : Layout * Q) (g : Z) (n : nat) :
  triple (counts g n) (update_best current_best) (fun _ => counts g n)
         anything.
Proof.
  unfold update_best.
  eapply triple_bind; [apply triple_get_opt|].
  intro self. cbv beta.
  destruct (ext_ltb (best_score self) (Fin (snd current_best))).
  - apply triple_bind with (Q := fun _ o => counts g n o /\ self = o).
    + eapply triple_conseq;
        [apply triple_keeps, keeps_opt_Layout_copy
        | intros o H; exact H | intros a o H; exact H | auto].
    + intro c. apply triple_put_opt. now intros o' [Ho <-].
  - apply triple_put_opt. now intros o' [Ho <-].
Qed.

Lemma record_history_counts (g : Z) (n : nat) :
  triple (counts g n) record_history (fun _ => counts g (S n)) anything.
Proof.
  unfold record_history.
  eapply triple_bind; [apply triple_get_opt|].
  intro self. apply triple_put_opt.
  intros o' [[Hg Hn] <-]. simpl. split; [assumption|].
  rewrite length_app. simpl. lia.
Qed.

Lemma count_generation_counts (g : Z) (n : nat) :
  triple (counts g n) count_generation (fun _ => counts (g + 1)%Z n) anything.
Proof.
  unfold count_generation.
  eapply triple_bind; [apply triple_get_opt|].
  intro self. apply triple_put_opt.
  intros o' [[Hg Hn] <-]. simpl. split; [lia | assumption].
Qed.

Lemma optimize_iteration_counts (fuel : nat) (footprint : Rectangle)
    (room_requirements_dict : list (RoomType * nat))
    (evaluated_population : list (Layout * Q)) (temperature : Q)
    (g : Z) (n : nat) :
  triple (counts g n)
    (optimize_iteration config evaluation_function fuel footprint
       room_requirements_dict evaluated_population temperature)
    (fun _ => counts g (S n)) anything.
Proof.
  unfold optimize_iteration.
  eapply triple_bind;
    [apply counts_keeps, keeps_opt_select_parents | intro parents].
  eapply triple_bind;
    [apply counts_keeps, keeps_opt_generate_offspring | intro offspring].
  eapply triple_bind;
    [apply counts_keeps, keeps_opt_evaluate_all | intro evaluated].
  cbv zeta.
  eapply triple_bind; [apply counts_keeps, keeps_opt_index | intro best].
  eapply triple_bind; [apply update_best_counts | intro].
  eapply triple_bind; [apply record_history_counts | intro].
  eapply triple_bind;
    [apply counts_keeps, keeps_opt_check_convergence | intro converged].
  apply triple_ret. auto.
Qed.

Lemma optimize_loop_counts (fuel : nat) (footprint : Rectangle)
    (room_requirements_dict : list (RoomType * nat)) (iterations : nat) :
  forall (evaluated_population : list (Layout * Q)) (temperature : Q)
         (g : Z) (n : nat),
    triple (counts g n)
      (optimize_loop config evaluation_function fuel iterations footprint
         room_requirements_dict evaluated_population temperature)
      (fun _ o =>
         exists j,
           (j <= iterations)%nat
           /\ generation_count o = (g + Z.of_nat j)%Z
           /\ (length (score_history o) = (n + j)%nat
               \/ ((j < iterations)%nat
                   /\ length (score_history o) = (n + S j)%nat)))
      anything.
Proof.
  induction iterations as [|iterations IH];
    intros evaluated_population temperature g n; simpl.
  - apply triple_ret. intros o [Hg Hn]. exists O.
    split; [lia|]. split; [lia|]. left. lia.
  - eapply triple_bind; [apply optimize_iteration_counts|].
    intros [[go_on population] temperature']. destruct go_on.
    + eapply triple_bind; [apply count_generation_counts | intro].
      eapply triple_conseq;
        [apply IH | intros o H; exact H | | intros o H; exact H].
      intros r o (j & Hj & Hg & Hn). exists (S j).
      split; [lia|]. split; [lia|].
      destruct Hn as [Hn | [Hlt Hn]]; [left; lia | right; lia].
    + apply triple_ret. intros o [Hg Hn]. exists O.
      split; [lia|]. split; [lia|]. right. lia.
Qed.

Lemma optimize_counts (fuel : nat) (footprint : Rectangle)
    (room_requirements room_requirements_dict : list (RoomType * nat))
    (g : Z) (n : nat) :
  triple (counts g n)
    (optimize config constraints evaluation_function fuel footprint
       room_requirements room_requirements_dict)
    (fun _ o =>
       exists j,
         (j <= Z.to_nat (max_iterations config))%nat
         /\ generation_count o = (g + Z.of_nat j)%Z
         /\ (length (score_history o) = (n + j)%nat
             \/ ((j < Z.to_nat (max_iterations config))%nat
                 /\ length (score_history o) = (n + S j)%nat)))
    anything.
Proof.
  unfold optimize.
  eapply triple_bind;
    [apply counts_keeps, keeps_opt_initialize_population | intro population].
  eapply triple_bind;
    [apply counts_keeps, keeps_opt_evaluate_all | intro evaluated].
  cbv zeta.
  apply triple_bind with (Q := fun _ => counts g n).
  { unfold record_initial_best.
    destruct (sort_desc evaluated) as [|first rest];
      [now apply triple_ret|].
    apply triple_bind with (Q := fun _ => counts g n);
      [apply counts_keeps, keeps_opt_Layout_copy | intro c].
    eapply triple_bind; [apply triple_get_opt | intro self].
    apply triple_put_opt. now intros o' [Ho <-]. }
  intro.
  eapply triple_bind; [apply optimize_loop_counts | intro].
  eapply triple_bind; [apply triple_get_opt | intro self].
  apply triple_ret. now intros o [Ho _].
Qed.

End Counts.

(** X28: when [optimize] returns, [generation_count] has grown by the
    number of iterations run to their end, at most [max_iterations], and
    [score_history] has one more entry for each of them, and one more
    still when the run stopped early on convergence: the iteration that
    detects convergence appends its score but is not counted. *)
Theorem optimize_counts_generations {E : Runtime} (config : MonteCarloConfig)
    (constraints : LayoutConstraints)
    (evaluation_function : Layout -> result Q) (fuel : nat)
    (footprint : Rectangle)
    (room_requirements room_requirements_dict : list (RoomType * nat))
    (w : World) :
  match optimize config constraints evaluation_function fuel footprint
          room_requirements room_requirements_dict w with
  | (Ok _, w') =>
      exists completed,
        (completed <= Z.to_nat (max_iterations config))%nat
        /\ generation_count (w_opt w')
           = (generation_count (w_opt w) + Z.of_nat completed)%Z
        /\ (length (score_history (w_opt w'))
            = (length (score_history (w_opt w)) + completed)%nat
            \/ ((completed < Z.to_nat (max_iterations config))%nat
                /\ length (score_history (w_opt w'))
                   = (length (score_history (w_opt w)) + S completed)%nat))
  | _ => True
  end.
Proof.
  pose proof (optimize_counts config constraints evaluation_function fuel
                footprint room_requirements room_requirements_dict
                (generation_count (w_opt w))
                (length (score_history (w_opt w))) w (conj eq_refl eq_refl))
    as H.
  destruct (optimize _ _ _ _ _ _ _ w) as [[r | e |] w']; auto.
Qed.

(** ** Hallways *)

Lemma pymin_le_pymax (a b : Q) : pymin a b <= pymax a b.
Proof.
  unfold pymin, pymax.
  destruct (Qltb b a) eqn:Hba, (Qltb a b) eqn:Hab;
    try apply Qltb_lt in Hba; try apply Qltb_lt in Hab;
    try apply Qltb_ge in Hba; try apply Qltb_ge in Hab; lra.
Qed.

Lemma hallway_between_sides (constraints : LayoutConstraints)
    (start_point end_point : Point) :
  let hallway := hallway_between constraints start_point end_point in
  (height hallway = min_hallway_width constraints
   /\ min_hallway_width constraints <= width hallway)
  \/ (width hallway = min_hallway_width constraints
      /\ min_hallway_width constraints <= height hallway).
Proof.
  unfold hallway_between. cbv zeta.
  destruct (Qltb _ _); [left | right]; cbn [width height];
    (split; [reflexivity|]).
  - pose proof (pymin_le_pymax (pt_x start_point) (pt_x end_point)). lra.
  - pose proof (pymin_le_pymax (pt_y start_point) (pt_y end_point)). lra.
Qed.

Section Hallways.

Context {E : Runtime}.
Variable constraints : LayoutConstraints.

Local Abbreviation corridor :=
  (fun hallway : Rectangle =>
     (height hallway = min_hallway_width constraints
      /\ min_hallway_width constraints <= width hallway)
     \/ (width hallway = min_hallway_width constraints
         /\ min_hallway_width constraints <= height hallway)).

Lemma add_hallways_loop (main_room : Room) (rs : list Room) :
  forall layout : Layout,
    returns
      (foldM (fun layout room =>
                if negb (Z.eqb (id room) (id main_room)) then
                  bind random
                    (fun u =>
                       if Qltb u (3 # 10) then
                         ret (add_hallway layout
                                (hallway_between constraints
                                   (center (bounds main_room))
                                   (center (bounds room))))
                       else ret layout)
                else ret layout)
             rs layout)
      (fun l => rooms l = rooms layout
                /\ layout_bounds l = layout_bounds layout
                /\ exists added,
                     hallways l = hallways layout ++ added
                     /\ Forall corridor added
                     /\ (length added
                         <= length (filter (fun r => negb (Z.eqb (id r)
                                                             (id main_room)))
                                           rs))%nat).
Proof.
  induction rs as [|room rs IH]; intro layout; simpl.
  - apply returns_ret. split; [reflexivity|]. split; [reflexivity|].
    exists []. rewrite app_nil_r.
    split; [reflexivity|]. split; [constructor | simpl; lia].
  - destruct (negb (Z.eqb (id room) (id main_room))).
    + apply returns_bind
        with (P := fun l => rooms l = rooms layout
                            /\ layout_bounds l = layout_bounds layout
                            /\ exists added,
                                 hallways l = hallways layout ++ added
                                 /\ Forall corridor added
                                 /\ (length added <= 1)%nat).
      * intro w. unfold bind, random, with_rng.
        destruct (rng_random (w_rng w)) as [u s'].
        destruct (Qltb u (3 # 10)).
        -- do 2 eexists. split; [reflexivity|].
           split; [reflexivity|]. split; [reflexivity|].
           eexists [_]. split; [reflexivity|]. split; [|simpl; lia].
           constructor; [apply hallway_between_sides | constructor].
        -- do 2 eexists. split; [reflexivity|].
           split; [reflexivity|]. split; [reflexivity|].
           exists []. rewrite app_nil_r.
           split; [reflexivity|]. split; [constructor | simpl; lia].
      * intros l (Hr & Hb & added & Hh & Hc & Hlen).
        eapply returns_weaken; [apply IH|].
        intros l' (Hr' & Hb' & added' & Hh' & Hc' & Hlen').
        split; [congruence|]. split; [congruence|].
        exists (added ++ added'). rewrite Hh', Hh, <- app_assoc.
        split; [reflexivity|]. split; [apply Forall_app; now split|].
        rewrite length_app. simpl. lia.
    + apply returns_bind with (P := fun l => l = layout);
        [now apply returns_ret|].
      intros l ->. apply IH.
Qed.

End Hallways.

(** X29: [_add_hallways] never raises and changes neither the rooms nor the
    footprint of the layout: it only appends hallways, fewer than there are
    rooms, and none when the layout has fewer than two rooms or no living
    room.  Every hallway it appends has the minimal hallway width of the
    constraints as one side and at least that as the other. *)
Theorem add_hallways_appends_corridors {E : Runtime}
    (constraints : LayoutConstraints) (layout : Layout) (w : World) :
  exists result w' added,
    _add_hallways constraints layout w = (Ok result, w')
    /\ rooms result = rooms layout
    /\ layout_bounds result = layout_bounds layout
    /\ hallways result = hallways layout ++ added
    /\ (length added <= length (rooms layout) - 1)%nat
    /\ ((length (rooms layout) < 2)%nat
        \/ get_rooms_by_type layout LIVING_ROOM = [] -> added = [])
    /\ Forall (fun hallway =>
                 (height hallway = min_hallway_width constraints
                  /\ min_hallway_width constraints <= width hallway)
                 \/ (width hallway = min_hallway_width constraints
                     /\ min_hallway_width constraints <= height hallway))
              added.
Proof.
  unfold _add_hallways.
  destruct (length (rooms layout) <? 2)%nat eqn:Hfew.
  { exists layout, w, []. rewrite app_nil_r.
    split; [reflexivity|]. split; [reflexivity|]. split; [reflexivity|].
    split; [reflexivity|]. split; [simpl; lia|].
    split; [reflexivity | constructor]. }
  apply Nat.ltb_ge in Hfew.
  destruct (get_rooms_by_type layout LIVING_ROOM) as [|main_room others]
    eqn:Hliving.
  { exists layout, w, []. rewrite app_nil_r.
    split; [reflexivity|]. split; [reflexivity|]. split; [reflexivity|].
    split; [reflexivity|]. split; [simpl; lia|].
    split; [reflexivity | constructor]. }
  destruct (add_hallways_loop constraints main_room (rooms layout) layout w)
    as (result & w' & Hrun & Hr & Hb & added & Hh & Hc & Hlen).
  exists result, w', added. repeat split; try assumption.
  - assert (Hmain : In main_room (rooms layout)).
    { assert (Hin : In main_room (get_rooms_by_type layout LIVING_ROOM))
        by (rewrite Hliving; now left).
      unfold get_rooms_by_type in Hin. now apply filter_In in Hin. }
    clear - Hlen Hmain.
    assert (Hcount : forall rs,
               In main_room rs ->
               (length (filter (fun r => negb (Z.eqb (id r) (id main_room)))
                               rs) <= length rs - 1)%nat).
    { induction rs as [|r rs IH]; intro Hin; [destruct Hin|].
      simpl. destruct Hin as [-> | Hin].
      - rewrite Z.eqb_refl. simpl.
        pose proof (filter_length_le
                      (fun r => negb (Z.eqb (id r) (id main_room))) rs).
        lia.
      - specialize (IH Hin).
        destruct (negb _); simpl; [|lia].
        destruct rs; [destruct Hin | simpl in *; lia]. }
    specialize (Hcount _ Hmain). lia.
  - intros [Hlt | Hnone]; [lia | discriminate].
Qed.

(** ** Points and free area *)

Lemma point_sub_add (p q : Point) :
  pt_x (Point_sub (Point_add p q) q) == pt_x p
  /\ pt_y (Point_sub (Point_add p q) q) == pt_y p.
Proof. unfold Point_sub, Point_add. simpl. split; ring. Qed.

Lemma free_area_and_used_area (r : Room) :
  free_area r + used_area r == room_area r.
Proof. unfold free_area. ring. Qed.
